(** * Protected QR service: token protocol and orchestration layer

    A shallow embedding of the TypeScript sources

      - [utils/hex.ts]            ([assertHexLength], [hexToBuffer])
      - [utils/http-exception.ts] ([HttpException])
      - [config/index.ts]         ([required], [config])
      - [services/qr.service.ts]  ([QrService.generate], [QrService.verify],
                                   [QrService.decodeToken])
      - [controllers/qr.controller.ts], [middleware/error-handler.ts]

    together with executable models of the Node.js runtime operations these
    sources call ([Buffer] encodings, [String.prototype] methods,
    [crypto.createHmac]). *)

From Stdlib Require Import ZArith List String Ascii Bool Lia.
Import ListNotations.
Local Open Scope Z_scope.

(* ================================================================== *)
(** ** JavaScript strings *)

(** A JavaScript string is a finite sequence of UTF-16 code units. *)
Definition jsstring := list Z.

(** A string literal of the source text (ASCII only). *)
Definition lit (s : string) : jsstring :=
  map (fun a => Z.of_nat (nat_of_ascii a)) (list_ascii_of_string s).

Definition ch (a : ascii) : Z := Z.of_nat (nat_of_ascii a).

(** [s.length] *)
Definition jslength (s : jsstring) : Z := Z.of_nat (List.length s).

(** [s.replace(/c/g, d)] for a one-character pattern and replacement. *)
Definition replace_all (c d : Z) (s : jsstring) : jsstring :=
  map (fun x => if x =? c then d else x) s.

(** [s.replace(/c/g, "")] *)
Definition remove_all (c : Z) (s : jsstring) : jsstring :=
  filter (fun x => negb (x =? c)) s.

(** [s.split(c)] for a one-character separator: the pieces between the
    occurrences of [c], in order.  [split_at c s] is the pair of the first
    piece and the remaining pieces. *)
Fixpoint split_at (c : Z) (s : jsstring) : jsstring * list jsstring :=
  match s with
  | [] => ([], [])
  | x :: s' =>
      let (piece, pieces) := split_at c s' in
      if x =? c then ([], piece :: pieces) else (x :: piece, pieces)
  end.

Definition split (c : Z) (s : jsstring) : list jsstring :=
  let (piece, pieces) := split_at c s in piece :: pieces.

(** [s.slice(0, n)] for [0 <= n]. *)
Definition slice0 (n : nat) (s : jsstring) : jsstring := firstn n s.

(** Decimal rendering of a non-negative integer inside a template literal. *)
Fixpoint decimal_digits (fuel : nat) (n : Z) (acc : jsstring) : jsstring :=
  match fuel with
  | O => acc
  | S fuel' =>
      let acc' := (ch "0" + n mod 10) :: acc in
      if n / 10 =? 0 then acc' else decimal_digits fuel' (n / 10) acc'
  end.

Definition decimal (n : Z) : jsstring :=
  decimal_digits (S (Z.to_nat n)) n [].

(* ================================================================== *)
(** ** Errors and results *)

(** What [parsed.error.flatten()] reports for a body the request schema
    rejects: for a body that is not a JSON object (an array, or none) one
    form-level message and no field; for an object the names of the
    properties it rejects, in schema order. *)
Inductive SchemaErrors : Type :=
| FormError
| FieldErrors (names : list jsstring).

(** The values the sources throw.  [HttpException] is the class of
    [utils/http-exception.ts]; its optional [details] are, where present,
    what the request schema reported.  [RangeError] and
    [TypeError] are raised by the runtime; [ExternalError] stands for the
    [Error] objects with which the HTTP client and the database driver
    reject. *)
Inductive exn : Type :=
| HttpException (status : Z) (message : jsstring)
                (details : option SchemaErrors)
| RangeError (message : jsstring)
| TypeError (message : jsstring)
| ExternalError (message : jsstring)
| PlainError (message : jsstring).

(** [err.message] *)
Definition exn_message (e : exn) : jsstring :=
  match e with
  | HttpException _ m _ => m
  | RangeError m | TypeError m | ExternalError m | PlainError m => m
  end.

Inductive result (A : Type) : Type :=
| Ok (a : A)
| Throw (e : exn).
Arguments Ok {A} a.
Arguments Throw {A} e.

Definition rbind {A B} (r : result A) (k : A -> result B) : result B :=
  match r with
  | Ok a => k a
  | Throw e => Throw e
  end.

Declare Scope result_scope.
Delimit Scope result_scope with result.
Notation "x <- r ;; k" := (rbind r (fun x => k))
  (at level 61, r at next level, right associativity) : result_scope.

(* ================================================================== *)
(** ** utils/hex.ts *)

Module Hex.

Definition is_digit (c : Z) : bool := (ch "0" <=? c) && (c <=? ch "9").
Definition is_lower_hex (c : Z) : bool := (ch "a" <=? c) && (c <=? ch "f").
Definition is_upper_hex (c : Z) : bool := (ch "A" <=? c) && (c <=? ch "F").

(** The character class [[0-9a-fA-F]]. *)
Definition is_hex_char (c : Z) : bool :=
  is_digit c || is_lower_hex c || is_upper_hex c.

(** [/^[0-9a-fA-F]+$/.test(value)]: one or more characters, all of them
    hexadecimal digits. *)
Definition hex_regex_test (value : jsstring) : bool :=
  match value with
  | [] => false
  | _ => forallb is_hex_char value
  end.

(** [assertHexLength(label, value, expectedLength)] *)
Definition assertHexLength (label value : jsstring) (expectedLength : Z)
  : result unit :=
  if negb (hex_regex_test value) then
    Throw (HttpException 400 (label ++ lit " must be hex string") None)
  else if negb (jslength value =? expectedLength) then
    Throw (HttpException 400
             (label ++ lit " must be " ++ decimal expectedLength
                    ++ lit " hex chars") None)
  else Ok tt.

End Hex.

(* ================================================================== *)
(** ** Node.js [Buffer]

    A buffer is a list of bytes, each a [Z] in [0, 256). *)

Module Buffer.

Definition bytes := list Z.

Definition is_byte (b : Z) : Prop := 0 <= b < 256.

(** [buf.length] *)
Definition byteLength (buf : bytes) : Z := Z.of_nat (List.length buf).

(** *** Encoding ["hex"] *)

(** The runtime's decoders read a UTF-16 code unit through its low-order
    byte: a code unit of 256 or more counts as the character of its low
    byte. *)
Definition low_byte (c : Z) : Z := Z.land c 255.

(** The value of a hexadecimal digit, [None] for any other character. *)
Definition unhex (c : Z) : option Z :=
  let b := low_byte c in
  if Hex.is_digit b then Some (b - ch "0")
  else if Hex.is_lower_hex b then Some (b - ch "a" + 10)
  else if Hex.is_upper_hex b then Some (b - ch "A" + 10)
  else None.

(** [Buffer.from(value, "hex")]: pairs of digits are decoded from the
    left; decoding stops at the first pair that is not two hexadecimal
    digits, and a trailing single character is dropped. *)
Fixpoint from_hex (value : jsstring) : bytes :=
  match value with
  | c1 :: c2 :: rest =>
      match unhex c1, unhex c2 with
      | Some a, Some b => Z.lor (Z.shiftl a 4) b :: from_hex rest
      | _, _ => []
      end
  | _ => []
  end.

Definition hex_digit (v : Z) : Z :=
  if v <? 10 then ch "0" + v else ch "a" + (v - 10).

(** [buf.toString("hex")]: two lowercase digits per byte. *)
Fixpoint to_hex (buf : bytes) : jsstring :=
  match buf with
  | [] => []
  | b :: rest =>
      hex_digit (Z.shiftr b 4) :: hex_digit (Z.land b 15) :: to_hex rest
  end.

(** *** Encoding ["base64"] *)

Definition base64_table : jsstring :=
  lit "ABCDEFGHIJKLMNOPQRSTUVWXYZabcdefghijklmnopqrstuvwxyz0123456789+/".

Definition base64_char (v : Z) : Z := nth (Z.to_nat v) base64_table 0.

(** The 6-bit groups of a buffer, a final group zero-filled. *)
Fixpoint sextets (buf : bytes) : list Z :=
  match buf with
  | a :: b :: c :: rest =>
      Z.shiftr a 2
      :: Z.lor (Z.shiftl (Z.land a 3) 4) (Z.shiftr b 4)
      :: Z.lor (Z.shiftl (Z.land b 15) 2) (Z.shiftr c 6)
      :: Z.land c 63
      :: sextets rest
  | [a; b] =>
      [Z.shiftr a 2;
       Z.lor (Z.shiftl (Z.land a 3) 4) (Z.shiftr b 4);
       Z.shiftl (Z.land b 15) 2]
  | [a] => [Z.shiftr a 2; Z.shiftl (Z.land a 3) 4]
  | [] => []
  end.

Definition base64_padding (len : nat) : nat := ((3 - len mod 3) mod 3)%nat.

(** [buf.toString("base64")]: the standard alphabet, padded with [=] to
    a multiple of four characters. *)
Definition to_base64 (buf : bytes) : jsstring :=
  map base64_char (sextets buf)
  ++ repeat (ch "=") (base64_padding (List.length buf)).

(** The decoder's character table: it accepts the standard and the
    URL-safe alphabet alike. *)
Definition unbase64 (c : Z) : option Z :=
  let b := low_byte c in
  if (ch "A" <=? b) && (b <=? ch "Z") then Some (b - ch "A")
  else if (ch "a" <=? b) && (b <=? ch "z") then Some (b - ch "a" + 26)
  else if (ch "0" <=? b) && (b <=? ch "9") then Some (b - ch "0" + 52)
  else if (b =? ch "+") || (b =? ch "-") then Some 62
  else if (b =? ch "/") || (b =? ch "_") then Some 63
  else None.

(** The decoder reads the text from the left, each code unit through its
    low byte, skips every character outside its table and stops at the
    first [=]. *)
Fixpoint unbase64_all (src : jsstring) : list Z :=
  match src with
  | [] => []
  | c :: rest =>
      if low_byte c =? ch "=" then []
      else match unbase64 c with
           | Some v => v :: unbase64_all rest
           | None => unbase64_all rest
           end
  end.

(** Four 6-bit groups give three bytes; a final three give two bytes, a
    final two give one byte and a final single group gives none. *)
Fixpoint unsextets (vs : list Z) : bytes :=
  match vs with
  | a :: b :: c :: d :: rest =>
      Z.lor (Z.shiftl (Z.land a 63) 2) (Z.shiftr (Z.land b 48) 4)
      :: Z.lor (Z.shiftl (Z.land b 15) 4) (Z.shiftr (Z.land c 60) 2)
      :: Z.lor (Z.shiftl (Z.land c 3) 6) (Z.land d 63)
      :: unsextets rest
  | [a; b; c] =>
      [Z.lor (Z.shiftl (Z.land a 63) 2) (Z.shiftr (Z.land b 48) 4);
       Z.lor (Z.shiftl (Z.land b 15) 4) (Z.shiftr (Z.land c 60) 2)]
  | [a; b] =>
      [Z.lor (Z.shiftl (Z.land a 63) 2) (Z.shiftr (Z.land b 48) 4)]
  | _ => []
  end.

(** [Buffer.from(text, "base64")]: never fails on a string. *)
Definition from_base64 (src : jsstring) : bytes :=
  unsextets (unbase64_all src).

(** *** Integers *)

(** The [n] low-order bytes of [v], most significant first. *)
Fixpoint big_endian (n : nat) (v : Z) : bytes :=
  match n with
  | O => []
  | S n' => big_endian n' (Z.shiftr v 8) ++ [Z.land v 255]
  end.

(** [buf.writeUIntBE(value, 0, 6)] on [buf = Buffer.alloc(6)]: the
    runtime rejects a value outside [0, 2^48 - 1] with a [RangeError]
    (code [ERR_OUT_OF_RANGE]) and otherwise stores the six bytes of the
    value, most significant first. *)
Definition writeUIntBE6 (value : Z) : result bytes :=
  if (value <? 0) || (281474976710655 <? value) then
    Throw (RangeError (lit "ERR_OUT_OF_RANGE"))
  else Ok (big_endian 6 value).

(** [buf.subarray(start, end)] for [0 <= start <= end]. *)
Definition subarray (start stop : nat) (buf : bytes) : bytes :=
  firstn (stop - start) (skipn start buf).

(** [Buffer.concat(list)] *)
Definition concat (l : list bytes) : bytes := List.concat l.

(** [Buffer.from(text, "utf8")], the bytes a string key stands for. *)
Fixpoint from_utf8 (s : jsstring) : bytes :=
  match s with
  | [] => []
  | c :: rest =>
      if c <? 128 then c :: from_utf8 rest
      else if c <? 2048 then
        Z.lor 192 (Z.shiftr c 6) :: Z.lor 128 (Z.land c 63)
        :: from_utf8 rest
      else
        let three u :=
          [Z.lor 224 (Z.shiftr u 12);
           Z.lor 128 (Z.land (Z.shiftr u 6) 63);
           Z.lor 128 (Z.land u 63)] in
        if (55296 <=? c) && (c <? 56320) then
          match rest with
          | d :: rest' =>
              if (56320 <=? d) && (d <? 57344) then
                let u := 65536 + Z.shiftl (c - 55296) 10 + (d - 56320) in
                [Z.lor 240 (Z.shiftr u 18);
                 Z.lor 128 (Z.land (Z.shiftr u 12) 63);
                 Z.lor 128 (Z.land (Z.shiftr u 6) 63);
                 Z.lor 128 (Z.land u 63)] ++ from_utf8 rest'
              else three 65533 ++ from_utf8 rest
          | [] => three 65533
          end
        else if (56320 <=? c) && (c <? 57344) then
          three 65533 ++ from_utf8 rest
        else three c ++ from_utf8 rest
  end.

End Buffer.

(* ================================================================== *)
(** ** Node.js [crypto]: HMAC-SHA-256 (FIPS 180-4, RFC 2104) *)

Module Crypto.

Definition word_mask : Z := 4294967295.

Definition add32 (a b : Z) : Z := Z.land (a + b) word_mask.

Definition rotr (n x : Z) : Z :=
  Z.land (Z.lor (Z.shiftr x n) (Z.shiftl x (32 - n))) word_mask.

Definition Ch (x y z : Z) : Z :=
  Z.lxor (Z.land x y) (Z.land (Z.lxor x word_mask) z).

Definition Maj (x y z : Z) : Z :=
  Z.lxor (Z.lxor (Z.land x y) (Z.land x z)) (Z.land y z).

Definition Sigma0 (x : Z) : Z :=
  Z.lxor (Z.lxor (rotr 2 x) (rotr 13 x)) (rotr 22 x).
Definition Sigma1 (x : Z) : Z :=
  Z.lxor (Z.lxor (rotr 6 x) (rotr 11 x)) (rotr 25 x).
Definition sigma0 (x : Z) : Z :=
  Z.lxor (Z.lxor (rotr 7 x) (rotr 18 x)) (Z.shiftr x 3).
Definition sigma1 (x : Z) : Z :=
  Z.lxor (Z.lxor (rotr 17 x) (rotr 19 x)) (Z.shiftr x 10).

(** The constants of FIPS 180-4 are defined from the first primes: a
round constant is the first 32 bits of the fractional part of a prime's
cube root, an initial hash word those of its square root. *)
Definition is_prime (n : Z) : bool :=
  (1 <? n)
  && forallb (fun d => negb (n mod d =? 0))
       (map Z.of_nat (seq 2 (Z.to_nat n - 2))).

Definition first_primes (count : nat) : list Z :=
  firstn count (filter is_prime (map Z.of_nat (seq 2 400))).

(** The integer cube root of [n] below [2 ^ bits], found bit by bit. *)
Fixpoint cube_root (bits : nat) (n r : Z) : Z :=
  match bits with
  | O => r
  | S bits' =>
      let r' := r + 2 ^ Z.of_nat bits' in
      cube_root bits' n (if r' * r' * r' <=? n then r' else r)
  end.

Definition cube_root_fraction (p : Z) : Z :=
  Z.land (cube_root 40 (p * 2 ^ 96) 0) word_mask.

Definition square_root_fraction (p : Z) : Z :=
  Z.land (Z.sqrt (p * 2 ^ 64)) word_mask.

Definition K256 : list Z :=
  Eval vm_compute in map cube_root_fraction (first_primes 64).

(** The eight working variables, also the hash value between blocks. *)
Record state : Type := mkState {
  ha : Z; hb : Z; hc : Z; hd : Z; he : Z; hf : Z; hg : Z; hh : Z
}.

Definition state_of_words (ws : list Z) : state :=
  mkState (nth 0 ws 0) (nth 1 ws 0) (nth 2 ws 0) (nth 3 ws 0)
          (nth 4 ws 0) (nth 5 ws 0) (nth 6 ws 0) (nth 7 ws 0).

Definition H0 : state :=
  Eval vm_compute in
    state_of_words (map square_root_fraction (first_primes 8)).

(** Big-endian 32-bit words of a block of bytes. *)
Fixpoint words_of_bytes (bs : Buffer.bytes) : list Z :=
  match bs with
  | a :: b :: c :: d :: rest =>
      Z.lor (Z.lor (Z.shiftl a 24) (Z.shiftl b 16))
            (Z.lor (Z.shiftl c 8) d)
      :: words_of_bytes rest
  | _ => []
  end.

(** The message schedule, most recent word first: [rev_w] holds
    [W(t-1), W(t-2), ...] and [n] further words are added. *)
Fixpoint schedule (n : nat) (rev_w : list Z) : list Z :=
  match n with
  | O => rev_w
  | S n' =>
      let w :=
        add32 (add32 (sigma1 (nth 1 rev_w 0)) (nth 6 rev_w 0))
              (add32 (sigma0 (nth 14 rev_w 0)) (nth 15 rev_w 0)) in
      schedule n' (w :: rev_w)
  end.

Definition round (s : state) (kw : Z * Z) : state :=
  let (k, w) := kw in
  let t1 :=
    add32 (add32 (add32 (hh s) (Sigma1 (he s)))
                 (add32 (Ch (he s) (hf s) (hg s)) k)) w in
  let t2 := add32 (Sigma0 (ha s)) (Maj (ha s) (hb s) (hc s)) in
  mkState (add32 t1 t2) (ha s) (hb s) (hc s)
          (add32 (hd s) t1) (he s) (hf s) (hg s).

Definition compress (h : state) (block : Buffer.bytes) : state :=
  let w := rev (schedule 48 (rev (words_of_bytes block))) in
  let s := fold_left round (combine K256 w) h in
  mkState (add32 (ha h) (ha s)) (add32 (hb h) (hb s))
          (add32 (hc h) (hc s)) (add32 (hd h) (hd s))
          (add32 (he h) (he s)) (add32 (hf h) (hf s))
          (add32 (hg h) (hg s)) (add32 (hh h) (hh s)).

(** The message followed by the bit [1], zero bits up to 56 modulo 64
    bytes, and the bit length as a 64-bit big-endian integer. *)
Definition pad (msg : Buffer.bytes) : Buffer.bytes :=
  let len := List.length msg in
  msg ++ [128]
      ++ repeat 0 ((119 - len mod 64) mod 64)%nat
      ++ Buffer.big_endian 8 (8 * Z.of_nat len).

Fixpoint hash_blocks (n : nat) (h : state) (bs : Buffer.bytes) : state :=
  match n with
  | O => h
  | S n' => hash_blocks n' (compress h (firstn 64 bs)) (skipn 64 bs)
  end.

Definition word_bytes (w : Z) : Buffer.bytes := Buffer.big_endian 4 w.

Definition sha256 (msg : Buffer.bytes) : Buffer.bytes :=
  let p := pad msg in
  let h := hash_blocks (List.length p / 64) H0 p in
  word_bytes (ha h) ++ word_bytes (hb h) ++ word_bytes (hc h)
  ++ word_bytes (hd h) ++ word_bytes (he h) ++ word_bytes (hf h)
  ++ word_bytes (hg h) ++ word_bytes (hh h).

(** The 64-byte block key: a key longer than a block is hashed first,
    and the key is zero-filled to the block size. *)
Definition block_key (key : Buffer.bytes) : Buffer.bytes :=
  let k := if (64 <? List.length key)%nat then sha256 key else key in
  k ++ repeat 0 (64 - List.length k)%nat.

(** [crypto.createHmac("sha256", key).update(msg).digest()] *)
Definition hmac_sha256 (key msg : Buffer.bytes) : Buffer.bytes :=
  let k := block_key key in
  sha256 (map (Z.lxor 92) k ++ sha256 (map (Z.lxor 54) k ++ msg)).

(** [crypto.createHmac("sha256", secret).update(msg).digest("hex")] for
    a string secret, which the runtime reads as UTF-8. *)
Definition createHmac_sha256_hex (secret : jsstring) (msg : Buffer.bytes)
  : jsstring :=
  Buffer.to_hex (hmac_sha256 (Buffer.from_utf8 secret) msg).

End Crypto.

(* ================================================================== *)
(** ** JavaScript numbers and values *)

(** Numbers are IEEE doubles to the runtime.  The sources never compute
    with them: they convert ([Number(...)]), test truthiness and pass them
    on.  The interface below is all the sources use. *)
Class JsNumber : Type := {
  number : Type;
  (** an integer literal of the source text *)
  num_of_Z : Z -> number;
  (** [false] exactly for [0], [-0] and [NaN] *)
  num_truthy : number -> bool;
  (** [Number(text)] *)
  Number_of_string : jsstring -> number
}.

(** Integer-valued numbers with [None] for [NaN]: the instance on which
    the concrete examples are evaluated. *)
Fixpoint digits_value (acc : Z) (s : jsstring) : option Z :=
  match s with
  | [] => Some acc
  | c :: rest =>
      if Hex.is_digit c then digits_value (10 * acc + (c - ch "0")) rest
      else None
  end.

#[export] Instance IntegerNumbers : JsNumber := {|
  number := option Z;
  num_of_Z := Some;
  num_truthy := fun n =>
    match n with
    | Some z => negb (z =? 0)
    | None => false
    end;
  Number_of_string := digits_value 0
|}.

Section Values.
Context `{JsNumber}.

(** The values a decoded JSON document or a missing property can be. *)
Inductive jsval : Type :=
| VUndefined
| VNull
| VBoolean (b : bool)
| VNumber (n : number)
| VString (s : jsstring)
| VObject.

(** [Boolean(v)], also the test of [v ? _ : _] and [!v]. *)
Definition truthy (v : jsval) : bool :=
  match v with
  | VUndefined | VNull => false
  | VBoolean b => b
  | VNumber n => num_truthy n
  | VString s => match s with [] => false | _ => true end
  | VObject => true
  end.

(** [v ?? d] *)
Definition nullish (v d : jsval) : jsval :=
  match v with
  | VUndefined | VNull => d
  | _ => v
  end.

End Values.

(** [text.repeat(count)]: a negative count is a [RangeError]. *)
Definition js_repeat (text : jsstring) (count : Z) : result jsstring :=
  if count <? 0 then Throw (RangeError (lit "Invalid count value"))
  else Ok (List.concat (repeat text (Z.to_nat count))).

(* ================================================================== *)
(** ** config/index.ts *)

Module Config.
Section Config.
Context `{JsNumber}.

(** [process.env] after [dotenv.config()]: a variable is a string or is
    not set. *)
Definition environment := string -> option jsstring.

(** [required(key, fallback)] *)
Definition required (env : environment) (key : string)
           (fallback : option jsstring) : result jsstring :=
  let value :=
    match env key with
    | Some v => Some v
    | None => fallback
    end in
  match value with
  | Some (c :: v) => Ok (c :: v)
  | _ => Throw (PlainError (lit "Missing required env: " ++ lit key))
  end.

Record config : Type := {
  port : number;
  mongoUri : jsstring;
  mongoDb : jsstring;
  pythonServiceUrl : jsstring;
  hmacSecret : jsstring;
  logLevel : jsstring;
  requestTimeoutMs : number
}.

(** The module's [config] object; its properties are evaluated in the
    order of the source text. *)
Definition load (env : environment) : result config :=
  (let port_ :=
     match env "PORT"%string with
     | Some v => Number_of_string v
     | None => num_of_Z 8080
     end in
   mongoUri_ <- required env "MONGO_URI" None ;;
   mongoDb_ <- required env "MONGO_DB" (Some (lit "protected_qr")) ;;
   pythonServiceUrl_ <- required env "PYTHON_SERVICE_URL" None ;;
   hmacSecret_ <- required env "HMAC_SECRET" None ;;
   let logLevel_ :=
     match env "LOG_LEVEL"%string with
     | Some v => v
     | None => lit "info"
     end in
   let requestTimeoutMs_ :=
     match env "REQUEST_TIMEOUT_MS"%string with
     | Some v => Number_of_string v
     | None => num_of_Z 10000
     end in
   Ok {| port := port_; mongoUri := mongoUri_; mongoDb := mongoDb_;
         pythonServiceUrl := pythonServiceUrl_;
         hmacSecret := hmacSecret_; logLevel := logLevel_;
         requestTimeoutMs := requestTimeoutMs_ |})%result.

(** The process at start-up.  Every module that serves a request imports
    [config]; an exception while the module is evaluated ends the
    process before [start] runs.  Otherwise [start] connects to the
    database and listens on [config.port]; a failed connection is logged
    and the process exits with status 1. *)
Inductive process : Type :=
| Crashed (e : exn)
| Exited (status : Z) (logged : exn)
| Listening (cfg : config).

Definition start (env : environment) (connect : result unit) : process :=
  match load env with
  | Throw e => Crashed e
  | Ok cfg =>
      match connect with
      | Throw e => Exited 1 e
      | Ok _ => Listening cfg
      end
  end.

Definition serves_traffic (p : process) : bool :=
  match p with
  | Listening _ => true
  | _ => false
  end.

End Config.
End Config.

(* ================================================================== *)
(** ** services/qr.types.ts and the stored documents *)

(** The four hexadecimal text fields, shared by [GenerateQrInput],
    [DecodedMeta] and the audit document. *)
Record HexFields : Type := {
  data_hash : jsstring;
  metadata_series : jsstring;
  metadata_issued : jsstring;
  metadata_expiry : jsstring
}.

Definition GenerateQrInput := HexFields.
Definition DecodedMeta := HexFields.

Section Service.
Context `{JsNumber}.

Record GenerateQrOutput : Type := {
  token : jsstring;
  qr_image_base64 : jsval
}.

Record VerifyQrOutput : Type := {
  is_authentic : bool;
  confidence_score : jsval;
  decoded_meta : option DecodedMeta
}.

(** A document of the collection [qr_audit]. *)
Record AuditRecord : Type := {
  audit_token : jsstring;
  audit_fields : GenerateQrInput;
  audit_created_at : Z
}.

(** A document of the collection [qr_verify_logs]. *)
Record VerifyRecord : Type := {
  verify_token : jsval;
  verify_confidence_score : jsval;
  verify_is_authentic : bool;
  verify_created_at : Z
}.

(** *** The world outside the service *)

Inductive level : Type := warn | error | info.

(** What the service asks of its collaborators, in the order asked. *)
Inductive call : Type :=
| PostGenerate (url token_ : jsstring) (size border : Z) (timeout : number)
| PostVerify (url image_base64 : jsstring) (timeout : number)
| InsertAudit (doc : AuditRecord)
| InsertVerify (doc : VerifyRecord)
| Log (lvl : level) (message : jsstring).

(** The two collections and the calls made so far, oldest first. *)
Record World : Type := {
  qr_audit : list AuditRecord;
  qr_verify_logs : list VerifyRecord;
  calls : list call
}.

(** How the collaborators answer.  A rejected promise is a [Throw]; the
    HTTP client rejects on a timeout, a refused connection and a
    non-2xx status.  [post_generate] gives [data?.qr_image_base64] of
    the reply, [post_verify] the properties [token], [confidence_score]
    and [is_authentic] of [data || {}]. *)
Record Outside : Type := {
  Date_now : Z;
  new_Date : Z;
  post_generate : jsstring -> result jsval;
  post_verify : jsstring -> result (jsval * jsval * jsval);
  audit_insertOne : AuditRecord -> result unit;
  verify_insertOne : VerifyRecord -> result unit
}.

(** Computations that read and change the world and may throw. *)
Definition M (A : Type) : Type := World -> result A * World.

Definition ret {A} (a : A) : M A := fun w => (Ok a, w).

Definition bind {A B} (m : M A) (k : A -> M B) : M B :=
  fun w =>
    match m w with
    | (Ok a, w') => k a w'
    | (Throw e, w') => (Throw e, w')
    end.

Definition lift {A} (r : result A) : M A := fun w => (r, w).

Definition record_call (c : call) : M unit :=
  fun w => (Ok tt, {| qr_audit := qr_audit w;
                      qr_verify_logs := qr_verify_logs w;
                      calls := calls w ++ [c] |}).

Definition store_audit (doc : AuditRecord) : M unit :=
  fun w => (Ok tt, {| qr_audit := qr_audit w ++ [doc];
                      qr_verify_logs := qr_verify_logs w;
                      calls := calls w |}).

Definition store_verify (doc : VerifyRecord) : M unit :=
  fun w => (Ok tt, {| qr_audit := qr_audit w;
                      qr_verify_logs := qr_verify_logs w ++ [doc];
                      calls := calls w |}).

End Service.

Declare Scope M_scope.
Delimit Scope M_scope with M.
Notation "x <- m ;; k" := (bind m (fun x => k))
  (at level 61, m at next level, right associativity) : M_scope.
Notation "m ;;; k" := (bind m (fun _ => k))
  (at level 61, right associativity) : M_scope.

(* ================================================================== *)
(** ** services/qr.service.ts *)

Module QrService.
Section QrService.
Context `{JsNumber}.
Variable cfg : Config.config.
Variable out : Outside.

(** [axios.post(`${config.pythonServiceUrl}/generate-protected-qr`, ...)] *)
Definition axios_post_generate (token_ : jsstring) : M jsval :=
  (record_call
     (PostGenerate
        (Config.pythonServiceUrl cfg ++ lit "/generate-protected-qr")
        token_ 600 1 (Config.requestTimeoutMs cfg)) ;;;
   lift (post_generate out token_))%M.

(** [axios.post(`${config.pythonServiceUrl}/verify-protected-qr`, ...)] *)
Definition axios_post_verify (imageBase64 : jsstring)
  : M (jsval * jsval * jsval) :=
  (record_call
     (PostVerify
        (Config.pythonServiceUrl cfg ++ lit "/verify-protected-qr")
        imageBase64 (Config.requestTimeoutMs cfg)) ;;;
   lift (post_verify out imageBase64))%M.

(** [this.auditCollection.insertOne(doc)] *)
Definition auditCollection_insertOne (doc : AuditRecord) : M unit :=
  (record_call (InsertAudit doc) ;;;
   lift (audit_insertOne out doc) ;;;
   store_audit doc)%M.

(** [this.verifyCollection.insertOne(doc)] *)
Definition verifyCollection_insertOne (doc : VerifyRecord) : M unit :=
  (record_call (InsertVerify doc) ;;;
   lift (verify_insertOne out doc) ;;;
   store_verify doc)%M.

(** *** generate *)

(** [hexToBuffer] of [utils/hex.ts] *)
Definition hexToBuffer (value : jsstring) : Buffer.bytes :=
  Buffer.from_hex value.

(** The four [assertHexLength] statements that open [generate]. *)
Definition validate (input : GenerateQrInput) : result unit :=
  (_ <- Hex.assertHexLength (lit "data_hash") (data_hash input) 8 ;;
   _ <- Hex.assertHexLength (lit "metadata_series")
                            (metadata_series input) 16 ;;
   _ <- Hex.assertHexLength (lit "metadata_issued")
                            (metadata_issued input) 16 ;;
   Hex.assertHexLength (lit "metadata_expiry")
                       (metadata_expiry input) 16)%result.

(** [payloadBinary]: the timestamp buffer and the four decoded fields. *)
Definition payloadBinary (tsBuffer : Buffer.bytes)
           (input : GenerateQrInput) : Buffer.bytes :=
  Buffer.concat
    [tsBuffer;
     hexToBuffer (data_hash input);
     hexToBuffer (metadata_series input);
     hexToBuffer (metadata_issued input);
     hexToBuffer (metadata_expiry input)].

(** [hmac]: the hexadecimal digest cut to its first 32 characters. *)
Definition hmac (secret : jsstring) (payload : Buffer.bytes) : jsstring :=
  slice0 32 (Crypto.createHmac_sha256_hex secret payload).

(** [payloadB64] *)
Definition payloadB64 (payload : Buffer.bytes) : jsstring :=
  remove_all (ch "=")
    (replace_all (ch "/") (ch "_")
       (replace_all (ch "+") (ch "-") (Buffer.to_base64 payload))).

(** [`${payloadB64}.${hmac}`] *)
Definition make_token (secret : jsstring) (payload : Buffer.bytes)
  : jsstring :=
  payloadB64 payload ++ lit "." ++ hmac secret payload.

Definition generate (input : GenerateQrInput) : M GenerateQrOutput :=
  (lift (validate input) ;;;
   let timestampMs := Date_now out in
   tsBuffer <- lift (Buffer.writeUIntBE6 timestampMs) ;;
   let payload := payloadBinary tsBuffer input in
   let token_ := make_token (Config.hmacSecret cfg) payload in
   qrImageBase64 <- axios_post_generate token_ ;;
   auditCollection_insertOne
     {| audit_token := token_;
        audit_fields := input;
        audit_created_at := new_Date out |} ;;;
   ret {| token := token_; qr_image_base64 := qrImageBase64 |})%M.

(** *** decodeToken *)

Definition decodeToken (token_ : jsstring) : result (option DecodedMeta) :=
  match split (ch ".") token_ with
  | [] =>
      Throw (TypeError (lit "Cannot read properties of undefined"))
  | payloadB64_ :: _ =>
      let padded :=
        replace_all (ch "_") (ch "/")
          (replace_all (ch "-") (ch "+") payloadB64_) in
      let padLength := Z.rem (4 - Z.rem (jslength padded) 4) 4 in
      (pad <- js_repeat (lit "=") padLength ;;
       let paddedB64 := padded ++ pad in
       let payload := Buffer.from_base64 paddedB64 in
       if negb (Buffer.byteLength payload =? 34) then Ok None
       else
         Ok (Some
               {| data_hash :=
                    Buffer.to_hex (Buffer.subarray 6 10 payload);
                  metadata_series :=
                    Buffer.to_hex (Buffer.subarray 10 18 payload);
                  metadata_issued :=
                    Buffer.to_hex (Buffer.subarray 18 26 payload);
                  metadata_expiry :=
                    Buffer.to_hex (Buffer.subarray 26 34 payload) |})
      )%result
  end.

(** *** verify *)

(** [token ? this.decodeToken(token) : null].  Only a string has a
    [split] method: any other truthy value is a [TypeError]. *)
Definition decode_detected (token_ : jsval) : result (option DecodedMeta) :=
  if truthy token_ then
    match token_ with
    | VString s => decodeToken s
    | _ => Throw (TypeError (lit "token.split is not a function"))
    end
  else Ok None.

Definition verify (imageBase64 : jsstring) : M VerifyQrOutput :=
  (reply <- axios_post_verify imageBase64 ;;
   let '(token_, confidence_score_, is_authentic_) := reply in
   decodedMeta <- lift (decode_detected token_) ;;
   verifyCollection_insertOne
     {| verify_token := nullish token_ VNull;
        verify_confidence_score :=
          nullish confidence_score_ (VNumber (num_of_Z 0));
        verify_is_authentic := truthy is_authentic_;
        verify_created_at := new_Date out |} ;;;
   ret {| is_authentic := truthy is_authentic_;
          confidence_score :=
            nullish confidence_score_ (VNumber (num_of_Z 0));
          decoded_meta := decodedMeta |})%M.

End QrService.
End QrService.

(* ================================================================== *)
(** ** dtos/qr.dto.ts, controllers/qr.controller.ts,
       middleware/error-handler.ts *)

Module Http.
Section Http.
Context `{JsNumber}.
Variable cfg : Config.config.
Variable out : Outside.

(** The four properties the schema reads off a JSON object, [VUndefined]
    for a property that is absent. *)
Record BodyProperties : Type := {
  body_data_hash : jsval;
  body_metadata_series : jsval;
  body_metadata_issued : jsval;
  body_metadata_expiry : jsval
}.

(** [req.body] of a generate request: a JSON object, or a value that is
    not one (the JSON parser also lets an array through, and a request
    without a JSON body has none). *)
Inductive GenerateBody : Type :=
| JsonObject (properties : BodyProperties)
| NotAnObject.

(** [z.string().length(n)] *)
Definition string_of_length (n : Z) (v : jsval) : option jsstring :=
  match v with
  | VString s => if jslength s =? n then Some s else None
  | _ => None
  end.

Definition field_error (name : string) (parsed : option jsstring)
  : list jsstring :=
  match parsed with
  | Some _ => []
  | None => [lit name]
  end.

(** [generateQrSchema.safeParse(body)]: the typed fields; or, for a body
    that is not an object, a form-level error; or, for an object, the
    names of all the properties the schema rejects, in schema order. *)
Definition generateQrSchema_safeParse (body : GenerateBody)
  : GenerateQrInput + SchemaErrors :=
  match body with
  | NotAnObject => inr FormError
  | JsonObject properties =>
      let p1 := string_of_length 8 (body_data_hash properties) in
      let p2 := string_of_length 16 (body_metadata_series properties) in
      let p3 := string_of_length 16 (body_metadata_issued properties) in
      let p4 := string_of_length 16 (body_metadata_expiry properties) in
      match p1, p2, p3, p4 with
      | Some a, Some b, Some c, Some d =>
          inl {| data_hash := a; metadata_series := b;
                 metadata_issued := c; metadata_expiry := d |}
      | _, _, _, _ =>
          inr (FieldErrors
                 (field_error "data_hash" p1
                  ++ field_error "metadata_series" p2
                  ++ field_error "metadata_issued" p3
                  ++ field_error "metadata_expiry" p4))
      end
  end.

Inductive response_body : Type :=
| GenerateSuccess (data : GenerateQrOutput)
| VerifyResult (data : VerifyQrOutput)
| ApiError (message : jsstring) (details : option SchemaErrors).

Record response : Type := {
  status : Z;
  body : response_body
}.

(** [logger.warn(...)], [logger.error(...)] *)
Definition logger (lvl : level) (message : jsstring) (w : World) : World :=
  {| qr_audit := qr_audit w;
     qr_verify_logs := qr_verify_logs w;
     calls := calls w ++ [Log lvl message] |}.

(** [errorHandler] *)
Definition errorHandler (err : exn) (w : World) : response * World :=
  match err with
  | HttpException st message details =>
      ({| status := st; body := ApiError message details |},
       logger warn message w)
  | _ =>
      let message := exn_message err in
      ({| status := 500; body := ApiError message None |},
       logger error message w)
  end.

(** [asyncHandler(handler)] followed by the application's error
    middleware: what the handler throws reaches [errorHandler].  The
    access log that [createApp] has morgan write for every request comes
    from a middleware ahead of the routes and is not part of a handler's
    trace. *)
Definition handled (handler : M response) : World -> response * World :=
  fun w =>
    match handler w with
    | (Ok r, w') => (r, w')
    | (Throw e, w') => errorHandler e w'
    end.

(** [POST /api/v1/qr/generate] *)
Definition generate (body_ : GenerateBody) : World -> response * World :=
  handled
    (match generateQrSchema_safeParse body_ with
     | inr errors =>
         lift (Throw (HttpException 400 (lit "Invalid request body")
                                    (Some errors)))
     | inl parsed =>
         (data <- QrService.generate cfg out parsed ;;
          ret {| status := 200; body := GenerateSuccess data |})%M
     end).

(** [POST /api/v1/qr/verify]; [file] is [req.file.buffer], if any. *)
Definition verify (file : option Buffer.bytes) : World -> response * World :=
  handled
    (match file with
     | None =>
         lift (Throw (HttpException 400 (lit "Image file is required")
                                    None))
     | Some buffer =>
         (data <- QrService.verify cfg out (Buffer.to_base64 buffer) ;;
          ret {| status := 200; body := VerifyResult data |})%M
     end).

End Http.
End Http.

(* ================================================================== *)
(** ** Vocabulary of the statements *)

(** All byte values, for case analyses carried out by evaluation. *)
Definition all_bytes : list Z := map Z.of_nat (seq 0 256).

Definition is_sextet (v : Z) : Prop := 0 <= v < 64.

Definition all_sextets : list Z := map Z.of_nat (seq 0 64).

Definition sextet_b (v : Z) : bool := (0 <=? v) && (v <? 64).

(** The characters of the Base64url alphabet. *)
Definition is_base64url_char (c : Z) : bool :=
  ((ch "A" <=? c) && (c <=? ch "Z"))
  || ((ch "a" <=? c) && (c <=? ch "z"))
  || ((ch "0" <=? c) && (c <=? ch "9"))
  || (c =? ch "-") || (c =? ch "_").

(** The characters [toString("hex")] produces. *)
Definition is_lower_hex_digit (c : Z) : bool :=
  Hex.is_digit c || Hex.is_lower_hex c.

(** The character standing for a 6-bit group in the payload segment of a
    token, and the same character after [decodeToken] has restored the
    standard alphabet. *)
Definition url_char (v : Z) : Z :=
  let c := Buffer.base64_char v in
  let c := if c =? ch "+" then ch "-" else c in
  if c =? ch "/" then ch "_" else c.

Definition restored_char (c : Z) : Z :=
  let c := if c =? ch "-" then ch "+" else c in
  if c =? ch "_" then ch "/" else c.

(** The unsigned integer a buffer holds, most significant byte first. *)
Definition uint_be (buf : Buffer.bytes) : Z :=
  fold_left (fun acc b => 256 * acc + b) buf 0.

(** The bytes [decodeToken] obtains from a token before it looks at their
    number: the text before the first [.], with the standard alphabet
    restored and the padding added, decoded as Base64. *)
Definition decoded_payload (token_ : jsstring) : Buffer.bytes :=
  let payloadB64_ := fst (split_at (ch ".") token_) in
  let padded :=
    replace_all (ch "_") (ch "/")
      (replace_all (ch "-") (ch "+") payloadB64_) in
  let padLength := Z.rem (4 - Z.rem (jslength padded) 4) 4 in
  Buffer.from_base64
    (padded ++ List.concat (repeat (lit "=") (Z.to_nat padLength))).

(** The record [decodeToken] builds from a 34-byte payload. *)
Definition fields_at_offsets (payload : Buffer.bytes) : DecodedMeta :=
  {| data_hash := Buffer.to_hex (Buffer.subarray 6 10 payload);
     metadata_series := Buffer.to_hex (Buffer.subarray 10 18 payload);
     metadata_issued := Buffer.to_hex (Buffer.subarray 18 26 payload);
     metadata_expiry := Buffer.to_hex (Buffer.subarray 26 34 payload) |}.

Section Documents.
Context `{JsNumber}.

(** The document [verify] writes for a detection reply with the properties
    [token_], [confidence_score_] and [is_authentic_]. *)
Definition verification_record (out : Outside)
           (token_ confidence_score_ is_authentic_ : jsval) : VerifyRecord :=
  {| verify_token := nullish token_ VNull;
     verify_confidence_score :=
       nullish confidence_score_ (VNumber (num_of_Z 0));
     verify_is_authentic := truthy is_authentic_;
     verify_created_at := new_Date out |}.

(** The request [verify] sends to the pattern service. *)
Definition detection_call (cfg : Config.config) (imageBase64 : jsstring)
  : call :=
  PostVerify (Config.pythonServiceUrl cfg ++ lit "/verify-protected-qr")
             imageBase64 (Config.requestTimeoutMs cfg).

(** The request [generate] sends to the pattern service. *)
Definition render_call (cfg : Config.config) (token_ : jsstring) : call :=
  PostGenerate (Config.pythonServiceUrl cfg ++ lit "/generate-protected-qr")
               token_ 600 1 (Config.requestTimeoutMs cfg).

(** The document [generate] writes. *)
Definition audit_record (out : Outside) (token_ : jsstring)
           (input : GenerateQrInput) : AuditRecord :=
  {| audit_token := token_;
     audit_fields := input;
     audit_created_at := new_Date out |}.

(** The world with further calls recorded. *)
Definition with_calls (w : World) (cs : list call) : World :=
  {| qr_audit := qr_audit w;
     qr_verify_logs := qr_verify_logs w;
     calls := calls w ++ cs |}.

End Documents.

(** The fields [generate] checks, in the order it checks them: label,
    value and required length. *)
Definition checked_fields (input : GenerateQrInput)
  : list (jsstring * jsstring * Z) :=
  [ (lit "data_hash", data_hash input, 8);
    (lit "metadata_series", metadata_series input, 16);
    (lit "metadata_issued", metadata_issued input, 16);
    (lit "metadata_expiry", metadata_expiry input, 16) ].

(** A field is valid when it is hex-only and of the required length. *)
Definition field_valid (f : jsstring * jsstring * Z) : bool :=
  let '(_, value, n) := f in
  Hex.hex_regex_test value && (jslength value =? n).

(** The message for an invalid field: the hex test comes first. *)
Definition violation (f : jsstring * jsstring * Z) : jsstring :=
  let '(label, value, n) := f in
  if Hex.hex_regex_test value
  then label ++ lit " must be " ++ decimal n ++ lit " hex chars"
  else label ++ lit " must be hex string".

Section Bodies.
Context `{JsNumber}.

(** The JSON body that carries the four fields of [input]. *)
Definition body_of (input : GenerateQrInput) : Http.GenerateBody :=
  Http.JsonObject
    {| Http.body_data_hash := VString (data_hash input);
       Http.body_metadata_series := VString (metadata_series input);
       Http.body_metadata_issued := VString (metadata_issued input);
       Http.body_metadata_expiry := VString (metadata_expiry input) |}.

End Bodies.


(** Hexadecimal text with its letters in lower case. *)
Definition lower_hex (c : Z) : Z :=
  if Hex.is_upper_hex c then c + 32 else c.

Definition lowercase_hex (s : jsstring) : jsstring := map lower_hex s.

Definition lowercase_fields (f : HexFields) : HexFields :=
  {| data_hash := lowercase_hex (data_hash f);
     metadata_series := lowercase_hex (metadata_series f);
     metadata_issued := lowercase_hex (metadata_issued f);
     metadata_expiry := lowercase_hex (metadata_expiry f) |}.

(** The bytes a 34-byte payload carries at the offsets of the four
    fields. *)
Definition bytes_at_offsets (payload : Buffer.bytes) : list Buffer.bytes :=
  [ Buffer.subarray 6 10 payload; Buffer.subarray 10 18 payload;
    Buffer.subarray 18 26 payload; Buffer.subarray 26 34 payload ].

(** The four fields of a record, in the order of the payload. *)
Definition field_texts (f : HexFields) : list jsstring :=
  [ data_hash f; metadata_series f; metadata_issued f; metadata_expiry f ].

(** The value of a hexadecimal digit: its place among the sixteen digits,
    the letters in either case. *)
Fixpoint place_of (c : Z) (digits : jsstring) : option Z :=
  match digits with
  | [] => None
  | d :: rest =>
      if c =? d then Some 0 else option_map Z.succ (place_of c rest)
  end.

Definition digit_value (c : Z) : Z :=
  match place_of c (lit "0123456789abcdef"),
        place_of c (lit "0123456789ABCDEF") with
  | Some v, _ => v
  | None, Some v => v
  | None, None => 0
  end.

(** The bytes a hexadecimal text denotes, two digits to a byte: sixteen
    times the value of the first digit plus the value of the second.  This
    is the yardstick the decoders of the code are measured against. *)
Fixpoint denoted_bytes (s : jsstring) : Buffer.bytes :=
  match s with
  | c1 :: c2 :: rest =>
      (16 * digit_value c1 + digit_value c2) :: denoted_bytes rest
  | _ => []
  end.

Definition byte_b (v : Z) : bool := (0 <=? v) && (v <? 256).

(** The variables [config] reads through [required], in the order of the
    source text, each with its fallback. *)
Definition required_keys : list (string * option jsstring) :=
  [ ("MONGO_URI"%string, None);
    ("MONGO_DB"%string, Some (lit "protected_qr"));
    ("PYTHON_SERVICE_URL"%string, None);
    ("HMAC_SECRET"%string, None) ].

(** [required] accepts the variable: it is set to a non-empty string, or
    it is unset and has a non-empty fallback. *)
Definition key_accepted (env : Config.environment)
           (k : string * option jsstring) : bool :=
  match env (fst k) with
  | Some (_ :: _) => true
  | Some [] => false
  | None =>
      match snd k with
      | Some (_ :: _) => true
      | _ => false
      end
  end.

(* ================================================================== *)
(** ** Concrete requests and collaborators *)

(** The request of the specification's generate scenario. *)
Definition example_input : GenerateQrInput :=
  {| data_hash := lit "a1b2c3d4";
     metadata_series := lit "1234567890abcdef";
     metadata_issued := lit "0011223344556677";
     metadata_expiry := lit "8899aabbccddeeff" |}.

Definition example_secret : jsstring := lit "s3cret".

Definition example_cfg : Config.config :=
  {| Config.port := Some 8080;
     Config.mongoUri := lit "mongodb://localhost:27017";
     Config.mongoDb := lit "protected_qr";
     Config.pythonServiceUrl := lit "http://localhost:8000";
     Config.hmacSecret := example_secret;
     Config.logLevel := lit "info";
     Config.requestTimeoutMs := Some 10000 |}.

(** The payload segment of the token issued for [example_input] at time
    1700000000000 under [example_secret]; its signature segment is
    [589fc7a7aa65df09fac9c83f8a6208bf]. *)
Definition example_payload_text : jsstring :=
  lit "AYvP5WgAobLD1BI0VniQq83vABEiM0RVZneImaq7zN3u_w".

Definition example_token : jsstring :=
  example_payload_text ++ lit ".589fc7a7aa65df09fac9c83f8a6208bf".

(** The same payload under a signature whose last digit was changed. *)
Definition tampered_token : jsstring :=
  example_payload_text ++ lit ".589fc7a7aa65df09fac9c83f8a6208b0".

Definition empty_world : World :=
  {| qr_audit := []; qr_verify_logs := []; calls := [] |}.

(** Collaborators that all answer: the detector reports [tampered_token]
    as authentic. *)
Definition all_up : Outside :=
  {| Date_now := 1700000000000;
     new_Date := 1700000000005;
     post_generate := fun _ => Ok (VString (lit "iVBORw0KGgo="));
     post_verify := fun _ =>
       Ok (VString tampered_token, VNumber (Some 1), VBoolean true);
     audit_insertOne := fun _ => Ok tt;
     verify_insertOne := fun _ => Ok tt |}.

(** The pattern service does not answer. *)
Definition detector_down : Outside :=
  {| Date_now := 1700000000000;
     new_Date := 1700000000005;
     post_generate := fun _ =>
       Throw (ExternalError (lit "timeout of 10000ms exceeded"));
     post_verify := fun _ =>
       Throw (ExternalError (lit "timeout of 10000ms exceeded"));
     audit_insertOne := fun _ => Ok tt;
     verify_insertOne := fun _ => Ok tt |}.

(** The pattern service answers and the store rejects every write. *)
Definition store_down : Outside :=
  {| Date_now := 1700000000000;
     new_Date := 1700000000005;
     post_generate := fun _ => Ok (VString (lit "iVBORw0KGgo="));
     post_verify := fun _ =>
       Ok (VString tampered_token, VNumber (Some 1), VBoolean true);
     audit_insertOne := fun _ =>
       Throw (ExternalError (lit "connection closed"));
     verify_insertOne := fun _ =>
       Throw (ExternalError (lit "connection closed")) |}.

(** The detector reports text that is no token, and nothing else. *)
Definition detector_garbled : Outside :=
  {| Date_now := 1700000000000;
     new_Date := 1700000000005;
     post_generate := fun _ => Ok (VString (lit "iVBORw0KGgo="));
     post_verify := fun _ =>
       Ok (VString (lit "%%not a token%%"), VUndefined, VUndefined);
     audit_insertOne := fun _ => Ok tt;
     verify_insertOne := fun _ => Ok tt |}.

(** The detector finds no token. *)
Definition detector_blind : Outside :=
  {| Date_now := 1700000000000;
     new_Date := 1700000000005;
     post_generate := fun _ => Ok (VString (lit "iVBORw0KGgo="));
     post_verify := fun _ => Ok (VNull, VNumber (Some 0), VBoolean false);
     audit_insertOne := fun _ => Ok tt;
     verify_insertOne := fun _ => Ok tt |}.

Definition example_image : jsstring := lit "aW1hZ2U=".

(** Two fields of the right lengths that are not hexadecimal. *)
Definition doubly_invalid_input : GenerateQrInput :=
  {| data_hash := lit "zzzzzzzz";
     metadata_series := lit "zzzzzzzzzzzzzzzz";
     metadata_issued := lit "0011223344556677";
     metadata_expiry := lit "8899aabbccddeeff" |}.

(** An environment that sets the connection string, the pattern-service
    URL and the secret, and nothing else. *)
Definition minimal_env : Config.environment :=
  fun key =>
    if String.eqb key "MONGO_URI" then Some (lit "mongodb://localhost:27017")
    else if String.eqb key "PYTHON_SERVICE_URL"
    then Some (lit "http://localhost:8000")
    else if String.eqb key "HMAC_SECRET" then Some (lit "s3cret")
    else None.


(** The request of the scenario with its letters in upper case. *)
Definition uppercase_input : GenerateQrInput :=
  {| data_hash := lit "A1B2C3D4";
     metadata_series := lit "1234567890ABCDEF";
     metadata_issued := lit "0011223344556677";
     metadata_expiry := lit "8899AABBCCDDEEFF" |}.

(** The detector reads back the token issued for [example_input]. *)
Definition detector_reads_example : Outside :=
  {| Date_now := 1700000000000;
     new_Date := 1700000000005;
     post_generate := fun _ => Ok (VString (lit "iVBORw0KGgo="));
     post_verify := fun _ =>
       Ok (VString example_token, VNumber (Some 1), VBoolean true);
     audit_insertOne := fun _ => Ok tt;
     verify_insertOne := fun _ => Ok tt |}.

(** The detector answers with a number where the token should be. *)
Definition detector_confused : Outside :=
  {| Date_now := 1700000000000;
     new_Date := 1700000000005;
     post_generate := fun _ => Ok (VString (lit "iVBORw0KGgo="));
     post_verify := fun _ =>
       Ok (VNumber (Some 7), VNumber (Some 1), VBoolean true);
     audit_insertOne := fun _ => Ok tt;
     verify_insertOne := fun _ => Ok tt |}.

(** A body with a short data hash and a series that is not a string. *)
Definition malformed_body : Http.GenerateBody :=
  Http.JsonObject
    {| Http.body_data_hash := VString (lit "a1b2c3");
       Http.body_metadata_series := VNumber (Some 5);
       Http.body_metadata_issued := VString (lit "0011223344556677");
       Http.body_metadata_expiry := VString (lit "8899aabbccddeeff") |}.

(** An environment whose database name is set to the empty string. *)
Definition env_with_empty_db : Config.environment :=
  fun key =>
    if String.eqb key "MONGO_DB" then Some [] else minimal_env key.

(** A clock beyond 48 bits. *)
Definition late_clock : Outside :=
  {| Date_now := 2 ^ 48;
     new_Date := 2 ^ 48;
     post_generate := fun _ => Ok (VString (lit "iVBORw0KGgo="));
     post_verify := fun _ => Ok (VUndefined, VUndefined, VUndefined);
     audit_insertOne := fun _ => Ok tt;
     verify_insertOne := fun _ => Ok tt |}.

(* ================================================================== *)
(** * Properties *)

(** ** The runtime models on published test vectors *)

(** FIPS 180-4: the first and the last round constant, the first and the
    last initial hash word. *)
Example sha256_constants :
  nth 0 Crypto.K256 0 = 0x428a2f98
  /\ nth 63 Crypto.K256 0 = 0xc67178f2
  /\ List.length Crypto.K256 = 64%nat
  /\ Crypto.ha Crypto.H0 = 0x6a09e667
  /\ Crypto.hh Crypto.H0 = 0x5be0cd19.
Proof. repeat split. Qed.

(** FIPS 180-4, the one-block message [abc]. *)
Example sha256_abc :
  Buffer.to_hex (Crypto.sha256 (lit "abc"))
  = lit "ba7816bf8f01cfea414140de5dae2223b00361a396177a9cb410ff61f20015ad".
Proof. vm_compute. reflexivity. Qed.

(** RFC 4231, test case 2. *)
Example hmac_sha256_rfc4231 :
  Crypto.createHmac_sha256_hex (lit "Jefe")
    (lit "what do ya want for nothing?")
  = lit "5bdcc146bf60754e6a042426089575c75a003f089d2739839dec58b964ec3843".
Proof. vm_compute. reflexivity. Qed.

(** RFC 4648, section 10. *)
Example base64_rfc4648 :
  Buffer.to_base64 (lit "foobar") = lit "Zm9vYmFy"
  /\ Buffer.to_base64 (lit "fooba") = lit "Zm9vYmE="
  /\ Buffer.to_base64 (lit "foob") = lit "Zm9vYg=="
  /\ Buffer.from_base64 (lit "Zm9vYg==") = lit "foob"
  /\ Buffer.from_base64 (lit "Zm9vYmE=") = lit "fooba".
Proof. repeat split. Qed.

(** Both decoders read a UTF-16 code unit through its low byte: [U+0130]
    and [U+0131] count as the digits [0] and [1], [U+015A] as the letter
    [Z], and [U+013D] ends Base64 text as [=] does. *)
Example decoders_read_low_bytes :
  QrService.hexToBuffer (lit "a1" ++ [0x130; 0x131] ++ lit "c3")
  = [0xa1; 0x01; 0xc3]
  /\ Buffer.from_base64 (0x15A :: lit "m9vYmFy") = lit "foobar"
  /\ Buffer.from_base64 (lit "Zm9v" ++ 0x13D :: lit "YmFy") = lit "foo"
  /\ QrService.decodeToken (map (Z.add 256) example_payload_text)
     = Ok (Some example_input).
Proof. repeat split; vm_compute; reflexivity. Qed.

(** The generate scenario of the specification, with every collaborator
    answering: the token, the image of the reply, one audit document. *)
Example generate_scenario :
  QrService.generate example_cfg all_up example_input empty_world
  = (Ok {| token := example_token;
           qr_image_base64 := VString (lit "iVBORw0KGgo=") |},
     {| qr_audit := [audit_record all_up example_token example_input];
        qr_verify_logs := [];
        calls := [render_call example_cfg example_token;
                  InsertAudit
                    (audit_record all_up example_token example_input)] |}).
Proof. vm_compute. reflexivity. Qed.

(** ** Case analysis on bytes by evaluation *)

Lemma in_all_bytes (b : Z) : Buffer.is_byte b -> In b all_bytes.
Proof.
  intros Hb. unfold all_bytes. apply in_map_iff.
  exists (Z.to_nat b). split; [ unfold Buffer.is_byte in Hb; lia | ].
  apply in_seq. unfold Buffer.is_byte in Hb. lia.
Qed.

Lemma bytes_forall (P : Z -> bool) :
  forallb P all_bytes = true ->
  forall b, Buffer.is_byte b -> P b = true.
Proof.
  intros Hall b Hb. rewrite forallb_forall in Hall.
  apply Hall, in_all_bytes, Hb.
Qed.

Lemma bytes_forall2 (P : Z -> Z -> bool) :
  forallb (fun a => forallb (P a) all_bytes) all_bytes = true ->
  forall a b, Buffer.is_byte a -> Buffer.is_byte b -> P a b = true.
Proof.
  intros Hall a b Ha Hb.
  pose proof (bytes_forall _ Hall a Ha) as Hrow. cbv beta in Hrow.
  exact (bytes_forall _ Hrow b Hb).
Qed.

(** [by_bytes] proves an equation between [Z] terms over one or two bytes
    by checking it on every byte value. *)
Ltac by_bytes1 b Hb :=
  match goal with
  | |- ?l = ?r =>
      let P := eval pattern b in (Z.eqb l r) in
      match P with
      | ?F _ =>
          apply Z.eqb_eq;
          exact (bytes_forall F ltac:(vm_compute; reflexivity) b Hb)
      end
  end.

Ltac by_bytes2 a Ha b Hb :=
  match goal with
  | |- ?l = ?r =>
      let P := eval pattern a, b in (Z.eqb l r) in
      match P with
      | ?F _ _ =>
          apply Z.eqb_eq;
          exact (bytes_forall2 F ltac:(vm_compute; reflexivity) a b Ha Hb)
      end
  end.

(** Settles a boolean test on an expression over one or two bytes. *)
Ltac check_bytes :=
  match goal with
  | Ha : Buffer.is_byte ?a, Hb : Buffer.is_byte ?b |- ?e = true =>
      let F := eval pattern a, b in e in
      match F with
      | ?G _ _ =>
          exact (bytes_forall2 G ltac:(vm_compute; reflexivity) a b Ha Hb)
      end
  | Ha : Buffer.is_byte ?a |- ?e = true =>
      let F := eval pattern a in e in
      match F with
      | ?G _ =>
          exact (bytes_forall G ltac:(vm_compute; reflexivity) a Ha)
      end
  end.

(** ** Base64 *)

Section Base64.
Import Buffer.

Lemma unsextets_sextets_3 (a b c : Z) (rest : bytes) :
  is_byte a -> is_byte b -> is_byte c ->
  unsextets (sextets (a :: b :: c :: rest))
  = a :: b :: c :: unsextets (sextets rest).
Proof.
  intros Ha Hb Hc. cbn [sextets unsextets].
  f_equal; [ | f_equal; [ | f_equal ] ].
  - by_bytes2 a Ha b Hb.
  - transitivity (Z.lor (Z.shiftl (Z.shiftr b 4) 4) (Z.land b 15)).
    + f_equal; [ f_equal; by_bytes2 a Ha b Hb | by_bytes2 b Hb c Hc ].
    + by_bytes1 b Hb.
  - transitivity (Z.lor (Z.shiftl (Z.shiftr c 6) 6) (Z.land c 63)).
    + f_equal; [ f_equal; by_bytes2 b Hb c Hc | by_bytes1 c Hc ].
    + by_bytes1 c Hc.
Qed.

Lemma unsextets_sextets_2 (a b : Z) :
  is_byte a -> is_byte b -> unsextets (sextets [a; b]) = [a; b].
Proof.
  intros Ha Hb. cbn [sextets unsextets].
  f_equal; [ | f_equal ].
  - by_bytes2 a Ha b Hb.
  - transitivity (Z.lor (Z.shiftl (Z.shiftr b 4) 4) (Z.land b 15)).
    + f_equal; [ f_equal; by_bytes2 a Ha b Hb | by_bytes1 b Hb ].
    + by_bytes1 b Hb.
Qed.

Lemma unsextets_sextets_1 (a : Z) :
  is_byte a -> unsextets (sextets [a]) = [a].
Proof.
  intros Ha. cbn [sextets unsextets]. f_equal. by_bytes1 a Ha.
Qed.

End Base64.

Lemma sextets_forall (P : Z -> bool) :
  forallb P all_sextets = true ->
  forall v, is_sextet v -> P v = true.
Proof.
  intros Hall v Hv. rewrite forallb_forall in Hall. apply Hall.
  unfold all_sextets. apply in_map_iff. unfold is_sextet in Hv.
  exists (Z.to_nat v). split; [ lia | apply in_seq; lia ].
Qed.

Lemma list_ind3 {A : Type} (P : list A -> Prop) :
  P [] -> (forall a, P [a]) -> (forall a b, P [a; b]) ->
  (forall a b c l, P l -> P (a :: b :: c :: l)) ->
  forall l, P l.
Proof.
  intros H0 H1 H2 H3.
  assert (Hall : forall l, P l /\ (forall a, P (a :: l))
                           /\ (forall a b, P (a :: b :: l))).
  { induction l as [ | x l (IH0 & IH1 & IH2) ]; [ now auto | ].
    split; [ apply IH1 | ]. split; [ intros a; apply IH2 | ].
    intros a b. apply H3, IH0. }
  intros l. apply Hall.
Qed.

Lemma list_ind2 {A : Type} (P : list A -> Prop) :
  P [] -> (forall a, P [a]) ->
  (forall a b l, P l -> P (a :: b :: l)) ->
  forall l, P l.
Proof.
  intros H0 H1 H2.
  assert (Hall : forall l, P l /\ (forall a, P (a :: l))).
  { induction l as [ | x l (IH0 & IH1) ]; [ now auto | ].
    split; [ apply IH1 | ]. intros a. apply H2, IH0. }
  intros l. apply Hall.
Qed.

Section Base64Lists.
Import Buffer.

Lemma unsextets_sextets (buf : bytes) :
  Forall is_byte buf -> unsextets (sextets buf) = buf.
Proof.
  induction buf as [ | a | a b | a b c rest IH ] using list_ind3;
    intros Hbuf.
  - reflexivity.
  - apply unsextets_sextets_1. now inversion Hbuf.
  - inversion Hbuf as [ | ? ? Ha Hb' ]; subst.
    inversion Hb' as [ | ? ? Hb _ ]; subst.
    now apply unsextets_sextets_2.
  - inversion Hbuf as [ | ? ? Ha Hbuf1 ]; subst.
    inversion Hbuf1 as [ | ? ? Hb Hbuf2 ]; subst.
    inversion Hbuf2 as [ | ? ? Hc Hrest ]; subst.
    rewrite unsextets_sextets_3 by assumption.
    now rewrite IH.
Qed.

Lemma sextet_b_true (v : Z) : sextet_b v = true -> is_sextet v.
Proof. unfold sextet_b, is_sextet. lia. Qed.

Lemma sextets_range (buf : bytes) :
  Forall is_byte buf -> Forall is_sextet (sextets buf).
Proof.
  induction buf as [ | a | a b | a b c rest IH ] using list_ind3;
    intros Hbuf; cbn [sextets].
  - constructor.
  - inversion Hbuf as [ | ? ? Ha _ ]; subst.
    repeat constructor; apply sextet_b_true; check_bytes.
  - inversion Hbuf as [ | ? ? Ha Hb' ]; subst.
    inversion Hb' as [ | ? ? Hb _ ]; subst.
    repeat constructor; apply sextet_b_true; check_bytes.
  - inversion Hbuf as [ | ? ? Ha Hbuf1 ]; subst.
    inversion Hbuf1 as [ | ? ? Hb Hbuf2 ]; subst.
    inversion Hbuf2 as [ | ? ? Hc Hrest ]; subst.
    repeat (apply Forall_cons; [ apply sextet_b_true | ]);
      [ clear Hc; check_bytes | clear Hc; check_bytes
      | clear Ha; check_bytes | clear Ha Hb; check_bytes
      | apply IH; assumption ].
Qed.

Lemma length_sextets (buf : bytes) :
  List.length (sextets buf) = ((4 * List.length buf + 2) / 3)%nat.
Proof.
  induction buf as [ | a | a b | a b c rest IH ] using list_ind3;
    try reflexivity.
  cbn [sextets List.length]. rewrite IH.
  replace (4 * S (S (S (List.length rest))) + 2)%nat
    with (4 * 3 + (4 * List.length rest + 2))%nat by lia.
  rewrite (Nat.div_add_l 4 3) by lia. lia.
Qed.

(** *** The characters of a token's payload segment *)

Lemma url_char_decodes (v : Z) :
  is_sextet v -> unbase64 (restored_char (url_char v)) = Some v.
Proof.
  intros Hv.
  pose proof (sextets_forall
    (fun v => match unbase64 (restored_char (url_char v)) with
              | Some u => u =? v
              | None => false
              end) ltac:(vm_compute; reflexivity) v Hv) as Hc.
  cbv beta in Hc.
  destruct (unbase64 (restored_char (url_char v))); [ | discriminate ].
  f_equal. lia.
Qed.

Lemma url_char_not_pad (v : Z) :
  is_sextet v -> (low_byte (restored_char (url_char v)) =? ch "=") = false.
Proof.
  intros Hv. apply negb_true_iff.
  exact (sextets_forall
           (fun v => negb (low_byte (restored_char (url_char v)) =? ch "="))
           ltac:(vm_compute; reflexivity) v Hv).
Qed.

Lemma url_char_kept (v : Z) :
  is_sextet v -> negb (url_char v =? ch "=") = true.
Proof.
  intros Hv.
  exact (sextets_forall (fun v => negb (url_char v =? ch "="))
           ltac:(vm_compute; reflexivity) v Hv).
Qed.

Lemma url_char_not_dot (v : Z) :
  is_sextet v -> (url_char v =? ch ".") = false.
Proof.
  intros Hv. apply negb_true_iff.
  exact (sextets_forall (fun v => negb (url_char v =? ch "."))
           ltac:(vm_compute; reflexivity) v Hv).
Qed.

Lemma url_char_in_alphabet (v : Z) :
  is_sextet v -> is_base64url_char (url_char v) = true.
Proof.
  intros Hv.
  exact (sextets_forall (fun v => is_base64url_char (url_char v))
           ltac:(vm_compute; reflexivity) v Hv).
Qed.

End Base64Lists.

(** ** Hexadecimal text *)

Section HexText.
Import Buffer.

Lemma length_to_hex (buf : bytes) :
  List.length (to_hex buf) = (2 * List.length buf)%nat.
Proof.
  induction buf as [ | b rest IH ]; [ reflexivity | ].
  cbn [to_hex List.length]. rewrite IH. lia.
Qed.

Lemma firstn_to_hex (n : nat) (buf : bytes) :
  firstn (2 * n) (to_hex buf) = to_hex (firstn n buf).
Proof.
  revert buf. induction n as [ | n IH ]; intros buf; [ reflexivity | ].
  destruct buf as [ | b rest ]; [ reflexivity | ].
  replace (2 * S n)%nat with (S (S (2 * n))) by lia.
  cbn [to_hex firstn]. now rewrite IH.
Qed.

Lemma to_hex_lowercase (buf : bytes) :
  Forall is_byte buf -> forallb is_lower_hex_digit (to_hex buf) = true.
Proof.
  induction 1 as [ | b rest Hb _ IH ]; [ reflexivity | ].
  cbn [to_hex forallb]. rewrite IH, andb_true_r.
  apply andb_true_iff. split; check_bytes.
Qed.

Lemma from_hex_to_hex (buf : bytes) :
  Forall is_byte buf -> from_hex (to_hex buf) = buf.
Proof.
  induction 1 as [ | b rest Hb _ IH ]; [ reflexivity | ].
  cbn [to_hex from_hex].
  assert (Hhi : unhex (hex_digit (Z.shiftr b 4)) = Some (Z.shiftr b 4)).
  { assert (Hc : match unhex (hex_digit (Z.shiftr b 4)) with
                 | Some v => v =? Z.shiftr b 4
                 | None => false
                 end = true) by check_bytes.
    destruct (unhex (hex_digit (Z.shiftr b 4))); [ | discriminate ].
    f_equal. lia. }
  assert (Hlo : unhex (hex_digit (Z.land b 15)) = Some (Z.land b 15)).
  { assert (Hc : match unhex (hex_digit (Z.land b 15)) with
                 | Some v => v =? Z.land b 15
                 | None => false
                 end = true) by check_bytes.
    destruct (unhex (hex_digit (Z.land b 15))); [ | discriminate ].
    f_equal. lia. }
  rewrite Hhi, Hlo, IH. f_equal. by_bytes1 b Hb.
Qed.

(** A code unit below 256 is its own low byte. *)
Lemma low_byte_small (c : Z) : is_byte c -> low_byte c = c.
Proof.
  unfold is_byte, low_byte. intros Hc. change 255 with (Z.ones 8).
  rewrite Z.land_ones by lia. apply Z.mod_small. exact Hc.
Qed.

Lemma hex_char_is_byte (c : Z) :
  Hex.is_hex_char c = true -> is_byte c.
Proof.
  unfold Hex.is_hex_char, Hex.is_digit, Hex.is_lower_hex, Hex.is_upper_hex,
    is_byte.
  change (ch "0") with 48. change (ch "9") with 57.
  change (ch "a") with 97. change (ch "f") with 102.
  change (ch "A") with 65. change (ch "F") with 70. lia.
Qed.

(** A hexadecimal digit has a value below 16. *)
Lemma unhex_hex_char (c : Z) :
  Hex.is_hex_char c = true -> exists v, unhex c = Some v /\ 0 <= v < 16.
Proof.
  intros Hc. unfold unhex. cbv zeta.
  rewrite (low_byte_small c (hex_char_is_byte c Hc)).
  unfold Hex.is_hex_char, Hex.is_digit, Hex.is_lower_hex,
    Hex.is_upper_hex in *.
  change (ch "0") with 48 in *. change (ch "9") with 57 in *.
  change (ch "a") with 97 in *. change (ch "f") with 102 in *.
  change (ch "A") with 65 in *. change (ch "F") with 70 in *.
  destruct ((48 <=? c) && (c <=? 57)) eqn:E1;
    [ exists (c - 48); split; [ reflexivity | lia ] | ].
  destruct ((97 <=? c) && (c <=? 102)) eqn:E2;
    [ exists (c - 97 + 10); split; [ reflexivity | lia ] | ].
  destruct ((65 <=? c) && (c <=? 70)) eqn:E3;
    [ exists (c - 65 + 10); split; [ reflexivity | lia ] | ].
  discriminate.
Qed.

Lemma nibbles_byte (a b : Z) :
  0 <= a < 16 -> 0 <= b < 16 -> is_byte (Z.lor (Z.shiftl a 4) b).
Proof.
  intros Ha Hb.
  assert (Ha' : is_byte a) by (unfold is_byte; lia).
  assert (Hb' : is_byte b) by (unfold is_byte; lia).
  assert (Hc : (if (a <? 16) && (b <? 16)
                then (0 <=? Z.lor (Z.shiftl a 4) b)
                     && (Z.lor (Z.shiftl a 4) b <? 256)
                else true) = true) by check_bytes.
  replace (a <? 16) with true in Hc by (symmetry; apply Z.ltb_lt; lia).
  replace (b <? 16) with true in Hc by (symmetry; apply Z.ltb_lt; lia).
  cbn [andb] in Hc. unfold is_byte. lia.
Qed.

(** Hexadecimal text of [2 n] digits decodes to [n] bytes. *)
Lemma from_hex_digits (value : jsstring) (n : nat) :
  forallb Hex.is_hex_char value = true ->
  List.length value = (2 * n)%nat ->
  List.length (from_hex value) = n /\ Forall is_byte (from_hex value).
Proof.
  revert n.
  induction value as [ | c | c1 c2 rest IH ] using list_ind2;
    intros n Hhex Hlen.
  - destruct n; [ now split | discriminate ].
  - cbn [List.length] in Hlen. lia.
  - cbn [forallb] in Hhex.
    apply andb_true_iff in Hhex as [H1 Hhex].
    apply andb_true_iff in Hhex as [H2 Hhex].
    destruct (unhex_hex_char c1 H1) as (a & Ea & Ra).
    destruct (unhex_hex_char c2 H2) as (b & Eb & Rb).
    destruct n as [ | n ]; [ discriminate | ].
    cbn [List.length] in Hlen.
    destruct (IH n Hhex ltac:(lia)) as [IHlen IHall].
    cbn [from_hex]. rewrite Ea, Eb. split.
    + cbn [List.length]. now rewrite IHlen.
    + constructor; [ now apply nibbles_byte | assumption ].
Qed.

(** Decoding then encoding gives the text back in lower case. *)
Lemma to_hex_from_hex_pair (c1 c2 : Z) :
  Hex.is_hex_char c1 = true -> Hex.is_hex_char c2 = true ->
  exists a b,
    Buffer.unhex c1 = Some a /\ Buffer.unhex c2 = Some b
    /\ Buffer.hex_digit (Z.shiftr (Z.lor (Z.shiftl a 4) b) 4) = lower_hex c1
    /\ Buffer.hex_digit (Z.land (Z.lor (Z.shiftl a 4) b) 15) = lower_hex c2.
Proof.
  intros H1 H2.
  pose proof (hex_char_is_byte c1 H1) as B1.
  pose proof (hex_char_is_byte c2 H2) as B2.
  assert (Hc : (if Hex.is_hex_char c1 && Hex.is_hex_char c2
                then match Buffer.unhex c1, Buffer.unhex c2 with
                     | Some a, Some b =>
                         (Buffer.hex_digit
                            (Z.shiftr (Z.lor (Z.shiftl a 4) b) 4)
                          =? lower_hex c1)
                         && (Buffer.hex_digit
                               (Z.land (Z.lor (Z.shiftl a 4) b) 15)
                             =? lower_hex c2)
                     | _, _ => false
                     end
                else true) = true) by check_bytes.
  rewrite H1, H2 in Hc. cbn [andb] in Hc.
  destruct (Buffer.unhex c1) as [ a | ]; [ | discriminate ].
  destruct (Buffer.unhex c2) as [ b | ]; [ | discriminate ].
  apply andb_true_iff in Hc as [Ha Hb].
  exists a, b. repeat split; lia.
Qed.

Lemma to_hex_from_hex (value : jsstring) (n : nat) :
  forallb Hex.is_hex_char value = true ->
  List.length value = (2 * n)%nat ->
  Buffer.to_hex (Buffer.from_hex value) = lowercase_hex value.
Proof.
  revert n.
  induction value as [ | c | c1 c2 rest IH ] using list_ind2;
    intros n Hhex Hlen.
  - reflexivity.
  - cbn [List.length] in Hlen. lia.
  - cbn [forallb] in Hhex.
    apply andb_true_iff in Hhex as [H1 Hhex].
    apply andb_true_iff in Hhex as [H2 Hhex].
    destruct (to_hex_from_hex_pair c1 c2 H1 H2)
      as (a & b & Ea & Eb & Hhi & Hlo).
    destruct n as [ | n ]; [ discriminate | ].
    cbn [List.length] in Hlen.
    cbn [Buffer.from_hex]. rewrite Ea, Eb.
    cbn [Buffer.to_hex lowercase_hex map].
    rewrite Hhi, Hlo. f_equal. f_equal.
    apply (IH n Hhex). lia.
Qed.

(** The decoder computes the bytes the digits denote. *)
Lemma from_hex_denoted_pair (c1 c2 : Z) :
  Hex.is_hex_char c1 = true -> Hex.is_hex_char c2 = true ->
  exists a b,
    unhex c1 = Some a /\ unhex c2 = Some b
    /\ Z.lor (Z.shiftl a 4) b = 16 * digit_value c1 + digit_value c2.
Proof.
  intros H1 H2.
  pose proof (hex_char_is_byte c1 H1) as B1.
  pose proof (hex_char_is_byte c2 H2) as B2.
  assert (Hc : (if Hex.is_hex_char c1 && Hex.is_hex_char c2
                then match unhex c1, unhex c2 with
                     | Some a, Some b =>
                         Z.lor (Z.shiftl a 4) b
                         =? 16 * digit_value c1 + digit_value c2
                     | _, _ => false
                     end
                else true) = true) by check_bytes.
  rewrite H1, H2 in Hc. cbn [andb] in Hc.
  destruct (unhex c1) as [ a | ]; [ | discriminate ].
  destruct (unhex c2) as [ b | ]; [ | discriminate ].
  exists a, b. repeat split; lia.
Qed.

Lemma from_hex_denoted (value : jsstring) (n : nat) :
  forallb Hex.is_hex_char value = true ->
  List.length value = (2 * n)%nat ->
  from_hex value = denoted_bytes value.
Proof.
  revert n.
  induction value as [ | c | c1 c2 rest IH ] using list_ind2;
    intros n Hhex Hlen.
  - reflexivity.
  - cbn [List.length] in Hlen. lia.
  - cbn [forallb] in Hhex.
    apply andb_true_iff in Hhex as [H1 Hhex].
    apply andb_true_iff in Hhex as [H2 Hhex].
    destruct (from_hex_denoted_pair c1 c2 H1 H2) as (a & b & Ea & Eb & Hv).
    destruct n as [ | n ]; [ discriminate | ].
    cbn [List.length] in Hlen.
    cbn [from_hex denoted_bytes]. rewrite Ea, Eb, Hv. f_equal.
    apply (IH n Hhex). lia.
Qed.

(** The case of a letter does not change the value of a digit. *)
Lemma digit_value_lower_hex (c : Z) :
  Hex.is_hex_char c = true -> digit_value (lower_hex c) = digit_value c.
Proof.
  intros Hc. pose proof (hex_char_is_byte c Hc) as Hb.
  assert (Hall : (if Hex.is_hex_char c
                  then digit_value (lower_hex c) =? digit_value c
                  else true) = true) by check_bytes.
  rewrite Hc in Hall. lia.
Qed.

Lemma denoted_bytes_lowercase (value : jsstring) :
  forallb Hex.is_hex_char value = true ->
  denoted_bytes (lowercase_hex value) = denoted_bytes value.
Proof.
  induction value as [ | c | c1 c2 rest IH ] using list_ind2; intros Hhex.
  - reflexivity.
  - reflexivity.
  - cbn [forallb] in Hhex.
    apply andb_true_iff in Hhex as [H1 Hhex].
    apply andb_true_iff in Hhex as [H2 Hhex].
    cbn [lowercase_hex map denoted_bytes]. fold (lowercase_hex rest).
    rewrite (digit_value_lower_hex c1 H1), (digit_value_lower_hex c2 H2).
    now rewrite (IH Hhex).
Qed.

(** A validated field, measured against the bytes it denotes. *)
Lemma hexToBuffer_denoted (value : jsstring) (n : nat) :
  forallb Hex.is_hex_char value = true ->
  List.length value = (2 * n)%nat ->
  QrService.hexToBuffer value = denoted_bytes value
  /\ QrService.hexToBuffer (lowercase_hex value) = denoted_bytes value
  /\ List.length (denoted_bytes value) = n.
Proof.
  intros Hhex Hlen. unfold QrService.hexToBuffer.
  pose proof (from_hex_denoted value n Hhex Hlen) as Hd.
  destruct (from_hex_digits value n Hhex Hlen) as [Hn Hbytes].
  split; [ exact Hd | ]. split.
  - rewrite <- (to_hex_from_hex value n Hhex Hlen).
    rewrite (from_hex_to_hex _ Hbytes). exact Hd.
  - now rewrite <- Hd.
Qed.

(** *** Integers written most significant byte first *)

Lemma length_big_endian (n : nat) (v : Z) :
  List.length (big_endian n v) = n.
Proof.
  revert v. induction n as [ | n IH ]; intros v; [ reflexivity | ].
  cbn [big_endian]. rewrite length_app, IH. cbn. lia.
Qed.

Lemma land_255_byte (v : Z) : is_byte (Z.land v 255).
Proof.
  unfold is_byte. change 255 with (Z.ones 8).
  rewrite Z.land_ones by lia. apply Z.mod_pos_bound. lia.
Qed.

Lemma big_endian_bytes (n : nat) (v : Z) : Forall is_byte (big_endian n v).
Proof.
  revert v. induction n as [ | n IH ]; intros v; [ constructor | ].
  cbn [big_endian]. apply Forall_app. split; [ apply IH | ].
  constructor; [ apply land_255_byte | constructor ].
Qed.

Lemma uint_be_snoc (buf : bytes) (b : Z) :
  uint_be (buf ++ [b]) = 256 * uint_be buf + b.
Proof. unfold uint_be. now rewrite fold_left_app. Qed.

(** No wrap-around: the bytes written hold the value itself. *)
Lemma uint_be_big_endian (n : nat) (v : Z) :
  0 <= v < 2 ^ (8 * Z.of_nat n) -> uint_be (big_endian n v) = v.
Proof.
  revert v. induction n as [ | n IH ]; intros v Hv.
  - cbn in Hv. cbn. lia.
  - cbn [big_endian]. rewrite uint_be_snoc.
    replace (8 * Z.of_nat (S n)) with (8 * Z.of_nat n + 8) in Hv by lia.
    rewrite Z.pow_add_r in Hv by lia.
    rewrite Z.shiftr_div_pow2 by lia.
    change 255 with (Z.ones 8). rewrite Z.land_ones by lia.
    change (2 ^ 8) with 256 in *.
    rewrite IH.
    + pose proof (Z.div_mod v 256 ltac:(lia)). lia.
    + split; [ apply Z.div_pos; lia | ].
      apply Z.div_lt_upper_bound; lia.
Qed.

End HexText.

(** ** Parts of lists *)

Lemma Forall_take {A : Type} (P : A -> Prop) (n : nat) (l : list A) :
  Forall P l -> Forall P (firstn n l).
Proof.
  intros Hl. apply Forall_forall. intros x Hx.
  rewrite Forall_forall in Hl. apply Hl.
  rewrite <- (firstn_skipn n l). apply in_or_app. now left.
Qed.

Lemma Forall_drop {A : Type} (P : A -> Prop) (n : nat) (l : list A) :
  Forall P l -> Forall P (skipn n l).
Proof.
  intros Hl. apply Forall_forall. intros x Hx.
  rewrite Forall_forall in Hl. apply Hl.
  rewrite <- (firstn_skipn n l). apply in_or_app. now right.
Qed.

(** ** The keyed hash *)

Section Digest.
Import Buffer.

Lemma length_sha256 (msg : bytes) : List.length (Crypto.sha256 msg) = 32%nat.
Proof.
  unfold Crypto.sha256, Crypto.word_bytes.
  repeat rewrite length_app. repeat rewrite length_big_endian.
  reflexivity.
Qed.

Lemma sha256_bytes (msg : bytes) : Forall is_byte (Crypto.sha256 msg).
Proof.
  unfold Crypto.sha256, Crypto.word_bytes.
  do 7 (apply Forall_app; split; [ apply big_endian_bytes | ]).
  apply big_endian_bytes.
Qed.

Lemma length_hmac_sha256 (key msg : bytes) :
  List.length (Crypto.hmac_sha256 key msg) = 32%nat.
Proof. apply length_sha256. Qed.

Lemma hmac_sha256_bytes (key msg : bytes) :
  Forall is_byte (Crypto.hmac_sha256 key msg).
Proof. apply sha256_bytes. Qed.

(** The signature segment is the first 16 bytes of the digest, as 32
    lowercase hexadecimal digits. *)
Lemma hmac_truncated (secret : jsstring) (payload : bytes) :
  QrService.hmac secret payload
  = to_hex (firstn 16 (Crypto.hmac_sha256 (from_utf8 secret) payload)).
Proof.
  unfold QrService.hmac, slice0, Crypto.createHmac_sha256_hex.
  exact (firstn_to_hex 16 _).
Qed.

Lemma length_hmac (secret : jsstring) (payload : bytes) :
  List.length (QrService.hmac secret payload) = 32%nat.
Proof.
  rewrite hmac_truncated, length_to_hex, length_firstn,
    length_hmac_sha256. reflexivity.
Qed.

Lemma hmac_lowercase (secret : jsstring) (payload : bytes) :
  forallb is_lower_hex_digit (QrService.hmac secret payload) = true.
Proof.
  rewrite hmac_truncated. apply to_hex_lowercase.
  apply Forall_take, hmac_sha256_bytes.
Qed.

End Digest.

(** ** Splitting a token *)

Lemma split_at_first (c : Z) (s t : jsstring) :
  forallb (fun x => negb (x =? c)) s = true ->
  fst (split_at c (s ++ c :: t)) = s.
Proof.
  induction s as [ | x s IH ]; intros Hs.
  - cbn [app split_at]. destruct (split_at c t). now rewrite Z.eqb_refl.
  - cbn [forallb] in Hs. apply andb_true_iff in Hs as [Hx Hs].
    cbn [app split_at]. specialize (IH Hs).
    destruct (split_at c (s ++ c :: t)) as [piece pieces].
    apply negb_true_iff in Hx. rewrite Hx. cbn [fst] in *. now rewrite IH.
Qed.

Lemma split_at_none (c : Z) (s : jsstring) :
  forallb (fun x => negb (x =? c)) s = true ->
  fst (split_at c s) = s.
Proof.
  induction s as [ | x s IH ]; intros Hs; [ reflexivity | ].
  cbn [forallb] in Hs. apply andb_true_iff in Hs as [Hx Hs].
  cbn [split_at]. specialize (IH Hs).
  destruct (split_at c s) as [piece pieces].
  apply negb_true_iff in Hx. rewrite Hx. cbn [fst] in *. now rewrite IH.
Qed.

(** [split] never gives an empty array. *)
Lemma split_first (c : Z) (s : jsstring) :
  split c s = fst (split_at c s) :: snd (split_at c s).
Proof. unfold split. now destruct (split_at c s). Qed.

(** ** decodeToken *)

(** The padding count is one of 0, 1, 2, 3: [repeat] cannot throw. *)
Lemma padLength_range (len : Z) :
  0 <= len -> 0 <= Z.rem (4 - Z.rem len 4) 4 < 4.
Proof.
  intros Hlen.
  pose proof (Z.rem_bound_pos len 4 Hlen ltac:(lia)).
  apply Z.rem_bound_pos; lia.
Qed.

(** What [decodeToken] returns, for every string. *)
Lemma decodeToken_spec (token_ : jsstring) :
  QrService.decodeToken token_
  = Ok (if Buffer.byteLength (decoded_payload token_) =? 34
        then Some (fields_at_offsets (decoded_payload token_))
        else None).
Proof.
  unfold QrService.decodeToken, decoded_payload.
  rewrite split_first. cbv zeta.
  set (padded := replace_all (ch "_") (ch "/")
                   (replace_all (ch "-") (ch "+")
                      (fst (split_at (ch ".") token_)))).
  pose proof (padLength_range (jslength padded)
                ltac:(unfold jslength; lia)) as Hpad.
  unfold js_repeat.
  destruct (Z.rem (4 - Z.rem (jslength padded) 4) 4 <? 0) eqn:E; [ lia | ].
  cbn [rbind].
  destruct (Buffer.byteLength _ =? 34); reflexivity.
Qed.

(** ** Validation *)

Lemma assertHexLength_ok (label value : jsstring) (n : Z) :
  Hex.assertHexLength label value n = Ok tt ->
  forallb Hex.is_hex_char value = true /\ jslength value = n.
Proof.
  unfold Hex.assertHexLength.
  destruct (Hex.hex_regex_test value) eqn:Ehex; cbn [negb];
    [ | discriminate ].
  destruct (jslength value =? n) eqn:Elen; cbn [negb]; [ | discriminate ].
  intros _. split; [ | lia ].
  destruct value; [ discriminate | exact Ehex ].
Qed.

Lemma validate_ok (input : GenerateQrInput) :
  QrService.validate input = Ok tt ->
  (forallb Hex.is_hex_char (data_hash input) = true
   /\ List.length (data_hash input) = 8%nat)
  /\ (forallb Hex.is_hex_char (metadata_series input) = true
      /\ List.length (metadata_series input) = 16%nat)
  /\ (forallb Hex.is_hex_char (metadata_issued input) = true
      /\ List.length (metadata_issued input) = 16%nat)
  /\ (forallb Hex.is_hex_char (metadata_expiry input) = true
      /\ List.length (metadata_expiry input) = 16%nat).
Proof.
  unfold QrService.validate. intros Hv.
  destruct (Hex.assertHexLength (lit "data_hash") _ 8) as [ [] | ] eqn:E1;
    [ | discriminate ].
  destruct (Hex.assertHexLength (lit "metadata_series") _ 16)
    as [ [] | ] eqn:E2; [ | discriminate ].
  destruct (Hex.assertHexLength (lit "metadata_issued") _ 16)
    as [ [] | ] eqn:E3; [ | discriminate ].
  cbn [rbind] in Hv.
  apply assertHexLength_ok in E1, E2, E3, Hv.
  unfold jslength in *. repeat split; try tauto; lia.
Qed.

(** ** The payload and its text *)

Lemma remove_all_keeps (c : Z) (s : jsstring) :
  forallb (fun x => negb (x =? c)) s = true -> remove_all c s = s.
Proof.
  unfold remove_all. induction s as [ | x s IH ]; intros Hs;
    [ reflexivity | ].
  cbn [forallb] in Hs. apply andb_true_iff in Hs as [Hx Hs].
  cbn [filter]. rewrite Hx. now rewrite IH.
Qed.

Lemma remove_all_repeat (c : Z) (n : nat) : remove_all c (repeat c n) = [].
Proof.
  unfold remove_all. induction n as [ | n IH ]; [ reflexivity | ].
  cbn [repeat filter]. now rewrite Z.eqb_refl.
Qed.

Lemma restore_alphabet (s : jsstring) :
  replace_all (ch "_") (ch "/") (replace_all (ch "-") (ch "+") s)
  = map restored_char s.
Proof. unfold replace_all. rewrite map_map. reflexivity. Qed.

Lemma writeUIntBE6_in_range (value : Z) :
  0 <= value < 2 ^ 48 ->
  Buffer.writeUIntBE6 value = Ok (Buffer.big_endian 6 value).
Proof.
  change (2 ^ 48) with 281474976710656.
  intros Hv. unfold Buffer.writeUIntBE6.
  replace (value <? 0) with false by (symmetry; apply Z.ltb_ge; lia).
  replace (281474976710655 <? value) with false
    by (symmetry; apply Z.ltb_ge; lia).
  reflexivity.
Qed.

Section Payload.
Import Buffer.

Lemma payloadB64_sextets (payload : bytes) :
  Forall is_byte payload ->
  QrService.payloadB64 payload = map url_char (sextets payload).
Proof.
  intros Hp. unfold QrService.payloadB64, to_base64.
  assert (Hurl : forall s n,
             replace_all (ch "/") (ch "_")
               (replace_all (ch "+") (ch "-")
                  (map base64_char s ++ repeat (ch "=") n))
             = map url_char s ++ repeat (ch "=") n).
  { intros s n. unfold replace_all. rewrite map_map, map_app, map_map.
    f_equal. induction n as [ | n IH ]; [ reflexivity | ].
    cbn [repeat map]. now rewrite IH. }
  rewrite Hurl. unfold remove_all. rewrite filter_app.
  fold (remove_all (ch "=") (repeat (ch "=")
                               (base64_padding (List.length payload)))).
  rewrite remove_all_repeat, app_nil_r.
  apply remove_all_keeps.
  apply forallb_forall. intros c Hc. apply in_map_iff in Hc.
  destruct Hc as (v & <- & Hv).
  pose proof (sextets_range payload Hp) as Hr.
  rewrite Forall_forall in Hr. now apply url_char_kept, Hr.
Qed.

Lemma unbase64_all_payload (vs : list Z) (n : nat) :
  Forall is_sextet vs ->
  unbase64_all (map restored_char (map url_char vs)
                ++ List.concat (repeat (lit "=") n)) = vs.
Proof.
  induction 1 as [ | v vs Hv _ IH ].
  - destruct n; reflexivity.
  - cbn [map app unbase64_all].
    rewrite (url_char_not_pad v Hv), (url_char_decodes v Hv).
    now rewrite IH.
Qed.

(** Decoding the text of a payload gives the payload back. *)
Lemma decoded_payload_make_token (secret : jsstring) (payload : bytes) :
  Forall is_byte payload ->
  decoded_payload (QrService.make_token secret payload) = payload.
Proof.
  intros Hp. unfold decoded_payload, QrService.make_token.
  rewrite payloadB64_sextets by assumption.
  pose proof (sextets_range payload Hp) as Hr.
  change (lit "." ++ QrService.hmac secret payload)
    with (ch "." :: QrService.hmac secret payload).
  rewrite split_at_first.
  - cbv zeta. rewrite restore_alphabet. unfold from_base64.
    rewrite unbase64_all_payload by assumption.
    now apply unsextets_sextets.
  - apply forallb_forall. intros c Hc. apply in_map_iff in Hc.
    destruct Hc as (v & <- & Hv). rewrite Forall_forall in Hr.
    apply negb_true_iff. now apply url_char_not_dot, Hr.
Qed.

Lemma length_hexToBuffer (value : jsstring) (n : nat) :
  forallb Hex.is_hex_char value = true /\ List.length value = (2 * n)%nat ->
  List.length (QrService.hexToBuffer value) = n
  /\ Forall is_byte (QrService.hexToBuffer value).
Proof. intros [Hh Hl]. now apply from_hex_digits. Qed.

(** The payload of a valid input: 34 bytes, the fields at their offsets. *)
Lemma payload_layout (input : GenerateQrInput) (ts : Z) :
  QrService.validate input = Ok tt ->
  let payload := QrService.payloadBinary (big_endian 6 ts) input in
  List.length payload = 34%nat
  /\ Forall is_byte payload
  /\ subarray 0 6 payload = big_endian 6 ts
  /\ subarray 6 10 payload = QrService.hexToBuffer (data_hash input)
  /\ subarray 10 18 payload = QrService.hexToBuffer (metadata_series input)
  /\ subarray 18 26 payload = QrService.hexToBuffer (metadata_issued input)
  /\ subarray 26 34 payload = QrService.hexToBuffer (metadata_expiry input).
Proof.
  intros Hv. apply validate_ok in Hv as (H1 & H2 & H3 & H4).
  apply (length_hexToBuffer _ 4) in H1 as [L1 B1].
  apply (length_hexToBuffer _ 8) in H2 as [L2 B2].
  apply (length_hexToBuffer _ 8) in H3 as [L3 B3].
  apply (length_hexToBuffer _ 8) in H4 as [L4 B4].
  pose proof (length_big_endian 6 ts) as L0.
  pose proof (big_endian_bytes 6 ts) as B0.
  cbv zeta. unfold QrService.payloadBinary, Buffer.concat.
  cbn [List.concat]. rewrite app_nil_r.
  set (t := big_endian 6 ts) in *.
  set (f1 := QrService.hexToBuffer (data_hash input)) in *.
  set (f2 := QrService.hexToBuffer (metadata_series input)) in *.
  set (f3 := QrService.hexToBuffer (metadata_issued input)) in *.
  set (f4 := QrService.hexToBuffer (metadata_expiry input)) in *.
  split; [ repeat rewrite length_app; lia | ].
  split; [ do 4 (apply Forall_app; split; [ assumption | ]);
           assumption | ].
  unfold subarray.
  assert (Hskip : forall (a b : bytes) n,
             List.length a = n -> skipn n (a ++ b) = b).
  { intros a b n <-. rewrite skipn_app, skipn_all, Nat.sub_diag. easy. }
  assert (Htake : forall (a b : bytes) n,
             List.length a = n -> firstn n (a ++ b) = a).
  { intros a b n <-. rewrite firstn_app, firstn_all, Nat.sub_diag.
    cbn [firstn]. apply app_nil_r. }
  clearbody t f1 f2 f3 f4.
  split; [ | split; [ | split; [ | split ] ] ].
  - cbn [skipn Nat.sub]. now apply Htake.
  - rewrite (Hskip t _ 6%nat L0). now apply Htake.
  - rewrite (app_assoc t f1). rewrite Hskip
      by (rewrite length_app; lia). now apply Htake.
  - rewrite (app_assoc t f1), (app_assoc (t ++ f1) f2).
    rewrite Hskip by (repeat rewrite length_app; lia). now apply Htake.
  - rewrite (app_assoc t f1), (app_assoc (t ++ f1) f2),
      (app_assoc ((t ++ f1) ++ f2) f3).
    rewrite Hskip by (repeat rewrite length_app; lia).
    rewrite firstn_all2 by lia. reflexivity.
Qed.

End Payload.

Lemma split_at_clean (c : Z) (t : jsstring) :
  forallb (fun x => negb (x =? c)) t = true -> split_at c t = (t, []).
Proof.
  induction t as [ | x t IH ]; intros Ht; [ reflexivity | ].
  cbn [forallb] in Ht. apply andb_true_iff in Ht as [Hx Ht].
  cbn [split_at]. rewrite (IH Ht).
  apply negb_true_iff in Hx. now rewrite Hx.
Qed.

Lemma split_two (c : Z) (s t : jsstring) :
  forallb (fun x => negb (x =? c)) s = true ->
  forallb (fun x => negb (x =? c)) t = true ->
  split c (s ++ c :: t) = [s; t].
Proof.
  intros Hs Ht. unfold split.
  assert (Hat : split_at c (s ++ c :: t) = (s, [t])).
  { induction s as [ | x s IH ].
    - cbn [app split_at]. rewrite (split_at_clean c t Ht).
      now rewrite Z.eqb_refl.
    - cbn [forallb] in Hs. apply andb_true_iff in Hs as [Hx Hs].
      cbn [app split_at]. rewrite (IH Hs).
      apply negb_true_iff in Hx. now rewrite Hx. }
  now rewrite Hat.
Qed.

Lemma lower_hex_not_dot (s : jsstring) :
  forallb is_lower_hex_digit s = true ->
  forallb (fun x => negb (x =? ch ".")) s = true.
Proof.
  intros Hs. apply forallb_forall. intros c Hc.
  rewrite forallb_forall in Hs. specialize (Hs c Hc).
  unfold is_lower_hex_digit, Hex.is_digit, Hex.is_lower_hex in Hs.
  change (ch "0") with 48 in Hs. change (ch "9") with 57 in Hs.
  change (ch "a") with 97 in Hs. change (ch "f") with 102 in Hs.
  change (ch ".") with 46. lia.
Qed.

(** The record read back from an issued token. *)
Lemma decodeToken_issued
  (secret : jsstring) (input : GenerateQrInput) (ts : Z) :
  QrService.validate input = Ok tt ->
  0 <= ts < 2 ^ 48 ->
  QrService.decodeToken
    (QrService.make_token secret
       (QrService.payloadBinary (Buffer.big_endian 6 ts) input))
  = Ok (Some (lowercase_fields input)).
Proof.
  intros Hvalid Hts.
  destruct (payload_layout input ts Hvalid)
    as (Hlen & Hbytes & _ & H1 & H2 & H3 & H4).
  pose proof (validate_ok input Hvalid)
    as ((X1 & L1) & (X2 & L2) & (X3 & L3) & (X4 & L4)).
  set (payload := QrService.payloadBinary (Buffer.big_endian 6 ts) input)
    in *.
  rewrite decodeToken_spec.
  rewrite (decoded_payload_make_token secret payload Hbytes).
  unfold Buffer.byteLength. rewrite Hlen.
  change (Z.of_nat 34 =? 34) with true. cbv iota.
  unfold fields_at_offsets, lowercase_fields.
  rewrite H1, H2, H3, H4. unfold QrService.hexToBuffer.
  rewrite (to_hex_from_hex _ 4 X1 L1), (to_hex_from_hex _ 8 X2 L2),
    (to_hex_from_hex _ 8 X3 L3), (to_hex_from_hex _ 8 X4 L4).
  reflexivity.
Qed.


(* ================================================================== *)
(** * The claims *)

(** C5.  Round trip: for every input that passes validation (a 4-byte data
    hash and three 8-byte metadata fields, as hexadecimal text) and every
    timestamp that fits in 48 bits, under any secret, [decodeToken] applied
    to the token built from the packed payload returns a record, and that
    record is the input with its letters in lower case.  Measured by the
    value of their digits, and not by the code's own decoder, the four
    fields of the record denote the same 4, 8, 8 and 8 bytes as the fields
    of the input; these are the bytes the token carries at the four
    offsets of its payload, and the bytes [hexToBuffer] reads from either
    record. *)
Theorem roundtrip_recovers_fields
  (secret : jsstring) (input : GenerateQrInput) (ts : Z) :
  QrService.validate input = Ok tt ->
  0 <= ts < 2 ^ 48 ->
  exists tsBuffer meta,
    Buffer.writeUIntBE6 ts = Ok tsBuffer
    /\ QrService.decodeToken
         (QrService.make_token secret
            (QrService.payloadBinary tsBuffer input)) = Ok (Some meta)
    /\ meta = lowercase_fields input
    /\ map denoted_bytes (field_texts meta)
       = map denoted_bytes (field_texts input)
    /\ map (@List.length Z) (map denoted_bytes (field_texts input))
       = [4; 8; 8; 8]%nat
    /\ bytes_at_offsets
         (decoded_payload
            (QrService.make_token secret
               (QrService.payloadBinary tsBuffer input)))
       = map denoted_bytes (field_texts input)
    /\ map QrService.hexToBuffer (field_texts meta)
       = map denoted_bytes (field_texts input)
    /\ map QrService.hexToBuffer (field_texts input)
       = map denoted_bytes (field_texts input).
Proof.
  intros Hvalid Hts.
  destruct (payload_layout input ts Hvalid)
    as (Hlen & Hbytes & _ & H1 & H2 & H3 & H4).
  pose proof (validate_ok input Hvalid)
    as ((X1 & L1) & (X2 & L2) & (X3 & L3) & (X4 & L4)).
  destruct (hexToBuffer_denoted _ 4 X1 L1) as (A1 & B1 & C1).
  destruct (hexToBuffer_denoted _ 8 X2 L2) as (A2 & B2 & C2).
  destruct (hexToBuffer_denoted _ 8 X3 L3) as (A3 & B3 & C3).
  destruct (hexToBuffer_denoted _ 8 X4 L4) as (A4 & B4 & C4).
  exists (Buffer.big_endian 6 ts), (lowercase_fields input).
  split; [ now apply writeUIntBE6_in_range | ].
  split; [ exact (decodeToken_issued secret input ts Hvalid Hts) | ].
  split; [ reflexivity | ].
  rewrite (decoded_payload_make_token secret _ Hbytes).
  unfold bytes_at_offsets. rewrite H1, H2, H3, H4.
  unfold field_texts, lowercase_fields.
  cbn [map data_hash metadata_series metadata_issued metadata_expiry].
  rewrite (denoted_bytes_lowercase _ X1), (denoted_bytes_lowercase _ X2),
    (denoted_bytes_lowercase _ X3), (denoted_bytes_lowercase _ X4).
  rewrite A1, A2, A3, A4, B1, B2, B3, B4, C1, C2, C3, C4.
  split; [ reflexivity | ]. split; [ reflexivity | ].
  split; [ reflexivity | ]. split; reflexivity.
Qed.

Lemma roundtrip_recovers_fields_witness :
  QrService.validate uppercase_input = Ok tt
  /\ exists tsBuffer meta,
       Buffer.writeUIntBE6 1700000000000 = Ok tsBuffer
       /\ QrService.decodeToken
            (QrService.make_token example_secret
               (QrService.payloadBinary tsBuffer uppercase_input))
          = Ok (Some meta)
       /\ meta = example_input
       /\ map denoted_bytes (field_texts meta)
          = map denoted_bytes (field_texts uppercase_input)
       /\ map (@List.length Z)
            (map denoted_bytes (field_texts uppercase_input))
          = [4; 8; 8; 8]%nat
       /\ bytes_at_offsets
            (decoded_payload
               (QrService.make_token example_secret
                  (QrService.payloadBinary tsBuffer uppercase_input)))
          = map denoted_bytes (field_texts uppercase_input)
       /\ map QrService.hexToBuffer (field_texts meta)
          = map denoted_bytes (field_texts uppercase_input)
       /\ map QrService.hexToBuffer (field_texts uppercase_input)
          = map denoted_bytes (field_texts uppercase_input).
Proof.
  split; [ reflexivity | ].
  apply (roundtrip_recovers_fields example_secret uppercase_input
           1700000000000); [ reflexivity | ].
  split; [ discriminate | reflexivity ].
Defined.

(** C7.  Token shape: for every input that passes validation and every
    timestamp that fits in 48 bits, under any secret, the payload has 34
    bytes and the token consists of exactly two segments separated by a
    dot.  The first is the payload's Base64url text, one alphabet character
    per 6-bit group and no padding, 46 characters long; the second is the
    first 16 bytes of the HMAC-SHA-256 digest of the payload as 32
    lowercase hexadecimal digits.  The token is 79 characters long
    whatever the field values. *)
Theorem token_shape (secret : jsstring) (input : GenerateQrInput) (ts : Z) :
  QrService.validate input = Ok tt ->
  0 <= ts < 2 ^ 48 ->
  exists tsBuffer,
    Buffer.writeUIntBE6 ts = Ok tsBuffer
    /\ let payload := QrService.payloadBinary tsBuffer input in
       let token_ := QrService.make_token secret payload in
       Buffer.byteLength payload = 34
       /\ split (ch ".") token_
          = [QrService.payloadB64 payload; QrService.hmac secret payload]
       /\ QrService.payloadB64 payload
          = map url_char (Buffer.sextets payload)
       /\ forallb is_base64url_char (QrService.payloadB64 payload) = true
       /\ jslength (QrService.payloadB64 payload) = 46
       /\ QrService.hmac secret payload
          = Buffer.to_hex
              (firstn 16
                 (Crypto.hmac_sha256 (Buffer.from_utf8 secret) payload))
       /\ forallb is_lower_hex_digit (QrService.hmac secret payload) = true
       /\ jslength (QrService.hmac secret payload) = 32
       /\ jslength token_ = 79.
Proof.
  intros Hvalid Hts.
  destruct (payload_layout input ts Hvalid) as (Hlen & Hbytes & _).
  exists (Buffer.big_endian 6 ts).
  split; [ now apply writeUIntBE6_in_range | ].
  cbv zeta.
  set (payload := QrService.payloadBinary (Buffer.big_endian 6 ts) input)
    in *.
  pose proof (payloadB64_sextets payload Hbytes) as Htext.
  pose proof (sextets_range payload Hbytes) as Hrange.
  assert (Hlen64 : List.length (QrService.payloadB64 payload) = 46%nat).
  { rewrite Htext, length_map, length_sextets, Hlen. reflexivity. }
  assert (Hnodot : forallb (fun x => negb (x =? ch "."))
                     (QrService.payloadB64 payload) = true).
  { rewrite Htext. apply forallb_forall. intros c Hc.
    apply in_map_iff in Hc. destruct Hc as (v & <- & Hv).
    rewrite Forall_forall in Hrange.
    apply negb_true_iff. now apply url_char_not_dot, Hrange. }
  split; [ unfold Buffer.byteLength; now rewrite Hlen | ].
  split.
  { unfold QrService.make_token.
    change (lit "." ++ QrService.hmac secret payload)
      with (ch "." :: QrService.hmac secret payload).
    apply split_two; [ exact Hnodot | ].
    apply lower_hex_not_dot, hmac_lowercase. }
  split; [ exact Htext | ].
  split.
  { rewrite Htext. apply forallb_forall. intros c Hc.
    apply in_map_iff in Hc. destruct Hc as (v & <- & Hv).
    rewrite Forall_forall in Hrange. now apply url_char_in_alphabet, Hrange. }
  split; [ unfold jslength; now rewrite Hlen64 | ].
  split; [ apply hmac_truncated | ].
  split; [ apply hmac_lowercase | ].
  split; [ unfold jslength; now rewrite length_hmac | ].
  unfold QrService.make_token, jslength.
  repeat rewrite length_app. rewrite Hlen64, length_hmac. reflexivity.
Qed.

Lemma token_shape_witness :
  QrService.validate example_input = Ok tt
  /\ Buffer.writeUIntBE6 1700000000000
     = Ok (Buffer.big_endian 6 1700000000000)
  /\ QrService.make_token example_secret
       (QrService.payloadBinary (Buffer.big_endian 6 1700000000000)
          example_input) = example_token
  /\ jslength example_token = 79.
Proof.
  split; [ reflexivity | ].
  destruct (token_shape example_secret example_input 1700000000000)
    as (tsBuffer & Hts & _);
    [ reflexivity | split; [ discriminate | reflexivity ] | ].
  split; [ reflexivity | ].
  split; vm_compute; reflexivity.
Defined.

(** C8.  Length invariant: whenever the bytes decoded from a token are not
    exactly 34, [decodeToken] returns [null]; and whenever it returns a
    record, the decoded payload has 34 bytes and the record is complete,
    its fields read at the fixed offsets with 8, 16, 16 and 16 hexadecimal
    digits. *)
Theorem wrong_length_rejected (token_ : jsstring) :
  Buffer.byteLength (decoded_payload token_) <> 34 ->
  QrService.decodeToken token_ = Ok None
  /\ forall (t : jsstring) (meta : DecodedMeta),
       QrService.decodeToken t = Ok (Some meta) ->
       Buffer.byteLength (decoded_payload t) = 34
       /\ meta = fields_at_offsets (decoded_payload t)
       /\ jslength (data_hash meta) = 8
       /\ jslength (metadata_series meta) = 16
       /\ jslength (metadata_issued meta) = 16
       /\ jslength (metadata_expiry meta) = 16.
Proof.
  intros Hlen. split.
  - rewrite decodeToken_spec.
    destruct (Buffer.byteLength (decoded_payload token_) =? 34) eqn:E;
      [ lia | reflexivity ].
  - intros t meta. rewrite decodeToken_spec.
    destruct (Buffer.byteLength (decoded_payload t) =? 34) eqn:E;
      [ | discriminate ].
    intros Hmeta. assert (meta = fields_at_offsets (decoded_payload t))
      as -> by congruence.
    apply Z.eqb_eq in E. split; [ exact E | ]. split; [ reflexivity | ].
    unfold Buffer.byteLength in E.
    unfold fields_at_offsets, jslength, Buffer.subarray.
    cbn [data_hash metadata_series metadata_issued metadata_expiry].
    repeat rewrite length_to_hex. repeat rewrite length_firstn.
    repeat rewrite length_skipn. lia.
Qed.

Lemma wrong_length_rejected_witness :
  Buffer.byteLength (decoded_payload (lit "QUJD.00ff")) = 3
  /\ QrService.decodeToken (lit "QUJD.00ff") = Ok None.
Proof.
  split; [ reflexivity | ].
  apply (wrong_length_rejected (lit "QUJD.00ff")). discriminate.
Defined.

(** ** Runs of verify *)

Section VerifyRuns.
Context `{JsNumber}.
Variable cfg : Config.config.
Variable out : Outside.

(** [decodeToken] returns for every string. *)
Lemma decodeToken_returns (token_ : jsstring) :
  exists r, QrService.decodeToken token_ = Ok r.
Proof. rewrite decodeToken_spec. eauto. Qed.

Lemma decode_detected_string (token_ : jsstring) :
  exists r, QrService.decode_detected (VString token_) = Ok r.
Proof.
  unfold QrService.decode_detected.
  destruct (truthy (VString token_)); [ apply decodeToken_returns | eauto ].
Qed.

(** The detection call fails: [verify] rejects with its error after that
    one call. *)
Lemma verify_detection_fails (imageBase64 : jsstring) (e : exn) (w : World) :
  post_verify out imageBase64 = Throw e ->
  QrService.verify cfg out imageBase64 w
  = (Throw e, with_calls w [detection_call cfg imageBase64]).
Proof.
  intros Hreply.
  unfold QrService.verify, QrService.axios_post_verify, bind, lift,
    record_call. cbn. now rewrite Hreply.
Qed.

(** The detection call answers and the token decodes or is absent: the
    write is attempted, and [verify] returns exactly when it succeeds. *)
Lemma verify_detection_answers (imageBase64 : jsstring)
      (token_ confidence_score_ is_authentic_ : jsval)
      (m : option DecodedMeta) (w : World) :
  post_verify out imageBase64
  = Ok (token_, confidence_score_, is_authentic_) ->
  QrService.decode_detected token_ = Ok m ->
  let doc :=
    verification_record out token_ confidence_score_ is_authentic_ in
  let asked :=
    with_calls w [detection_call cfg imageBase64; InsertVerify doc] in
  QrService.verify cfg out imageBase64 w
  = match verify_insertOne out doc with
    | Ok _ =>
        (Ok {| is_authentic := truthy is_authentic_;
               confidence_score :=
                 nullish confidence_score_ (VNumber (num_of_Z 0));
               decoded_meta := m |},
         {| qr_audit := qr_audit asked;
            qr_verify_logs := qr_verify_logs w ++ [doc];
            calls := calls asked |})
    | Throw e => (Throw e, asked)
    end.
Proof.
  intros Hreply Hdecode. cbv zeta.
  unfold QrService.verify, QrService.axios_post_verify,
    QrService.verifyCollection_insertOne, bind, lift, record_call,
    store_verify, ret.
  cbn. rewrite Hreply. cbn. rewrite Hdecode. cbn.
  fold (verification_record out token_ confidence_score_ is_authentic_).
  unfold with_calls, detection_call. cbn. rewrite <- app_assoc. cbn.
  destruct (verify_insertOne out _) as [ [] | e ]; reflexivity.
Qed.

(** A truthy token that is not a string: [verify] throws before it
    writes. *)
Lemma verify_token_not_string (imageBase64 : jsstring)
      (token_ confidence_score_ is_authentic_ : jsval) (e : exn)
      (w : World) :
  post_verify out imageBase64
  = Ok (token_, confidence_score_, is_authentic_) ->
  QrService.decode_detected token_ = Throw e ->
  QrService.verify cfg out imageBase64 w
  = (Throw e, with_calls w [detection_call cfg imageBase64]).
Proof.
  intros Hreply Hdecode.
  unfold QrService.verify, QrService.axios_post_verify, bind, lift,
    record_call. cbn. rewrite Hreply. cbn. now rewrite Hdecode.
Qed.

End VerifyRuns.

(** C10.  [decodeToken] returns, with the record or [null], for every
    string: taking the first piece of the split, restoring the alphabet,
    padding and decoding cannot throw.  Hence, when the detector reports a
    string token, [verify] returns the detector's flag and score with the
    decode result unless the store write itself fails; it never throws on
    account of the token. *)
Theorem decodeToken_total `{JsNumber}
  (cfg : Config.config) (out : Outside) (imageBase64 token_ : jsstring)
  (confidence_score_ is_authentic_ : jsval) (w : World) :
  post_verify out imageBase64
  = Ok (VString token_, confidence_score_, is_authentic_) ->
  (exists r, QrService.decodeToken token_ = Ok r)
  /\ exists m,
       QrService.decode_detected (VString token_) = Ok m
       /\ match verify_insertOne out
                  (verification_record out (VString token_)
                     confidence_score_ is_authentic_) with
          | Ok _ =>
              fst (QrService.verify cfg out imageBase64 w)
              = Ok {| is_authentic := truthy is_authentic_;
                      confidence_score :=
                        nullish confidence_score_ (VNumber (num_of_Z 0));
                      decoded_meta := m |}
          | Throw e =>
              fst (QrService.verify cfg out imageBase64 w) = Throw e
          end.
Proof.
  intros Hreply. split; [ apply decodeToken_returns | ].
  destruct (decode_detected_string token_) as [m Hm].
  exists m. split; [ exact Hm | ].
  rewrite (verify_detection_answers cfg out imageBase64 _ _ _ m w
             Hreply Hm).
  destruct (verify_insertOne out _); reflexivity.
Qed.

Lemma decodeToken_total_witness :
  QrService.decodeToken (lit "%%not a token%%") = Ok None
  /\ QrService.decodeToken (lit "") = Ok None
  /\ QrService.decodeToken (lit ".589fc7a7aa65df09fac9c83f8a6208bf")
     = Ok None
  /\ exists r, QrService.decodeToken (lit "%%not a token%%") = Ok r.
Proof.
  split; [ reflexivity | ]. split; [ reflexivity | ].
  split; [ reflexivity | ].
  exact (proj1 (decodeToken_total (H := IntegerNumbers)
                  example_cfg detector_garbled example_image
                  (lit "%%not a token%%") VUndefined VUndefined
                  empty_world eq_refl)).
Defined.

(** ** C1: the signature segment *)

Lemma decoded_payload_first_segment (payloadSeg sig : jsstring) :
  forallb (fun x => negb (x =? ch ".")) payloadSeg = true ->
  decoded_payload (payloadSeg ++ lit "." ++ sig)
  = decoded_payload payloadSeg.
Proof.
  intros Hseg. unfold decoded_payload.
  change (lit "." ++ sig) with (ch "." :: sig).
  now rewrite split_at_first, split_at_none.
Qed.

(** C1, as stated, fails.  [tampered_token] is well formed, its payload
    decodes to 34 bytes and its signature segment differs from the HMAC
    recomputed over that payload under [example_secret]; [decodeToken]
    returns the four fields all the same, and [verify] hands them to its
    caller as [decoded_meta]. *)
Lemma signature_mismatch_accepted :
  split (ch ".") tampered_token
  = [example_payload_text; lit "589fc7a7aa65df09fac9c83f8a6208b0"]
  /\ Buffer.byteLength (decoded_payload tampered_token) = 34
  /\ QrService.hmac example_secret (decoded_payload tampered_token)
     = lit "589fc7a7aa65df09fac9c83f8a6208bf"
  /\ lit "589fc7a7aa65df09fac9c83f8a6208b0"
     <> QrService.hmac example_secret (decoded_payload tampered_token)
  /\ QrService.decodeToken tampered_token = Ok (Some example_input)
  /\ fst (QrService.verify example_cfg all_up example_image empty_world)
     = Ok {| is_authentic := true;
             confidence_score := VNumber (Some 1);
             decoded_meta := Some example_input |}.
Proof.
  split; [ vm_compute; reflexivity | ].
  split; [ vm_compute; reflexivity | ].
  split; [ vm_compute; reflexivity | ].
  split; [ vm_compute; discriminate | ].
  split; vm_compute; reflexivity.
Qed.

(** C1, amended.  [decodeToken] does not compare the signature segment with
    a recomputed HMAC: for a token [payloadSeg.sig] its result is fixed by
    [payloadSeg] alone, [null] exactly when [payloadSeg] does not decode to
    34 bytes and the fields at the payload offsets otherwise, whatever
    [sig] is.  During verification [decoded_meta] is that result, while
    [is_authentic] and [confidence_score] carry the detector's values. *)
Theorem signature_segment_ignored `{JsNumber}
  (cfg : Config.config) (out : Outside)
  (imageBase64 payloadSeg sig : jsstring)
  (confidence_score_ is_authentic_ : jsval) (w : World) :
  forallb (fun x => negb (x =? ch ".")) payloadSeg = true ->
  post_verify out imageBase64
  = Ok (VString (payloadSeg ++ lit "." ++ sig),
        confidence_score_, is_authentic_) ->
  verify_insertOne out
    (verification_record out (VString (payloadSeg ++ lit "." ++ sig))
       confidence_score_ is_authentic_) = Ok tt ->
  let payload := decoded_payload payloadSeg in
  let meta :=
    if Buffer.byteLength payload =? 34
    then Some (fields_at_offsets payload) else None in
  QrService.decodeToken (payloadSeg ++ lit "." ++ sig) = Ok meta
  /\ (meta = None <-> Buffer.byteLength payload <> 34)
  /\ fst (QrService.verify cfg out imageBase64 w)
     = Ok {| is_authentic := truthy is_authentic_;
             confidence_score :=
               nullish confidence_score_ (VNumber (num_of_Z 0));
             decoded_meta := meta |}.
Proof.
  intros Hseg Hreply Hinsert. cbv zeta.
  assert (Hdecode :
            QrService.decodeToken (payloadSeg ++ lit "." ++ sig)
            = Ok (if Buffer.byteLength (decoded_payload payloadSeg) =? 34
                  then Some (fields_at_offsets (decoded_payload payloadSeg))
                  else None)).
  { rewrite decodeToken_spec.
    now rewrite (decoded_payload_first_segment payloadSeg sig Hseg). }
  split; [ exact Hdecode | ].
  split.
  { destruct (Buffer.byteLength (decoded_payload payloadSeg) =? 34) eqn:E.
    - split; [ discriminate | lia ].
    - split; [ lia | reflexivity ]. }
  assert (Hdetected :
            QrService.decode_detected
              (VString (payloadSeg ++ lit "." ++ sig))
            = Ok (if Buffer.byteLength (decoded_payload payloadSeg) =? 34
                  then Some (fields_at_offsets (decoded_payload payloadSeg))
                  else None)).
  { unfold QrService.decode_detected.
    change (lit "." ++ sig) with (ch "." :: sig).
    replace (truthy (VString (payloadSeg ++ ch "." :: sig))) with true
      by (destruct payloadSeg; reflexivity).
    exact Hdecode. }
  rewrite (verify_detection_answers cfg out imageBase64 _ _ _ _ w
             Hreply Hdetected).
  now rewrite Hinsert.
Qed.

Lemma signature_segment_ignored_witness :
  QrService.decodeToken tampered_token = Ok (Some example_input)
  /\ QrService.decodeToken
       (example_payload_text ++ lit "." ++ lit "not-a-signature")
     = Ok (Some example_input)
  /\ fst (QrService.verify example_cfg all_up example_image empty_world)
     = Ok {| is_authentic := true;
             confidence_score := VNumber (Some 1);
             decoded_meta := Some example_input |}.
Proof.
  split; [ vm_compute; reflexivity | ].
  split; [ vm_compute; reflexivity | ].
  exact (proj2 (proj2
           (signature_segment_ignored (H := IntegerNumbers)
              example_cfg all_up example_image example_payload_text
              (lit "589fc7a7aa65df09fac9c83f8a6208b0")
              (VNumber (Some 1)) (VBoolean true) empty_world
              eq_refl eq_refl eq_refl))).
Defined.

(** ** C2: the verification record *)

(** C2, as stated, fails.  When the detection call fails, [verify] rejects
    with the client's error after that one call: no write is attempted and
    the store holds no verification record. *)
Lemma detection_failure_leaves_no_record :
  QrService.verify example_cfg detector_down example_image empty_world
  = (Throw (ExternalError (lit "timeout of 10000ms exceeded")),
     with_calls empty_world [detection_call example_cfg example_image])
  /\ qr_verify_logs
       (snd (QrService.verify example_cfg detector_down example_image
               empty_world)) = [].
Proof. split; vm_compute; reflexivity. Qed.

(** C2, amended.  For every call to [verify] whose detection call answers
    with a token that is absent (falsy) or a string, and whose store write
    is acknowledged, exactly one verification record is appended: it holds
    the token or [null], the confidence score or 0, and the authenticity
    flag; the audit collection is untouched.  When the detection call
    fails, [verify] rejects with that error and the store is unchanged. *)
Theorem verify_appends_one_record `{JsNumber}
  (cfg : Config.config) (out : Outside) (imageBase64 : jsstring)
  (token_ confidence_score_ is_authentic_ : jsval) (w : World) :
  post_verify out imageBase64
  = Ok (token_, confidence_score_, is_authentic_) ->
  truthy token_ = false \/ (exists s, token_ = VString s) ->
  verify_insertOne out
    (verification_record out token_ confidence_score_ is_authentic_)
  = Ok tt ->
  (let w' := snd (QrService.verify cfg out imageBase64 w) in
   qr_verify_logs w'
   = qr_verify_logs w
     ++ [ {| verify_token := nullish token_ VNull;
             verify_confidence_score :=
               nullish confidence_score_ (VNumber (num_of_Z 0));
             verify_is_authentic := truthy is_authentic_;
             verify_created_at := new_Date out |} ]
   /\ qr_audit w' = qr_audit w)
  /\ forall (down : Outside) (e : exn),
       post_verify down imageBase64 = Throw e ->
       let w' := snd (QrService.verify cfg down imageBase64 w) in
       fst (QrService.verify cfg down imageBase64 w) = Throw e
       /\ qr_verify_logs w' = qr_verify_logs w
       /\ qr_audit w' = qr_audit w.
Proof.
  intros Hreply Htoken Hinsert. split.
  - assert (Hdecode : exists m, QrService.decode_detected token_ = Ok m).
    { destruct Htoken as [Hfalsy | [s ->] ].
      - unfold QrService.decode_detected. rewrite Hfalsy. eauto.
      - apply decode_detected_string. }
    destruct Hdecode as [m Hm]. cbv zeta.
    rewrite (verify_detection_answers cfg out imageBase64 _ _ _ m w
               Hreply Hm).
    rewrite Hinsert. cbn [snd qr_verify_logs qr_audit with_calls].
    split; reflexivity.
  - intros down e Hdown. cbv zeta.
    rewrite (verify_detection_fails cfg down imageBase64 e w Hdown).
    cbn [fst snd qr_verify_logs qr_audit with_calls]. auto.
Qed.

Lemma verify_appends_one_record_witness :
  qr_verify_logs
    (snd (QrService.verify example_cfg detector_blind example_image
            empty_world))
  = [ {| verify_token := VNull;
         verify_confidence_score := VNumber (Some 0);
         verify_is_authentic := false;
         verify_created_at := 1700000000005 |} ]
  /\ qr_verify_logs
       (snd (QrService.verify example_cfg detector_down example_image
               empty_world)) = [].
Proof.
  pose proof (verify_appends_one_record (H := IntegerNumbers)
                example_cfg detector_blind example_image
                VNull (VNumber (Some 0)) (VBoolean false) empty_world
                eq_refl (or_introl eq_refl) eq_refl) as [[Hlogs _] Hdown].
  split; [ exact Hlogs | ].
  exact (proj1 (proj2 (Hdown detector_down _ eq_refl))).
Defined.

(** ** Runs of generate *)

Lemma assertHexLength_valid (label value : jsstring) (n : Z) :
  field_valid (label, value, n) = true ->
  Hex.assertHexLength label value n = Ok tt.
Proof.
  cbn [field_valid]. intros Hf. apply andb_true_iff in Hf as [Hhex Hlen].
  unfold Hex.assertHexLength. now rewrite Hhex, Hlen.
Qed.

Lemma assertHexLength_invalid (label value : jsstring) (n : Z) :
  field_valid (label, value, n) = false ->
  Hex.assertHexLength label value n
  = Throw (HttpException 400 (violation (label, value, n)) None).
Proof.
  cbn [field_valid violation]. intros Hf. unfold Hex.assertHexLength.
  destruct (Hex.hex_regex_test value); cbn [negb andb] in *;
    [ | reflexivity ].
  now rewrite Hf.
Qed.

Lemma validate_fields (input : GenerateQrInput) :
  QrService.validate input = Ok tt ->
  forallb field_valid (checked_fields input) = true.
Proof.
  unfold QrService.validate, checked_fields, Hex.assertHexLength.
  cbn [forallb field_valid].
  destruct (Hex.hex_regex_test (data_hash input)); [ | discriminate ].
  destruct (jslength (data_hash input) =? 8); [ | discriminate ].
  destruct (Hex.hex_regex_test (metadata_series input)); [ | discriminate ].
  destruct (jslength (metadata_series input) =? 16); [ | discriminate ].
  destruct (Hex.hex_regex_test (metadata_issued input)); [ | discriminate ].
  destruct (jslength (metadata_issued input) =? 16); [ | discriminate ].
  destruct (Hex.hex_regex_test (metadata_expiry input)); [ | discriminate ].
  destruct (jslength (metadata_expiry input) =? 16); [ | discriminate ].
  reflexivity.
Qed.

Section GenerateRuns.
Context `{JsNumber}.
Variable cfg : Config.config.
Variable out : Outside.

(** A failed check ends [generate] before anything else happens. *)
Lemma generate_rejects (input : GenerateQrInput) (e : exn) (w : World) :
  QrService.validate input = Throw e ->
  QrService.generate cfg out input w = (Throw e, w).
Proof.
  intros Hv. unfold QrService.generate, bind, lift. now rewrite Hv.
Qed.

(** A timestamp the buffer refuses ends [generate] before the render. *)
Lemma generate_clock_refused (input : GenerateQrInput) (e : exn)
      (w : World) :
  QrService.validate input = Ok tt ->
  Buffer.writeUIntBE6 (Date_now out) = Throw e ->
  QrService.generate cfg out input w = (Throw e, w).
Proof.
  intros Hv Hts. unfold QrService.generate, bind, lift.
  now rewrite Hv, Hts.
Qed.

(** A valid request at a timestamp the buffer accepts: the render is
    requested; if it answers, the audit write is attempted; [generate]
    returns the pair exactly when both succeed. *)
Lemma generate_proceeds (input : GenerateQrInput) (tsBuffer : Buffer.bytes)
      (w : World) :
  QrService.validate input = Ok tt ->
  Buffer.writeUIntBE6 (Date_now out) = Ok tsBuffer ->
  let token_ :=
    QrService.make_token (Config.hmacSecret cfg)
      (QrService.payloadBinary tsBuffer input) in
  let doc := audit_record out token_ input in
  QrService.generate cfg out input w
  = match post_generate out token_ with
    | Throw e => (Throw e, with_calls w [render_call cfg token_])
    | Ok image =>
        let asked := with_calls w [render_call cfg token_; InsertAudit doc] in
        match audit_insertOne out doc with
        | Throw e => (Throw e, asked)
        | Ok _ =>
            (Ok {| token := token_; qr_image_base64 := image |},
             {| qr_audit := qr_audit w ++ [doc];
                qr_verify_logs := qr_verify_logs w;
                calls := calls asked |})
        end
    end.
Proof.
  intros Hv Hts. cbv zeta.
  unfold QrService.generate, bind at 1 2, lift at 1 2.
  rewrite Hv, Hts. cbv beta iota zeta.
  set (token_ := QrService.make_token (Config.hmacSecret cfg)
                   (QrService.payloadBinary tsBuffer input)).
  unfold QrService.axios_post_generate, QrService.auditCollection_insertOne,
    bind, lift, record_call, store_audit, ret, audit_record, with_calls,
    render_call.
  cbv beta iota zeta. cbn [qr_audit qr_verify_logs calls].
  destruct (post_generate out token_) as [ image | e ]; [ | reflexivity ].
  rewrite <- app_assoc. cbn [app].
  destruct (audit_insertOne out _) as [ [] | e ]; reflexivity.
Qed.

(** The request schema accepts the body of a valid input. *)
Lemma safeParse_valid (input : GenerateQrInput) :
  QrService.validate input = Ok tt ->
  Http.generateQrSchema_safeParse (body_of input) = inl input.
Proof.
  intros Hv. apply validate_ok in Hv as ((_ & L1) & (_ & L2) & (_ & L3)
                                         & (_ & L4)).
  unfold Http.generateQrSchema_safeParse, body_of, Http.string_of_length,
    jslength.
  cbn [Http.body_data_hash Http.body_metadata_series
       Http.body_metadata_issued Http.body_metadata_expiry].
  rewrite L1, L2, L3, L4. cbn. now destruct input.
Qed.

End GenerateRuns.

(** ** C3: a failed audit write *)

(** C3, as stated, fails.  With a render that succeeds and a store that
    rejects the write, [generate] throws the store's error: no token and
    image are returned, and the HTTP response is a 500 error. *)
Lemma audit_failure_returns_no_token :
  fst (QrService.generate example_cfg store_down example_input empty_world)
  = Throw (ExternalError (lit "connection closed"))
  /\ fst (Http.generate example_cfg store_down (body_of example_input)
            empty_world)
     = {| Http.status := 500;
          Http.body := Http.ApiError (lit "connection closed") None |}.
Proof. split; vm_compute; reflexivity. Qed.

(** C3, amended.  For every generate call in which the render succeeds but
    the audit write fails, the write is attempted right after the render
    and before [generate] ends, nothing is stored, and [generate] rejects
    with the store's error instead of returning the token and image.  At
    the HTTP boundary the error handler logs that error and answers with
    status 500 and its message. *)
Theorem audit_failure_propagates `{JsNumber}
  (cfg : Config.config) (out : Outside) (input : GenerateQrInput)
  (image : jsval) (message : jsstring) (w : World) :
  QrService.validate input = Ok tt ->
  0 <= Date_now out < 2 ^ 48 ->
  let token_ :=
    QrService.make_token (Config.hmacSecret cfg)
      (QrService.payloadBinary (Buffer.big_endian 6 (Date_now out)) input) in
  let doc := audit_record out token_ input in
  post_generate out token_ = Ok image ->
  audit_insertOne out doc = Throw (ExternalError message) ->
  QrService.generate cfg out input w
  = (Throw (ExternalError message),
     with_calls w [render_call cfg token_; InsertAudit doc])
  /\ Http.generate cfg out (body_of input) w
     = ({| Http.status := 500;
           Http.body := Http.ApiError message None |},
        with_calls w [render_call cfg token_; InsertAudit doc;
                      Log error message]).
Proof.
  intros Hv Hts token_ doc Hrender Hinsert.
  assert (Hrun : QrService.generate cfg out input w
                 = (Throw (ExternalError message),
                    with_calls w [render_call cfg token_; InsertAudit doc])).
  { rewrite (generate_proceeds cfg out input _ w Hv
               (writeUIntBE6_in_range _ Hts)).
    cbv zeta. fold token_. rewrite Hrender. fold doc. now rewrite Hinsert. }
  split; [ exact Hrun | ].
  unfold Http.generate, Http.handled.
  rewrite (safeParse_valid input Hv).
  unfold bind at 1. rewrite Hrun.
  unfold Http.errorHandler, Http.logger, with_calls.
  cbv beta iota zeta. cbn [qr_audit qr_verify_logs calls exn_message].
  rewrite <- app_assoc. reflexivity.
Qed.

Lemma audit_failure_propagates_witness :
  fst (QrService.generate example_cfg store_down example_input empty_world)
  = Throw (ExternalError (lit "connection closed"))
  /\ qr_audit
       (snd (QrService.generate example_cfg store_down example_input
               empty_world)) = []
  /\ calls
       (snd (Http.generate example_cfg store_down (body_of example_input)
               empty_world))
     = [ render_call example_cfg example_token;
         InsertAudit (audit_record store_down example_token example_input);
         Log error (lit "connection closed") ].
Proof.
  assert (Hts : 0 <= Date_now store_down < 2 ^ 48)
    by (split; [ discriminate | reflexivity ]).
  pose proof (audit_failure_propagates (H := IntegerNumbers)
                example_cfg store_down example_input
                (VString (lit "iVBORw0KGgo=")) (lit "connection closed")
                empty_world eq_refl Hts eq_refl eq_refl)
    as [Hservice Hhttp].
  split; [ rewrite Hservice; reflexivity | ].
  split; [ rewrite Hservice; reflexivity | ].
  rewrite Hhttp. vm_compute. reflexivity.
Defined.

(** ** C4: validation *)

(** C4, as stated, fails.  [doubly_invalid_input] has two offending
    fields, each rejected on its own; the failure of [generate] names
    [data_hash] alone, at the service and in the HTTP response. *)
Lemma only_first_violation_named :
  Hex.assertHexLength (lit "data_hash")
    (data_hash doubly_invalid_input) 8
  = Throw (HttpException 400 (lit "data_hash must be hex string") None)
  /\ Hex.assertHexLength (lit "metadata_series")
       (metadata_series doubly_invalid_input) 16
     = Throw (HttpException 400 (lit "metadata_series must be hex string")
                None)
  /\ QrService.generate example_cfg all_up doubly_invalid_input empty_world
     = (Throw (HttpException 400 (lit "data_hash must be hex string") None),
        empty_world)
  /\ fst (Http.generate example_cfg all_up (body_of doubly_invalid_input)
            empty_world)
     = {| Http.status := 400;
          Http.body :=
            Http.ApiError (lit "data_hash must be hex string") None |}.
Proof. repeat split; vm_compute; reflexivity. Qed.

(** C4, amended.  For every generate input with one or more invalid fields
    (not hex-only, or not of the required length 8/16/16/16), [generate]
    fails with a 400 [HttpException] that names the first offending field,
    in the order data_hash, metadata_series, metadata_issued,
    metadata_expiry, and reports that field's first failed check only; no
    token is produced, the pattern service is not called and no audit
    record is written. *)
Theorem first_violation_reported `{JsNumber}
  (cfg : Config.config) (out : Outside) (input : GenerateQrInput)
  (w : World) :
  forallb field_valid (checked_fields input) = false ->
  exists before f after,
    checked_fields input = before ++ f :: after
    /\ forallb field_valid before = true
    /\ field_valid f = false
    /\ QrService.generate cfg out input w
       = (Throw (HttpException 400 (violation f) None), w).
Proof.
  intros Hinvalid. unfold checked_fields in *.
  set (f1 := (lit "data_hash", data_hash input, 8)) in *.
  set (f2 := (lit "metadata_series", metadata_series input, 16)) in *.
  set (f3 := (lit "metadata_issued", metadata_issued input, 16)) in *.
  set (f4 := (lit "metadata_expiry", metadata_expiry input, 16)) in *.
  destruct (field_valid f1) eqn:V1.
  2:{ exists [], f1, [f2; f3; f4]. repeat split; try assumption.
      apply generate_rejects. unfold QrService.validate.
      now rewrite (assertHexLength_invalid _ _ _ V1). }
  destruct (field_valid f2) eqn:V2.
  2:{ exists [f1], f2, [f3; f4]. repeat split; try assumption.
      - cbn [forallb]. now rewrite V1.
      - apply generate_rejects. unfold QrService.validate.
        rewrite (assertHexLength_valid _ _ _ V1).
        now rewrite (assertHexLength_invalid _ _ _ V2). }
  destruct (field_valid f3) eqn:V3.
  2:{ exists [f1; f2], f3, [f4]. repeat split; try assumption.
      - cbn [forallb]. now rewrite V1, V2.
      - apply generate_rejects. unfold QrService.validate.
        rewrite (assertHexLength_valid _ _ _ V1).
        rewrite (assertHexLength_valid _ _ _ V2).
        now rewrite (assertHexLength_invalid _ _ _ V3). }
  destruct (field_valid f4) eqn:V4.
  1:{ cbn [forallb] in Hinvalid.
      rewrite V1, V2, V3, V4 in Hinvalid. discriminate. }
  exists [f1; f2; f3], f4, []. repeat split; try assumption.
  - cbn [forallb]. now rewrite V1, V2, V3.
  - apply generate_rejects. unfold QrService.validate.
    rewrite (assertHexLength_valid _ _ _ V1).
    rewrite (assertHexLength_valid _ _ _ V2).
    rewrite (assertHexLength_valid _ _ _ V3).
    now rewrite (assertHexLength_invalid _ _ _ V4).
Qed.

Lemma first_violation_reported_witness :
  forallb field_valid
    (checked_fields
       {| data_hash := lit "a1b2c3";
          metadata_series := lit "1234567890abcdef";
          metadata_issued := lit "0011223344556677";
          metadata_expiry := lit "8899aabbccddeeff" |}) = false
  /\ exists before f after,
       checked_fields
         {| data_hash := lit "a1b2c3";
            metadata_series := lit "1234567890abcdef";
            metadata_issued := lit "0011223344556677";
            metadata_expiry := lit "8899aabbccddeeff" |}
       = before ++ f :: after
       /\ forallb field_valid before = true
       /\ field_valid f = false
       /\ QrService.generate example_cfg all_up
            {| data_hash := lit "a1b2c3";
               metadata_series := lit "1234567890abcdef";
               metadata_issued := lit "0011223344556677";
               metadata_expiry := lit "8899aabbccddeeff" |} empty_world
          = (Throw (HttpException 400 (violation f) None), empty_world).
Proof.
  split; [ reflexivity | ].
  apply (first_violation_reported (H := IntegerNumbers)). reflexivity.
Defined.

(** ** C9: the timestamp *)

(** C9.  For a request that passes validation: when the clock value does
    not fit in 48 bits, the write into the six-byte buffer throws a
    [RangeError] and [generate] ends with it, nothing wrapped or
    saturated, no render requested and nothing stored; when the clock
    value fits, the write succeeds with six bytes that hold the value
    itself, most significant first, and [generate] goes on to request the
    render for the token built on them. *)
Theorem timestamp_range_enforced `{JsNumber}
  (cfg : Config.config) (out : Outside) (input : GenerateQrInput)
  (w : World) :
  QrService.validate input = Ok tt ->
  (Date_now out < 0 \/ 2 ^ 48 <= Date_now out ->
   QrService.generate cfg out input w
   = (Throw (RangeError (lit "ERR_OUT_OF_RANGE")), w))
  /\ (0 <= Date_now out < 2 ^ 48 ->
      exists tsBuffer rest,
        Buffer.writeUIntBE6 (Date_now out) = Ok tsBuffer
        /\ Buffer.byteLength tsBuffer = 6
        /\ Forall Buffer.is_byte tsBuffer
        /\ uint_be tsBuffer = Date_now out
        /\ calls (snd (QrService.generate cfg out input w))
           = calls w
             ++ render_call cfg
                  (QrService.make_token (Config.hmacSecret cfg)
                     (QrService.payloadBinary tsBuffer input))
                :: rest).
Proof.
  intros Hv. split.
  - intros Hts. apply generate_clock_refused; [ exact Hv | ].
    unfold Buffer.writeUIntBE6.
    change (2 ^ 48) with 281474976710656 in Hts.
    replace ((Date_now out <? 0) || (281474976710655 <? Date_now out))
      with true; [ reflexivity | ].
    symmetry. apply orb_true_iff. lia.
  - intros Hts.
    pose proof (writeUIntBE6_in_range _ Hts) as Hwrite.
    set (tsBuffer := Buffer.big_endian 6 (Date_now out)) in *.
    set (token_ := QrService.make_token (Config.hmacSecret cfg)
                     (QrService.payloadBinary tsBuffer input)).
    assert (Hcalls : exists rest,
               calls (snd (QrService.generate cfg out input w))
               = calls w ++ render_call cfg token_ :: rest).
    { rewrite (generate_proceeds cfg out input tsBuffer w Hv Hwrite).
      cbv zeta. fold token_.
      destruct (post_generate out token_) as [ image | e ].
      - destruct (audit_insertOne out _) as [ [] | e ]; eexists;
          cbn [snd calls with_calls]; reflexivity.
      - eexists. cbn [snd calls with_calls]. reflexivity. }
    destruct Hcalls as [rest Hrest].
    exists tsBuffer, rest.
    split; [ exact Hwrite | ].
    split; [ unfold Buffer.byteLength, tsBuffer;
             now rewrite length_big_endian | ].
    split; [ apply big_endian_bytes | ].
    split; [ apply uint_be_big_endian; exact Hts | exact Hrest ].
Qed.

Lemma timestamp_range_enforced_witness :
  QrService.generate example_cfg late_clock example_input empty_world
  = (Throw (RangeError (lit "ERR_OUT_OF_RANGE")), empty_world)
  /\ exists tsBuffer rest,
       Buffer.writeUIntBE6 1700000000000 = Ok tsBuffer
       /\ Buffer.byteLength tsBuffer = 6
       /\ Forall Buffer.is_byte tsBuffer
       /\ uint_be tsBuffer = 1700000000000
       /\ calls (snd (QrService.generate example_cfg all_up example_input
                        empty_world))
          = calls empty_world
            ++ render_call example_cfg
                 (QrService.make_token (Config.hmacSecret example_cfg)
                    (QrService.payloadBinary tsBuffer example_input))
               :: rest.
Proof.
  split.
  - apply (proj1 (timestamp_range_enforced (H := IntegerNumbers)
                    example_cfg late_clock example_input empty_world
                    eq_refl)).
    right. discriminate.
  - apply (proj2 (timestamp_range_enforced (H := IntegerNumbers)
                    example_cfg all_up example_input empty_world
                    eq_refl)).
    split; [ discriminate | reflexivity ].
Defined.

(** ** C6: configuration *)








(* ================================================================== *)
(** * Further properties of the code *)

(** ** utils/hex.ts: validated text decodes in full *)

(** X1.  Text that [assertHexLength] accepts for an even length [2 k] is
    decoded by [hexToBuffer] in full: the buffer has [k] bytes, and
    encoding it again gives the text back with its letters in lower
    case. *)
Theorem validated_hex_decodes_fully (label value : jsstring) (k : nat) :
  Hex.assertHexLength label value (2 * Z.of_nat k) = Ok tt ->
  List.length (QrService.hexToBuffer value) = k
  /\ Forall Buffer.is_byte (QrService.hexToBuffer value)
  /\ Buffer.to_hex (QrService.hexToBuffer value) = lowercase_hex value.
Proof.
  intros Hok. apply assertHexLength_ok in Hok as [Hhex Hlen].
  unfold jslength in Hlen.
  assert (Hlen' : List.length value = (2 * k)%nat) by lia.
  destruct (from_hex_digits value k Hhex Hlen') as [Hk Hbytes].
  unfold QrService.hexToBuffer.
  split; [ exact Hk | ]. split; [ exact Hbytes | ].
  exact (to_hex_from_hex value k Hhex Hlen').
Qed.

Lemma validated_hex_decodes_fully_witness :
  List.length (QrService.hexToBuffer (lit "A1b2C3d4")) = 4%nat
  /\ Forall Buffer.is_byte (QrService.hexToBuffer (lit "A1b2C3d4"))
  /\ Buffer.to_hex (QrService.hexToBuffer (lit "A1b2C3d4"))
     = lowercase_hex (lit "A1b2C3d4").
Proof.
  apply (validated_hex_decodes_fully (lit "data_hash") (lit "A1b2C3d4") 4).
  reflexivity.
Defined.

(** ** services/qr.service.ts: what a run of generate leaves behind *)

Lemma writeUIntBE6_accepts (value : Z) (buf : Buffer.bytes) :
  Buffer.writeUIntBE6 value = Ok buf ->
  0 <= value < 2 ^ 48 /\ buf = Buffer.big_endian 6 value.
Proof.
  unfold Buffer.writeUIntBE6.
  destruct ((value <? 0) || (281474976710655 <? value)) eqn:E;
    intros Heq; [ discriminate Heq | ].
  apply orb_false_iff in E as [E1 E2]. split.
  - change (2 ^ 48) with 281474976710656. lia.
  - congruence.
Qed.

Section GenerateOutcomes.
Context `{JsNumber}.
Variable cfg : Config.config.
Variable out : Outside.

(** Every run of [generate], by the first step that fails. *)
Lemma generate_outcome (input : GenerateQrInput) (w : World) :
  QrService.generate cfg out input w
  = match QrService.validate input with
    | Throw e => (Throw e, w)
    | Ok _ =>
        match Buffer.writeUIntBE6 (Date_now out) with
        | Throw e => (Throw e, w)
        | Ok tsBuffer =>
            let token_ :=
              QrService.make_token (Config.hmacSecret cfg)
                (QrService.payloadBinary tsBuffer input) in
            let doc := audit_record out token_ input in
            match post_generate out token_ with
            | Throw e => (Throw e, with_calls w [render_call cfg token_])
            | Ok image =>
                match audit_insertOne out doc with
                | Throw e =>
                    (Throw e,
                     with_calls w [render_call cfg token_; InsertAudit doc])
                | Ok _ =>
                    (Ok {| token := token_; qr_image_base64 := image |},
                     {| qr_audit := qr_audit w ++ [doc];
                        qr_verify_logs := qr_verify_logs w;
                        calls :=
                          calls w ++ [render_call cfg token_;
                                      InsertAudit doc] |})
                end
            end
        end
    end.
Proof.
  destruct (QrService.validate input) as [ [] | e ] eqn:Hv;
    [ | now apply generate_rejects ].
  destruct (Buffer.writeUIntBE6 (Date_now out)) as [ tsBuffer | e ] eqn:Hts;
    [ | now apply generate_clock_refused ].
  exact (generate_proceeds cfg out input tsBuffer w Hv Hts).
Qed.

End GenerateOutcomes.

(** What a returned pair tells about the run. *)
Lemma generate_returned `{JsNumber}
  (cfg : Config.config) (out : Outside) (input : GenerateQrInput)
  (w w' : World) (r : GenerateQrOutput) :
  QrService.generate cfg out input w = (Ok r, w') ->
  let token_ :=
    QrService.make_token (Config.hmacSecret cfg)
      (QrService.payloadBinary (Buffer.big_endian 6 (Date_now out))
         input) in
  QrService.validate input = Ok tt
  /\ 0 <= Date_now out < 2 ^ 48
  /\ exists image,
       post_generate out token_ = Ok image
       /\ r = {| token := token_; qr_image_base64 := image |}
       /\ w' = {| qr_audit := qr_audit w ++ [audit_record out token_ input];
                  qr_verify_logs := qr_verify_logs w;
                  calls :=
                    calls w ++ [render_call cfg token_;
                                InsertAudit
                                  (audit_record out token_ input)] |}.
Proof.
  rewrite generate_outcome.
  destruct (QrService.validate input) as [ [] | e ];
    [ | intros Hrun; discriminate Hrun ].
  destruct (Buffer.writeUIntBE6 (Date_now out)) as [ tsBuffer | e ] eqn:Hts;
    [ | intros Hrun; discriminate Hrun ].
  apply writeUIntBE6_accepts in Hts as [Hrange ->].
  cbv zeta.
  set (token_ := QrService.make_token (Config.hmacSecret cfg)
                   (QrService.payloadBinary
                      (Buffer.big_endian 6 (Date_now out)) input)).
  destruct (post_generate out token_) as [ image | e ] eqn:Hrender;
    [ | intros Hrun; discriminate Hrun ].
  destruct (audit_insertOne out (audit_record out token_ input))
    as [ [] | e ]; [ | intros Hrun; discriminate Hrun ].
  intros Hrun.
  split; [ reflexivity | ]. split; [ exact Hrange | ].
  exists image. split; [ reflexivity | ]. split; congruence.
Qed.

(** X2.  Whenever [generate] returns a token and image, the input passed
    the four checks, the clock value fitted in 48 bits, the token is the
    one built from that clock value and input under the configured
    secret, the image is the pattern service's answer for that token, and
    the store has gained exactly one audit record, holding that token and
    the four fields as given.  The render was requested once, with size
    600 and border 1, before the write. *)
Theorem returned_token_is_audited `{JsNumber}
  (cfg : Config.config) (out : Outside) (input : GenerateQrInput)
  (w w' : World) (r : GenerateQrOutput) :
  QrService.generate cfg out input w = (Ok r, w') ->
  QrService.validate input = Ok tt
  /\ 0 <= Date_now out < 2 ^ 48
  /\ token r
     = QrService.make_token (Config.hmacSecret cfg)
         (QrService.payloadBinary (Buffer.big_endian 6 (Date_now out))
            input)
  /\ post_generate out (token r) = Ok (qr_image_base64 r)
  /\ qr_audit w'
     = qr_audit w
       ++ [ {| audit_token := token r;
               audit_fields := input;
               audit_created_at := new_Date out |} ]
  /\ qr_verify_logs w' = qr_verify_logs w
  /\ calls w'
     = calls w
       ++ [ PostGenerate
              (Config.pythonServiceUrl cfg ++ lit "/generate-protected-qr")
              (token r) 600 1 (Config.requestTimeoutMs cfg);
            InsertAudit
              {| audit_token := token r;
                 audit_fields := input;
                 audit_created_at := new_Date out |} ].
Proof.
  intros Hrun.
  destruct (generate_returned cfg out input w w' r Hrun)
    as (Hvalid & Hrange & image & Hrender & -> & ->).
  cbn [token qr_image_base64 qr_audit qr_verify_logs calls].
  split; [ exact Hvalid | ]. split; [ exact Hrange | ].
  split; [ reflexivity | ]. split; [ exact Hrender | ].
  split; [ reflexivity | ]. split; reflexivity.
Qed.

Lemma returned_token_is_audited_witness :
  QrService.validate example_input = Ok tt
  /\ qr_audit
       (snd (QrService.generate example_cfg all_up example_input
               empty_world))
     = [ {| audit_token := example_token;
            audit_fields := example_input;
            audit_created_at := 1700000000005 |} ].
Proof.
  destruct (returned_token_is_audited (H := IntegerNumbers)
              example_cfg all_up example_input empty_world
              (snd (QrService.generate example_cfg all_up example_input
                      empty_world))
              {| token := example_token;
                 qr_image_base64 := VString (lit "iVBORw0KGgo=") |})
    as (Hv & _ & _ & _ & Haudit & _).
  - vm_compute. reflexivity.
  - split; [ exact Hv | exact Haudit ].
Defined.

(** X3.  When the render request fails, [generate] rejects with the
    client's error right after that one request: the audit write is not
    attempted and both collections are as before, so no token exists
    without its image. *)
Theorem render_failure_stops_generate `{JsNumber}
  (cfg : Config.config) (out : Outside) (input : GenerateQrInput)
  (e : exn) (w : World) :
  QrService.validate input = Ok tt ->
  0 <= Date_now out < 2 ^ 48 ->
  post_generate out
    (QrService.make_token (Config.hmacSecret cfg)
       (QrService.payloadBinary (Buffer.big_endian 6 (Date_now out)) input))
  = Throw e ->
  let w' := snd (QrService.generate cfg out input w) in
  fst (QrService.generate cfg out input w) = Throw e
  /\ qr_audit w' = qr_audit w
  /\ qr_verify_logs w' = qr_verify_logs w
  /\ calls w'
     = calls w
       ++ [ render_call cfg
              (QrService.make_token (Config.hmacSecret cfg)
                 (QrService.payloadBinary
                    (Buffer.big_endian 6 (Date_now out)) input)) ].
Proof.
  intros Hv Hts Hrender. cbv zeta.
  rewrite generate_outcome, Hv, (writeUIntBE6_in_range _ Hts).
  cbv zeta. rewrite Hrender.
  cbn [fst snd with_calls qr_audit qr_verify_logs calls].
  repeat split.
Qed.

Lemma render_failure_stops_generate_witness :
  fst (QrService.generate example_cfg detector_down example_input
         empty_world)
  = Throw (ExternalError (lit "timeout of 10000ms exceeded"))
  /\ qr_audit
       (snd (QrService.generate example_cfg detector_down example_input
               empty_world)) = [].
Proof.
  assert (Hts : 0 <= Date_now detector_down < 2 ^ 48)
    by (split; [ discriminate | reflexivity ]).
  destruct (render_failure_stops_generate (H := IntegerNumbers)
              example_cfg detector_down example_input
              (ExternalError (lit "timeout of 10000ms exceeded"))
              empty_world eq_refl Hts eq_refl)
    as (Hfst & Haudit & _).
  split; [ exact Hfst | exact Haudit ].
Defined.

(** X4.  [generate] only ever appends to the audit collection: whatever
    the input and however the collaborators answer, the verification log
    is untouched, the audit records already stored stay in place with at
    most one new record after them, and a run that throws stores
    nothing. *)
Theorem generate_appends_at_most_one `{JsNumber}
  (cfg : Config.config) (out : Outside) (input : GenerateQrInput)
  (w : World) :
  let run := QrService.generate cfg out input w in
  qr_verify_logs (snd run) = qr_verify_logs w
  /\ (exists more,
        qr_audit (snd run) = qr_audit w ++ more
        /\ (List.length more <= 1)%nat)
  /\ forall e, fst run = Throw e -> qr_audit (snd run) = qr_audit w.
Proof.
  cbv zeta. rewrite generate_outcome.
  destruct (QrService.validate input) as [ [] | e0 ].
  2:{ cbn [fst snd]. split; [ reflexivity | ].
      split; [ exists []; rewrite app_nil_r; auto | reflexivity ]. }
  destruct (Buffer.writeUIntBE6 (Date_now out)) as [ tsBuffer | e0 ].
  2:{ cbn [fst snd]. split; [ reflexivity | ].
      split; [ exists []; rewrite app_nil_r; auto | reflexivity ]. }
  cbv zeta.
  set (token_ := QrService.make_token (Config.hmacSecret cfg)
                   (QrService.payloadBinary tsBuffer input)).
  destruct (post_generate out token_) as [ image | e0 ].
  2:{ cbn [fst snd with_calls qr_audit qr_verify_logs].
      split; [ reflexivity | ].
      split; [ exists []; rewrite app_nil_r; auto | reflexivity ]. }
  destruct (audit_insertOne out (audit_record out token_ input))
    as [ [] | e0 ].
  - cbn [fst snd qr_audit qr_verify_logs]. split; [ reflexivity | ].
    split; [ eexists; split; [ reflexivity | cbn [List.length]; lia ] | ].
    intros e He. discriminate He.
  - cbn [fst snd with_calls qr_audit qr_verify_logs].
    split; [ reflexivity | ].
    split; [ exists []; rewrite app_nil_r; auto | reflexivity ].
Qed.

(** ** services/qr.service.ts: what a run of verify leaves behind *)

Section VerifyOutcomes.
Context `{JsNumber}.
Variable cfg : Config.config.
Variable out : Outside.

(** Every run of [verify], by the first step that fails. *)
Lemma verify_outcome (imageBase64 : jsstring) (w : World) :
  QrService.verify cfg out imageBase64 w
  = match post_verify out imageBase64 with
    | Throw e => (Throw e, with_calls w [detection_call cfg imageBase64])
    | Ok (token_, confidence_score_, is_authentic_) =>
        match QrService.decode_detected token_ with
        | Throw e =>
            (Throw e, with_calls w [detection_call cfg imageBase64])
        | Ok m =>
            let doc :=
              verification_record out token_ confidence_score_
                is_authentic_ in
            let asked :=
              with_calls w [detection_call cfg imageBase64;
                            InsertVerify doc] in
            match verify_insertOne out doc with
            | Ok _ =>
                (Ok {| is_authentic := truthy is_authentic_;
                       confidence_score :=
                         nullish confidence_score_ (VNumber (num_of_Z 0));
                       decoded_meta := m |},
                 {| qr_audit := qr_audit asked;
                    qr_verify_logs := qr_verify_logs w ++ [doc];
                    calls := calls asked |})
            | Throw e => (Throw e, asked)
            end
        end
    end.
Proof.
  destruct (post_verify out imageBase64) as [ [[tok conf] auth] | e ]
    eqn:Hreply; [ | now apply verify_detection_fails ].
  destruct (QrService.decode_detected tok) as [ m | e ] eqn:Hdecode.
  - exact (verify_detection_answers cfg out imageBase64 tok conf auth m w
             Hreply Hdecode).
  - exact (verify_token_not_string cfg out imageBase64 tok conf auth e w
             Hreply Hdecode).
Qed.

End VerifyOutcomes.

(** What a returned verdict tells about the run. *)
Lemma verify_returned `{JsNumber}
  (cfg : Config.config) (out : Outside) (imageBase64 : jsstring)
  (w w' : World) (v : VerifyQrOutput) :
  QrService.verify cfg out imageBase64 w = (Ok v, w') ->
  exists token_ confidence_score_ is_authentic_ m,
    post_verify out imageBase64
    = Ok (token_, confidence_score_, is_authentic_)
    /\ QrService.decode_detected token_ = Ok m
    /\ v = {| is_authentic := truthy is_authentic_;
              confidence_score :=
                nullish confidence_score_ (VNumber (num_of_Z 0));
              decoded_meta := m |}
    /\ w' = {| qr_audit := qr_audit w;
               qr_verify_logs :=
                 qr_verify_logs w
                 ++ [verification_record out token_ confidence_score_
                       is_authentic_];
               calls :=
                 calls w
                 ++ [detection_call cfg imageBase64;
                     InsertVerify
                       (verification_record out token_ confidence_score_
                          is_authentic_)] |}.
Proof.
  rewrite verify_outcome.
  destruct (post_verify out imageBase64) as [ [[tok conf] auth] | e ];
    [ | intros Hrun; discriminate Hrun ].
  destruct (QrService.decode_detected tok) as [ m | e ] eqn:Hdecode;
    [ | intros Hrun; discriminate Hrun ].
  cbv zeta.
  destruct (verify_insertOne out (verification_record out tok conf auth))
    as [ [] | e ]; [ | intros Hrun; discriminate Hrun ].
  intros Hrun. injection Hrun as <- <-.
  exists tok, conf, auth, m. repeat split. exact Hdecode.
Qed.

(** X5.  Whenever [verify] returns, the pattern service answered, the
    returned flag is [Boolean] of its flag and the returned score is its
    score or 0, the decoded fields are what [decodeToken] gave for its
    token ([null] when the token is absent or empty), and the store has
    gained exactly one verification record, which carries the token (or
    [null]) and the very flag and score that were returned.  The decode
    result changes neither. *)
Theorem returned_verdict_is_recorded `{JsNumber}
  (cfg : Config.config) (out : Outside) (imageBase64 : jsstring)
  (w w' : World) (v : VerifyQrOutput) :
  QrService.verify cfg out imageBase64 w = (Ok v, w') ->
  exists token_ confidence_score_ is_authentic_,
    post_verify out imageBase64
    = Ok (token_, confidence_score_, is_authentic_)
    /\ is_authentic v = truthy is_authentic_
    /\ confidence_score v
       = nullish confidence_score_ (VNumber (num_of_Z 0))
    /\ QrService.decode_detected token_ = Ok (decoded_meta v)
    /\ (truthy token_ = false -> decoded_meta v = None)
    /\ qr_verify_logs w'
       = qr_verify_logs w
         ++ [ {| verify_token := nullish token_ VNull;
                 verify_confidence_score := confidence_score v;
                 verify_is_authentic := is_authentic v;
                 verify_created_at := new_Date out |} ]
    /\ qr_audit w' = qr_audit w.
Proof.
  intros Hrun.
  destruct (verify_returned cfg out imageBase64 w w' v Hrun)
    as (tok & conf & auth & m & Hreply & Hdecode & -> & ->).
  exists tok, conf, auth.
  cbn [is_authentic confidence_score decoded_meta qr_verify_logs qr_audit].
  split; [ exact Hreply | ]. split; [ reflexivity | ].
  split; [ reflexivity | ]. split; [ exact Hdecode | ].
  split; [ | split; reflexivity ].
  intros Hfalsy. unfold QrService.decode_detected in Hdecode.
  rewrite Hfalsy in Hdecode. congruence.
Qed.

Lemma returned_verdict_is_recorded_witness :
  qr_verify_logs
    (snd (QrService.verify example_cfg detector_blind example_image
            empty_world))
  = [ {| verify_token := VNull;
         verify_confidence_score := VNumber (Some 0);
         verify_is_authentic := false;
         verify_created_at := 1700000000005 |} ].
Proof.
  destruct (returned_verdict_is_recorded (H := IntegerNumbers)
              example_cfg detector_blind example_image empty_world
              (snd (QrService.verify example_cfg detector_blind
                      example_image empty_world))
              (Build_VerifyQrOutput false
                 (@VNumber IntegerNumbers (Some 0)) None))
    as (tok & conf & auth & Hreply & _ & _ & _ & _ & Hlogs & _).
  - vm_compute. reflexivity.
  - rewrite Hlogs.
    change (Ok (@VNull IntegerNumbers, @VNumber IntegerNumbers (Some 0),
                @VBoolean IntegerNumbers false)
            = Ok (tok, conf, auth)) in Hreply.
    injection Hreply as <- <- <-. reflexivity.
Defined.

(** X6.  [verify] only ever appends to the verification log: whatever the
    image and however the collaborators answer, the audit collection is
    untouched, the records already logged stay in place with at most one
    new record after them, and a run that throws logs nothing. *)
Theorem verify_appends_at_most_one `{JsNumber}
  (cfg : Config.config) (out : Outside) (imageBase64 : jsstring)
  (w : World) :
  let run := QrService.verify cfg out imageBase64 w in
  qr_audit (snd run) = qr_audit w
  /\ (exists more,
        qr_verify_logs (snd run) = qr_verify_logs w ++ more
        /\ (List.length more <= 1)%nat)
  /\ forall e,
       fst run = Throw e -> qr_verify_logs (snd run) = qr_verify_logs w.
Proof.
  cbv zeta. rewrite verify_outcome.
  destruct (post_verify out imageBase64) as [ [[tok conf] auth] | e0 ].
  2:{ cbn [fst snd with_calls qr_audit qr_verify_logs].
      split; [ reflexivity | ].
      split; [ exists []; rewrite app_nil_r; auto | reflexivity ]. }
  destruct (QrService.decode_detected tok) as [ m | e0 ].
  2:{ cbn [fst snd with_calls qr_audit qr_verify_logs].
      split; [ reflexivity | ].
      split; [ exists []; rewrite app_nil_r; auto | reflexivity ]. }
  cbv zeta.
  destruct (verify_insertOne out (verification_record out tok conf auth))
    as [ [] | e0 ].
  - cbn [fst snd with_calls qr_audit qr_verify_logs].
    split; [ reflexivity | ].
    split; [ eexists; split; [ reflexivity | cbn [List.length]; lia ] | ].
    intros e He. discriminate He.
  - cbn [fst snd with_calls qr_audit qr_verify_logs].
    split; [ reflexivity | ].
    split; [ exists []; rewrite app_nil_r; auto | reflexivity ].
Qed.

(** X7.  A detection reply whose token is truthy but not a string (a
    number, an object, [true]) makes [verify] throw a [TypeError], since
    only strings have [split]: the caller gets no verdict and no
    verification record is written. *)
Theorem non_string_token_throws `{JsNumber}
  (cfg : Config.config) (out : Outside) (imageBase64 : jsstring)
  (token_ confidence_score_ is_authentic_ : jsval) (w : World) :
  post_verify out imageBase64
  = Ok (token_, confidence_score_, is_authentic_) ->
  truthy token_ = true ->
  (forall s, token_ <> VString s) ->
  QrService.verify cfg out imageBase64 w
  = (Throw (TypeError (lit "token.split is not a function")),
     with_calls w [detection_call cfg imageBase64])
  /\ qr_verify_logs (snd (QrService.verify cfg out imageBase64 w))
     = qr_verify_logs w.
Proof.
  intros Hreply Htruthy Hkind.
  assert (Hdecode : QrService.decode_detected token_
                    = Throw (TypeError
                               (lit "token.split is not a function"))).
  { unfold QrService.decode_detected. rewrite Htruthy.
    destruct token_; try reflexivity. now elim (Hkind s). }
  rewrite (verify_token_not_string cfg out imageBase64 _ _ _ _ w
             Hreply Hdecode).
  split; reflexivity.
Qed.

Lemma non_string_token_throws_witness :
  QrService.verify example_cfg detector_confused example_image empty_world
  = (Throw (TypeError (lit "token.split is not a function")),
     with_calls empty_world [detection_call example_cfg example_image])
  /\ qr_verify_logs
       (snd (QrService.verify example_cfg detector_confused example_image
               empty_world)) = qr_verify_logs empty_world.
Proof.
  apply (non_string_token_throws (H := IntegerNumbers)
           example_cfg detector_confused example_image
           (@VNumber IntegerNumbers (Some 7))
           (@VNumber IntegerNumbers (Some 1))
           (@VBoolean IntegerNumbers true)
           empty_world eq_refl eq_refl).
  intros s Hs. discriminate Hs.
Defined.

(** ** services/qr.service.ts: what decodeToken hands out *)

Lemma unbase64_range (c v : Z) : Buffer.unbase64 c = Some v -> is_sextet v.
Proof.
  unfold Buffer.unbase64, is_sextet. cbv zeta.
  generalize (Buffer.low_byte c). intros b.
  change (ch "A") with 65. change (ch "Z") with 90.
  change (ch "a") with 97. change (ch "z") with 122.
  change (ch "0") with 48. change (ch "9") with 57.
  destruct ((65 <=? b) && (b <=? 90)) eqn:E1; [ intros [= <-]; lia | ].
  destruct ((97 <=? b) && (b <=? 122)) eqn:E2; [ intros [= <-]; lia | ].
  destruct ((48 <=? b) && (b <=? 57)) eqn:E3; [ intros [= <-]; lia | ].
  destruct ((b =? ch "+") || (b =? ch "-")); [ intros [= <-]; lia | ].
  destruct ((b =? ch "/") || (b =? ch "_")); [ intros [= <-]; lia | ].
  discriminate.
Qed.

Lemma unbase64_all_range (src : jsstring) :
  Forall is_sextet (Buffer.unbase64_all src).
Proof.
  induction src as [ | c rest IH ]; [ constructor | ].
  cbn [Buffer.unbase64_all].
  destruct (Buffer.low_byte c =? ch "="); [ constructor | ].
  destruct (Buffer.unbase64 c) as [ v | ] eqn:E; [ | exact IH ].
  constructor; [ exact (unbase64_range c v E) | exact IH ].
Qed.

Lemma byte_b_true (v : Z) : byte_b v = true -> Buffer.is_byte v.
Proof. unfold byte_b, Buffer.is_byte. lia. Qed.

Lemma sextet_byte (v : Z) : is_sextet v -> Buffer.is_byte v.
Proof. unfold is_sextet, Buffer.is_byte. lia. Qed.

Lemma unsextets_bytes (vs : list Z) :
  Forall is_sextet vs -> Forall Buffer.is_byte (Buffer.unsextets vs).
Proof.
  assert (Hall : forall n vs,
             (List.length vs <= n)%nat -> Forall is_sextet vs ->
             Forall Buffer.is_byte (Buffer.unsextets vs)).
  { induction n as [ | n IH ]; intros l Hlen Hl.
    - destruct l; [ constructor | cbn [List.length] in Hlen; lia ].
    - destruct l as [ | a [ | b [ | c [ | d rest ] ] ] ];
        cbn [Buffer.unsextets]; try constructor.
      + inversion Hl as [ | ? ? Ha Hl1 ]; subst.
        inversion Hl1 as [ | ? ? Hb _ ]; subst.
        apply sextet_byte in Ha, Hb.
        apply byte_b_true. check_bytes.
      + constructor.
      + inversion Hl as [ | ? ? Ha Hl1 ]; subst.
        inversion Hl1 as [ | ? ? Hb _ ]; subst.
        apply sextet_byte in Ha, Hb.
        apply byte_b_true. check_bytes.
      + inversion Hl as [ | ? ? Ha Hl1 ]; subst.
        inversion Hl1 as [ | ? ? Hb Hl2 ]; subst.
        inversion Hl2 as [ | ? ? Hc _ ]; subst.
        apply sextet_byte in Hb, Hc. clear Ha.
        constructor; [ apply byte_b_true; check_bytes | constructor ].
      + inversion Hl as [ | ? ? Ha Hl1 ]; subst.
        inversion Hl1 as [ | ? ? Hb _ ]; subst.
        apply sextet_byte in Ha, Hb.
        apply byte_b_true. check_bytes.
      + inversion Hl as [ | ? ? Ha Hl1 ]; subst.
        inversion Hl1 as [ | ? ? Hb Hl2 ]; subst.
        inversion Hl2 as [ | ? ? Hc Hl3 ]; subst.
        inversion Hl3 as [ | ? ? Hd Hrest ]; subst.
        apply sextet_byte in Ha, Hb, Hc, Hd.
        constructor; [ clear Ha Hd; apply byte_b_true; check_bytes | ].
        constructor; [ clear Ha Hb; apply byte_b_true; check_bytes | ].
        apply (IH rest); [ cbn [List.length] in Hlen; lia | exact Hrest ]. }
  intros Hvs. exact (Hall (List.length vs) vs (Nat.le_refl _) Hvs).
Qed.

(** The decoder yields bytes, whatever the text. *)
Lemma from_base64_bytes (src : jsstring) :
  Forall Buffer.is_byte (Buffer.from_base64 src).
Proof. apply unsextets_bytes, unbase64_all_range. Qed.

Lemma lower_hex_is_hex (s : jsstring) :
  forallb is_lower_hex_digit s = true -> forallb Hex.is_hex_char s = true.
Proof.
  intros Hs. apply forallb_forall. intros c Hc.
  rewrite forallb_forall in Hs. specialize (Hs c Hc).
  unfold is_lower_hex_digit in Hs. unfold Hex.is_hex_char.
  now rewrite Hs.
Qed.

Lemma lowercase_hex_id (s : jsstring) :
  forallb is_lower_hex_digit s = true -> lowercase_hex s = s.
Proof.
  induction s as [ | c s IH ]; intros Hs; [ reflexivity | ].
  cbn [forallb] in Hs. apply andb_true_iff in Hs as [Hc Hs].
  cbn [lowercase_hex map]. fold (lowercase_hex s). rewrite (IH Hs).
  f_equal. unfold lower_hex.
  unfold is_lower_hex_digit, Hex.is_digit, Hex.is_lower_hex in Hc.
  unfold Hex.is_upper_hex.
  change (ch "0") with 48 in *. change (ch "9") with 57 in *.
  change (ch "a") with 97 in *. change (ch "f") with 102 in *.
  change (ch "A") with 65. change (ch "F") with 70.
  destruct ((65 <=? c) && (c <=? 70)) eqn:E; [ lia | reflexivity ].
Qed.

(** A field read from a payload: lowercase hexadecimal, two digits per
    byte. *)
Lemma assertHexLength_field (label : jsstring) (n : nat)
      (payload : Buffer.bytes) (start : nat) :
  Forall Buffer.is_byte payload ->
  (0 < n)%nat ->
  (start + n <= List.length payload)%nat ->
  Hex.assertHexLength label
    (Buffer.to_hex (Buffer.subarray start (start + n) payload))
    (2 * Z.of_nat n) = Ok tt
  /\ forallb is_lower_hex_digit
       (Buffer.to_hex (Buffer.subarray start (start + n) payload)) = true.
Proof.
  intros Hbytes Hn Hlen.
  set (piece := Buffer.subarray start (start + n) payload).
  assert (Hpiece : Forall Buffer.is_byte piece)
    by (unfold piece, Buffer.subarray; now apply Forall_take, Forall_drop).
  assert (Hplen : List.length piece = n).
  { unfold piece, Buffer.subarray.
    rewrite length_firstn, length_skipn. lia. }
  pose proof (to_hex_lowercase piece Hpiece) as Hlow.
  split; [ | exact Hlow ].
  apply assertHexLength_valid. cbn [field_valid].
  apply andb_true_iff. split.
  - unfold Hex.hex_regex_test.
    destruct (Buffer.to_hex piece) as [ | c rest ] eqn:E.
    + apply (f_equal (@List.length Z)) in E.
      rewrite length_to_hex, Hplen in E. cbn [List.length] in E. lia.
    + now apply lower_hex_is_hex.
  - unfold jslength. rewrite length_to_hex, Hplen. apply Z.eqb_eq. lia.
Qed.

(** X8.  Whatever token it is given, a record that [decodeToken] returns
    is well formed: each field consists of lowercase hexadecimal digits,
    and the record passes the four checks [generate] applies to its own
    input. *)
Theorem decoded_fields_pass_validation
  (token_ : jsstring) (meta : DecodedMeta) :
  QrService.decodeToken token_ = Ok (Some meta) ->
  QrService.validate meta = Ok tt
  /\ forallb is_lower_hex_digit (data_hash meta) = true
  /\ forallb is_lower_hex_digit (metadata_series meta) = true
  /\ forallb is_lower_hex_digit (metadata_issued meta) = true
  /\ forallb is_lower_hex_digit (metadata_expiry meta) = true.
Proof.
  rewrite decodeToken_spec.
  destruct (Buffer.byteLength (decoded_payload token_) =? 34) eqn:E;
    [ | discriminate ].
  intros Hmeta.
  assert (meta = fields_at_offsets (decoded_payload token_)) as ->
    by congruence.
  apply Z.eqb_eq in E. unfold Buffer.byteLength in E.
  assert (Hbytes : Forall Buffer.is_byte (decoded_payload token_))
    by (unfold decoded_payload; apply from_base64_bytes).
  set (payload := decoded_payload token_) in *.
  destruct (assertHexLength_field (lit "data_hash") 4 payload 6 Hbytes)
    as [V1 L1]; [ lia | lia | ].
  destruct (assertHexLength_field (lit "metadata_series") 8 payload 10
              Hbytes) as [V2 L2]; [ lia | lia | ].
  destruct (assertHexLength_field (lit "metadata_issued") 8 payload 18
              Hbytes) as [V3 L3]; [ lia | lia | ].
  destruct (assertHexLength_field (lit "metadata_expiry") 8 payload 26
              Hbytes) as [V4 L4]; [ lia | lia | ].
  unfold fields_at_offsets, QrService.validate.
  cbn [data_hash metadata_series metadata_issued metadata_expiry].
  change (6 + 4)%nat with 10%nat in *. change (10 + 8)%nat with 18%nat in *.
  change (18 + 8)%nat with 26%nat in *. change (26 + 8)%nat with 34%nat in *.
  change (2 * Z.of_nat 4) with 8 in *. change (2 * Z.of_nat 8) with 16 in *.
  rewrite V1, V2, V3. cbn [rbind].
  repeat (split; [ assumption | ]). assumption.
Qed.

Lemma decoded_fields_pass_validation_witness :
  QrService.decodeToken tampered_token = Ok (Some example_input)
  /\ QrService.validate example_input = Ok tt.
Proof.
  split; [ vm_compute; reflexivity | ].
  apply (decoded_fields_pass_validation tampered_token example_input).
  vm_compute. reflexivity.
Defined.

(** ** services/qr.service.ts: issuing and reading back *)

Lemma make_token_truthy `{JsNumber} (secret : jsstring)
      (payload : Buffer.bytes) :
  truthy (VString (QrService.make_token secret payload)) = true.
Proof.
  unfold QrService.make_token.
  change (lit "." ++ QrService.hmac secret payload)
    with (ch "." :: QrService.hmac secret payload).
  destruct (QrService.payloadB64 payload); reflexivity.
Qed.

(** X9.  The record [decodeToken] returns for an issued token is the
    input with the letters of its fields in lower case: an input written
    in lower case is returned as it was given, under any secret and for
    any timestamp that fits in 48 bits. *)
Theorem decode_returns_lowercase_input
  (secret : jsstring) (input : GenerateQrInput) (ts : Z) :
  QrService.validate input = Ok tt ->
  0 <= ts < 2 ^ 48 ->
  QrService.decodeToken
    (QrService.make_token secret
       (QrService.payloadBinary (Buffer.big_endian 6 ts) input))
  = Ok (Some (lowercase_fields input))
  /\ (forallb is_lower_hex_digit (data_hash input) = true ->
      forallb is_lower_hex_digit (metadata_series input) = true ->
      forallb is_lower_hex_digit (metadata_issued input) = true ->
      forallb is_lower_hex_digit (metadata_expiry input) = true ->
      lowercase_fields input = input).
Proof.
  intros Hvalid Hts. split.
  - exact (decodeToken_issued secret input ts Hvalid Hts).
  - intros Hl1 Hl2 Hl3 Hl4. unfold lowercase_fields.
    rewrite (lowercase_hex_id _ Hl1), (lowercase_hex_id _ Hl2),
      (lowercase_hex_id _ Hl3), (lowercase_hex_id _ Hl4).
    now destruct input.
Qed.

Lemma decode_returns_lowercase_input_witness :
  QrService.decodeToken
    (QrService.make_token example_secret
       (QrService.payloadBinary (Buffer.big_endian 6 1700000000000)
          uppercase_input))
  = Ok (Some example_input).
Proof.
  assert (Hts : 0 <= 1700000000000 < 2 ^ 48)
    by (split; [ discriminate | reflexivity ]).
  exact (proj1 (decode_returns_lowercase_input example_secret
                  uppercase_input 1700000000000 eq_refl Hts)).
Defined.

(** X10.  Issue, then verify.  When [generate] succeeds and the detector
    later reads the issued token from the image, [verify] returns the
    detector's flag and score together with the fields given to
    [generate] (letters in lower case); afterwards the store holds the
    audit record of the issue and the record of the verification, each
    appended once. *)
Theorem issued_token_verifies `{JsNumber}
  (cfg : Config.config) (out : Outside) (input : GenerateQrInput)
  (imageBase64 : jsstring) (image confidence_score_ is_authentic_ : jsval)
  (w : World) :
  QrService.validate input = Ok tt ->
  0 <= Date_now out < 2 ^ 48 ->
  let token_ :=
    QrService.make_token (Config.hmacSecret cfg)
      (QrService.payloadBinary (Buffer.big_endian 6 (Date_now out)) input) in
  post_generate out token_ = Ok image ->
  audit_insertOne out (audit_record out token_ input) = Ok tt ->
  post_verify out imageBase64
  = Ok (VString token_, confidence_score_, is_authentic_) ->
  verify_insertOne out
    (verification_record out (VString token_) confidence_score_
       is_authentic_) = Ok tt ->
  let issued := QrService.generate cfg out input w in
  let verified := QrService.verify cfg out imageBase64 (snd issued) in
  fst issued = Ok {| token := token_; qr_image_base64 := image |}
  /\ fst verified
     = Ok {| is_authentic := truthy is_authentic_;
             confidence_score :=
               nullish confidence_score_ (VNumber (num_of_Z 0));
             decoded_meta := Some (lowercase_fields input) |}
  /\ qr_audit (snd verified)
     = qr_audit w ++ [audit_record out token_ input]
  /\ qr_verify_logs (snd verified)
     = qr_verify_logs w
       ++ [verification_record out (VString token_) confidence_score_
             is_authentic_].
Proof.
  intros Hvalid Hts token_ Hrender Haudit Hdetect Hlog. cbv zeta.
  assert (Hissue :
            QrService.generate cfg out input w
            = (Ok {| token := token_; qr_image_base64 := image |},
               {| qr_audit := qr_audit w ++ [audit_record out token_ input];
                  qr_verify_logs := qr_verify_logs w;
                  calls := calls w
                           ++ [render_call cfg token_;
                               InsertAudit
                                 (audit_record out token_ input)] |})).
  { rewrite generate_outcome, Hvalid, (writeUIntBE6_in_range _ Hts).
    cbv zeta. fold token_. rewrite Hrender, Haudit. reflexivity. }
  rewrite Hissue. cbn [fst snd].
  assert (Hdecode :
            QrService.decode_detected (VString token_)
            = Ok (Some (lowercase_fields input))).
  { unfold QrService.decode_detected.
    unfold token_ at 1. rewrite make_token_truthy.
    exact (decodeToken_issued (Config.hmacSecret cfg) input (Date_now out)
             Hvalid Hts). }
  rewrite verify_outcome, Hdetect, Hdecode. cbv zeta. rewrite Hlog.
  cbn [fst snd qr_audit qr_verify_logs with_calls].
  repeat split.
Qed.

Lemma issued_token_verifies_witness :
  fst (QrService.verify example_cfg detector_reads_example example_image
         (snd (QrService.generate example_cfg detector_reads_example
                 example_input empty_world)))
  = Ok {| is_authentic := true;
          confidence_score := VNumber (Some 1);
          decoded_meta := Some example_input |}.
Proof.
  assert (Hts : 0 <= Date_now detector_reads_example < 2 ^ 48)
    by (split; [ discriminate | reflexivity ]).
  destruct (issued_token_verifies (H := IntegerNumbers)
              example_cfg detector_reads_example example_input
              example_image (@VString IntegerNumbers (lit "iVBORw0KGgo="))
              (@VNumber IntegerNumbers (Some 1))
              (@VBoolean IntegerNumbers true) empty_world
              eq_refl Hts eq_refl eq_refl
              ltac:(vm_compute; reflexivity) eq_refl)
    as (_ & Hverified & _).
  exact Hverified.
Defined.



(** X12.  The time of issue can be read back from a token: the first six
    bytes of its decoded payload are the clock value, most significant
    byte first. *)
Theorem issue_time_is_recoverable
  (secret : jsstring) (input : GenerateQrInput) (ts : Z) :
  QrService.validate input = Ok tt ->
  0 <= ts < 2 ^ 48 ->
  uint_be
    (Buffer.subarray 0 6
       (decoded_payload
          (QrService.make_token secret
             (QrService.payloadBinary (Buffer.big_endian 6 ts) input))))
  = ts.
Proof.
  intros Hvalid Hts.
  destruct (payload_layout input ts Hvalid) as (_ & Hbytes & Hhead & _).
  rewrite (decoded_payload_make_token secret _ Hbytes), Hhead.
  exact (uint_be_big_endian 6 ts Hts).
Qed.

Lemma issue_time_is_recoverable_witness :
  uint_be (Buffer.subarray 0 6 (decoded_payload example_token))
  = 1700000000000.
Proof.
  assert (Hts : 0 <= 1700000000000 < 2 ^ 48)
    by (split; [ discriminate | reflexivity ]).
  exact (issue_time_is_recoverable example_secret example_input
           1700000000000 eq_refl Hts).
Defined.

(** ** controllers/qr.controller.ts with dtos/qr.dto.ts and
       middleware/error-handler.ts *)

Lemma lit_names_differ :
  lit "data_hash" <> lit "metadata_series"
  /\ lit "data_hash" <> lit "metadata_issued"
  /\ lit "data_hash" <> lit "metadata_expiry"
  /\ lit "metadata_series" <> lit "metadata_issued"
  /\ lit "metadata_series" <> lit "metadata_expiry"
  /\ lit "metadata_issued" <> lit "metadata_expiry".
Proof. repeat split; intros E; vm_compute in E; discriminate E. Qed.

(** Membership of a field name in the error list of the schema. *)
Ltac name_in_errors :=
  destruct lit_names_differ as (N12 & N13 & N14 & N23 & N24 & N34);
  cbn [Http.field_error app In];
  split; intros Hin;
  repeat match goal with
    | H : _ \/ _ |- _ => destruct H as [H | H]
    | H : False |- _ => destruct H
    | H : ?a = ?b |- _ =>
        first [ now elim (N12 H) | now elim (N13 H) | now elim (N14 H)
              | now elim (N23 H) | now elim (N24 H) | now elim (N34 H)
              | now elim (N12 (eq_sym H)) | now elim (N13 (eq_sym H))
              | now elim (N14 (eq_sym H)) | now elim (N23 (eq_sym H))
              | now elim (N24 (eq_sym H)) | now elim (N34 (eq_sym H))
              | discriminate H ]
    end;
  try reflexivity; auto 6.

(** X13.  A generate request that the schema rejects is answered by the
    controller and the error handler with status 400 and the message
    [Invalid request body], with what the schema reported as details.
    For a body that is not a JSON object that is a form-level error that
    names no field; for an object it is the list of every property that
    is not a string of the required length, all of them at once and no
    other.  The service is not entered: nothing is asked of the pattern
    service or the store, and the error handler logs one warning. *)
Theorem schema_rejection_names_every_field `{JsNumber}
  (cfg : Config.config) (out : Outside) (body_ : Http.GenerateBody)
  (errors : SchemaErrors) (w : World) :
  Http.generateQrSchema_safeParse body_ = inr errors ->
  Http.generate cfg out body_ w
  = ({| Http.status := 400;
        Http.body :=
          Http.ApiError (lit "Invalid request body") (Some errors) |},
     with_calls w [Log warn (lit "Invalid request body")])
  /\ match body_ with
     | Http.NotAnObject => errors = FormError
     | Http.JsonObject properties =>
         exists names,
           errors = FieldErrors names
           /\ names <> []
           /\ (In (lit "data_hash") names
               <-> Http.string_of_length 8
                     (Http.body_data_hash properties) = None)
           /\ (In (lit "metadata_series") names
               <-> Http.string_of_length 16
                     (Http.body_metadata_series properties) = None)
           /\ (In (lit "metadata_issued") names
               <-> Http.string_of_length 16
                     (Http.body_metadata_issued properties) = None)
           /\ (In (lit "metadata_expiry") names
               <-> Http.string_of_length 16
                     (Http.body_metadata_expiry properties) = None)
     end.
Proof.
  intros Hparse. split.
  { unfold Http.generate, Http.handled. rewrite Hparse. reflexivity. }
  unfold Http.generateQrSchema_safeParse in Hparse.
  destruct body_ as [ properties | ]; [ | congruence ].
  cbv zeta in Hparse.
  destruct (Http.string_of_length 8 (Http.body_data_hash properties))
    as [ p1 | ];
    destruct (Http.string_of_length 16
                (Http.body_metadata_series properties)) as [ p2 | ];
    destruct (Http.string_of_length 16
                (Http.body_metadata_issued properties)) as [ p3 | ];
    destruct (Http.string_of_length 16
                (Http.body_metadata_expiry properties)) as [ p4 | ];
    try discriminate Hparse;
    injection Hparse as <-;
    eexists; (split; [ reflexivity | ]);
    (split; [ cbn [Http.field_error app]; discriminate | ]);
    (split; [ name_in_errors | ]);
    (split; [ name_in_errors | ]);
    (split; name_in_errors).
Qed.

Lemma schema_rejection_names_every_field_witness :
  Http.generate example_cfg all_up malformed_body empty_world
  = ({| Http.status := 400;
        Http.body :=
          Http.ApiError (lit "Invalid request body")
            (Some (FieldErrors [lit "data_hash"; lit "metadata_series"])) |},
     with_calls empty_world [Log warn (lit "Invalid request body")])
  /\ Http.generate example_cfg all_up Http.NotAnObject empty_world
     = ({| Http.status := 400;
           Http.body :=
             Http.ApiError (lit "Invalid request body") (Some FormError) |},
        with_calls empty_world [Log warn (lit "Invalid request body")]).
Proof.
  split.
  - exact (proj1 (schema_rejection_names_every_field (H := IntegerNumbers)
                    example_cfg all_up malformed_body
                    (FieldErrors [lit "data_hash"; lit "metadata_series"])
                    empty_world eq_refl)).
  - exact (proj1 (schema_rejection_names_every_field (H := IntegerNumbers)
                    example_cfg all_up Http.NotAnObject FormError
                    empty_world eq_refl)).
Defined.

(** X14.  A generate response that carries a token is backed by the
    store: its status is 200, the body's four properties were strings
    that passed the schema, the service returned that very token and
    image for them, and the audit collection has gained one record with
    the token and those four fields. *)
Theorem success_response_is_audited `{JsNumber}
  (cfg : Config.config) (out : Outside) (body_ : Http.GenerateBody)
  (w w' : World) (r : Http.response) (data : GenerateQrOutput) :
  Http.generate cfg out body_ w = (r, w') ->
  Http.body r = Http.GenerateSuccess data ->
  Http.status r = 200
  /\ exists input,
       body_ = body_of input
       /\ QrService.generate cfg out input w = (Ok data, w')
       /\ qr_audit w'
          = qr_audit w
            ++ [ {| audit_token := token data;
                    audit_fields := input;
                    audit_created_at := new_Date out |} ].
Proof.
  unfold Http.generate, Http.handled.
  destruct (Http.generateQrSchema_safeParse body_) as [ input | errors ]
    eqn:Hparse.
  2:{ cbn [lift Http.errorHandler]. intros [= <- <-] Hbody.
      discriminate Hbody. }
  unfold bind.
  destruct (QrService.generate cfg out input w) as [ [ d | e ] w1 ]
    eqn:Hrun.
  2:{ intros Hresp Hbody.
      destruct e; cbn [Http.errorHandler] in Hresp;
        injection Hresp as <- <-; discriminate Hbody. }
  cbn [ret]. intros [= <- <-] Hbody. cbn [Http.body] in Hbody.
  injection Hbody as ->. split; [ reflexivity | ].
  exists input. split; [ | split; [ exact Hrun | ] ].
  - unfold Http.generateQrSchema_safeParse, Http.string_of_length in Hparse.
    unfold body_of.
    destruct body_ as [ [ b1 b2 b3 b4 ] | ]; [ | discriminate Hparse ].
    cbv zeta in Hparse.
    cbn [Http.body_data_hash Http.body_metadata_series
         Http.body_metadata_issued Http.body_metadata_expiry] in Hparse.
    destruct b1 as [ | | | | s1 | ]; try discriminate Hparse;
      destruct (jslength s1 =? 8); try discriminate Hparse;
      destruct b2 as [ | | | | s2 | ]; try discriminate Hparse;
      destruct (jslength s2 =? 16); try discriminate Hparse;
      destruct b3 as [ | | | | s3 | ]; try discriminate Hparse;
      destruct (jslength s3 =? 16); try discriminate Hparse;
      destruct b4 as [ | | | | s4 | ]; try discriminate Hparse;
      destruct (jslength s4 =? 16); try discriminate Hparse.
    injection Hparse as <-. reflexivity.
  - destruct (generate_returned cfg out input w w1 data Hrun)
      as (_ & _ & image & _ & -> & ->).
    reflexivity.
Qed.

Lemma success_response_is_audited_witness :
  Http.status
    (fst (Http.generate example_cfg all_up (body_of example_input)
            empty_world)) = 200
  /\ exists input,
       body_of example_input = body_of input
       /\ QrService.generate example_cfg all_up input empty_world
          = (Ok {| token := example_token;
                   qr_image_base64 := VString (lit "iVBORw0KGgo=") |},
             snd (Http.generate example_cfg all_up (body_of example_input)
                    empty_world))
       /\ qr_audit
            (snd (Http.generate example_cfg all_up (body_of example_input)
                    empty_world))
          = qr_audit empty_world
            ++ [ {| audit_token := example_token;
                    audit_fields := input;
                    audit_created_at := new_Date all_up |} ].
Proof.
  apply (success_response_is_audited (H := IntegerNumbers)
           example_cfg all_up (body_of example_input) empty_world
           (snd (Http.generate example_cfg all_up (body_of example_input)
                   empty_world))
           (fst (Http.generate example_cfg all_up (body_of example_input)
                   empty_world))
           (Build_GenerateQrOutput example_token
              (@VString IntegerNumbers (lit "iVBORw0KGgo=")))).
  - vm_compute. reflexivity.
  - vm_compute. reflexivity.
Defined.



(** ** config/index.ts: which variable a failed start names *)

Lemma required_accepts `{JsNumber} (env : Config.environment)
      (key : string) (fallback : option jsstring) :
  key_accepted env (key, fallback) = true ->
  exists v, Config.required env key fallback = Ok v.
Proof.
  unfold key_accepted, Config.required. cbn [fst snd].
  destruct (env key) as [ [ | c v ] | ].
  - discriminate.
  - eauto.
  - destruct fallback as [ [ | c v ] | ]; try discriminate; eauto.
Qed.

Lemma required_rejects `{JsNumber} (env : Config.environment)
      (key : string) (fallback : option jsstring) :
  key_accepted env (key, fallback) = false ->
  Config.required env key fallback
  = Throw (PlainError (lit "Missing required env: " ++ lit key)).
Proof.
  unfold key_accepted, Config.required. cbn [fst snd].
  destruct (env key) as [ [ | c v ] | ].
  - reflexivity.
  - discriminate.
  - destruct fallback as [ [ | c v ] | ]; try discriminate; reflexivity.
Qed.

(** X16.  Loading the configuration reads MONGO_URI, MONGO_DB,
    PYTHON_SERVICE_URL and HMAC_SECRET in that order and fails at the
    first one it cannot use, naming it in [Missing required env: KEY]; a
    variable set to the empty string cannot be used even when a fallback
    exists, so an empty MONGO_DB stops the start although an unset one
    would default.  When all four can be used the configuration loads. *)
Theorem load_names_first_unusable_key `{JsNumber}
  (env : Config.environment)
  (before after : list (string * option jsstring))
  (k : string * option jsstring) :
  required_keys = before ++ k :: after ->
  forallb (key_accepted env) before = true ->
  key_accepted env k = false ->
  Config.load env
  = Throw (PlainError (lit "Missing required env: " ++ lit (fst k)))
  /\ (forall connect,
        Config.serves_traffic (Config.start env connect) = false)
  /\ (forall (env' : Config.environment) (key : string)
             (fallback : option jsstring),
        env' key = Some [] ->
        key_accepted env' (key, fallback) = false)
  /\ (forall env' : Config.environment,
        forallb (key_accepted env') required_keys = true ->
        exists cfg, Config.load env' = Ok cfg).
Proof.
  intros Hkeys Hbefore Hk.
  assert (Hload : Config.load env
                  = Throw (PlainError (lit "Missing required env: "
                                       ++ lit (fst k)))).
  { unfold required_keys in Hkeys. unfold Config.load.
    destruct before as [ | b1 [ | b2 [ | b3 [ | b4 rest ] ] ] ];
      cbn [app] in Hkeys.
    - injection Hkeys as <- _.
      now rewrite (required_rejects env _ _ Hk).
    - injection Hkeys as <- <- _. cbn [forallb] in Hbefore.
      apply andb_true_iff in Hbefore as [A1 _].
      destruct (required_accepts env _ _ A1) as [v1 ->]. cbn [rbind].
      now rewrite (required_rejects env _ _ Hk).
    - injection Hkeys as <- <- <- _. cbn [forallb] in Hbefore.
      apply andb_true_iff in Hbefore as [A1 Hbefore].
      apply andb_true_iff in Hbefore as [A2 _].
      destruct (required_accepts env _ _ A1) as [v1 ->]. cbn [rbind].
      destruct (required_accepts env _ _ A2) as [v2 ->]. cbn [rbind].
      now rewrite (required_rejects env _ _ Hk).
    - injection Hkeys as <- <- <- <- _. cbn [forallb] in Hbefore.
      apply andb_true_iff in Hbefore as [A1 Hbefore].
      apply andb_true_iff in Hbefore as [A2 Hbefore].
      apply andb_true_iff in Hbefore as [A3 _].
      destruct (required_accepts env _ _ A1) as [v1 ->]. cbn [rbind].
      destruct (required_accepts env _ _ A2) as [v2 ->]. cbn [rbind].
      destruct (required_accepts env _ _ A3) as [v3 ->]. cbn [rbind].
      now rewrite (required_rejects env _ _ Hk).
    - apply (f_equal (@List.length _)) in Hkeys.
      cbn [List.length] in Hkeys. rewrite length_app in Hkeys.
      cbn [List.length] in Hkeys. lia. }
  split; [ exact Hload | ].
  split; [ intros connect; unfold Config.start; now rewrite Hload | ].
  split.
  - intros env' key fallback Hempty. unfold key_accepted. cbn [fst].
    now rewrite Hempty.
  - intros env' Hall. unfold required_keys in Hall. cbn [forallb] in Hall.
    apply andb_true_iff in Hall as [A1 Hall].
    apply andb_true_iff in Hall as [A2 Hall].
    apply andb_true_iff in Hall as [A3 Hall].
    apply andb_true_iff in Hall as [A4 _].
    unfold Config.load.
    destruct (required_accepts env' _ _ A1) as [v1 ->]. cbn [rbind].
    destruct (required_accepts env' _ _ A2) as [v2 ->]. cbn [rbind].
    destruct (required_accepts env' _ _ A3) as [v3 ->]. cbn [rbind].
    destruct (required_accepts env' _ _ A4) as [v4 ->]. cbn [rbind].
    eauto.
Qed.

Lemma load_names_first_unusable_key_witness :
  Config.load env_with_empty_db
  = Throw (PlainError (lit "Missing required env: MONGO_DB"))
  /\ Config.serves_traffic (Config.start env_with_empty_db (Ok tt)) = false.
Proof.
  destruct (load_names_first_unusable_key (H := IntegerNumbers)
              env_with_empty_db
              [("MONGO_URI"%string, None)]
              [("PYTHON_SERVICE_URL"%string, None);
               ("HMAC_SECRET"%string, None)]
              ("MONGO_DB"%string, Some (lit "protected_qr"))
              eq_refl eq_refl eq_refl)
    as (Hload & Hserve & _).
  split; [ exact Hload | exact (Hserve (Ok tt)) ].
Defined.

(** ** utils/hex.ts: what hexToBuffer does with text that was not checked *)

(** X17.  [hexToBuffer] never rejects its argument: on text that is not
    hexadecimal throughout it silently stops at the first pair of
    characters that, read through their low bytes as the decoder reads
    them, are not two hexadecimal digits, and returns only the bytes
    before it, which is why [generate] checks every field first. *)
Theorem hexToBuffer_stops_at_first_bad_pair
  (good : jsstring) (n : nat) (c1 c2 : Z) (rest : jsstring) :
  forallb Hex.is_hex_char good = true ->
  List.length good = (2 * n)%nat ->
  Hex.is_hex_char (Buffer.low_byte c1)
  && Hex.is_hex_char (Buffer.low_byte c2) = false ->
  QrService.hexToBuffer (good ++ c1 :: c2 :: rest)
  = QrService.hexToBuffer good
  /\ List.length (QrService.hexToBuffer (good ++ c1 :: c2 :: rest)) = n.
Proof.
  intros Hgood Hlen Hbad.
  assert (Hstop : Buffer.from_hex (c1 :: c2 :: rest) = []).
  { cbn [Buffer.from_hex].
    assert (Hnone : forall c, Hex.is_hex_char (Buffer.low_byte c) = false ->
                              Buffer.unhex c = None).
    { intros c Hc. unfold Hex.is_hex_char in Hc. unfold Buffer.unhex.
      cbv zeta.
      apply orb_false_iff in Hc as [Hc H3].
      apply orb_false_iff in Hc as [H1 H2]. now rewrite H1, H2, H3. }
    apply andb_false_iff in Hbad as [Hc | Hc].
    - now rewrite (Hnone c1 Hc).
    - rewrite (Hnone c2 Hc). now destruct (Buffer.unhex c1). }
  assert (Happ : forall s k,
             forallb Hex.is_hex_char s = true ->
             List.length s = (2 * k)%nat ->
             Buffer.from_hex (s ++ c1 :: c2 :: rest) = Buffer.from_hex s).
  { induction s as [ | c | a b s IH ] using list_ind2; intros k Hs Hk.
    - cbn [app]. rewrite Hstop. reflexivity.
    - cbn [List.length] in Hk. lia.
    - cbn [forallb] in Hs.
      apply andb_true_iff in Hs as [Ha Hs].
      apply andb_true_iff in Hs as [Hb Hs].
      destruct (unhex_hex_char a Ha) as (va & Ea & _).
      destruct (unhex_hex_char b Hb) as (vb & Eb & _).
      destruct k as [ | k ]; [ discriminate | ].
      cbn [List.length] in Hk.
      cbn [app Buffer.from_hex]. rewrite Ea, Eb.
      f_equal. apply (IH k Hs). lia. }
  unfold QrService.hexToBuffer. rewrite (Happ good n Hgood Hlen).
  split; [ reflexivity | ].
  exact (proj1 (from_hex_digits good n Hgood Hlen)).
Qed.

Lemma hexToBuffer_stops_at_first_bad_pair_witness :
  QrService.hexToBuffer (lit "a1b2" ++ ch "z" :: ch "9" :: lit "c3d4")
  = QrService.hexToBuffer (lit "a1b2")
  /\ List.length
       (QrService.hexToBuffer (lit "a1b2" ++ ch "z" :: ch "9" :: lit "c3d4"))
     = 2%nat.
Proof.
  apply (hexToBuffer_stops_at_first_bad_pair (lit "a1b2") 2 (ch "z")
           (ch "9") (lit "c3d4")); reflexivity.
Defined.

(** ** The controller in front of the service *)

(** The first failed check of [generate], when there is one. *)
Lemma validate_throws (input : GenerateQrInput) (e : exn) :
  QrService.validate input = Throw e ->
  exists f,
    In f (checked_fields input)
    /\ field_valid f = false
    /\ e = HttpException 400 (violation f) None.
Proof.
  unfold QrService.validate, checked_fields.
  set (f1 := (lit "data_hash", data_hash input, 8)).
  set (f2 := (lit "metadata_series", metadata_series input, 16)).
  set (f3 := (lit "metadata_issued", metadata_issued input, 16)).
  set (f4 := (lit "metadata_expiry", metadata_expiry input, 16)).
  destruct (field_valid f1) eqn:V1.
  2:{ rewrite (assertHexLength_invalid _ _ _ V1). cbn [rbind].
      intros [= <-]. exists f1. cbn [In]. auto. }
  rewrite (assertHexLength_valid _ _ _ V1). cbn [rbind].
  destruct (field_valid f2) eqn:V2.
  2:{ rewrite (assertHexLength_invalid _ _ _ V2). cbn [rbind].
      intros [= <-]. exists f2. cbn [In]. auto. }
  rewrite (assertHexLength_valid _ _ _ V2). cbn [rbind].
  destruct (field_valid f3) eqn:V3.
  2:{ rewrite (assertHexLength_invalid _ _ _ V3). cbn [rbind].
      intros [= <-]. exists f3. cbn [In]. auto. }
  rewrite (assertHexLength_valid _ _ _ V3). cbn [rbind].
  destruct (field_valid f4) eqn:V4.
  1:{ rewrite (assertHexLength_valid _ _ _ V4). discriminate. }
  rewrite (assertHexLength_invalid _ _ _ V4).
  intros [= <-]. exists f4. cbn [In]. auto 6.
Qed.

(** The schema hands the service fields of the required lengths. *)
Lemma safeParse_lengths `{JsNumber} (body_ : Http.GenerateBody)
      (input : GenerateQrInput) :
  Http.generateQrSchema_safeParse body_ = inl input ->
  forall f, In f (checked_fields input) ->
            jslength (snd (fst f)) = snd f.
Proof.
  unfold Http.generateQrSchema_safeParse, Http.string_of_length.
  destruct body_ as [ [ b1 b2 b3 b4 ] | ];
    [ | intros Hparse; discriminate Hparse ].
  cbv zeta.
  cbn [Http.body_data_hash Http.body_metadata_series
       Http.body_metadata_issued Http.body_metadata_expiry].
  intros Hparse.
  destruct b1 as [ | | | | s1 | ]; try discriminate Hparse;
    destruct (jslength s1 =? 8) eqn:L1; try discriminate Hparse;
    destruct b2 as [ | | | | s2 | ]; try discriminate Hparse;
    destruct (jslength s2 =? 16) eqn:L2; try discriminate Hparse;
    destruct b3 as [ | | | | s3 | ]; try discriminate Hparse;
    destruct (jslength s3 =? 16) eqn:L3; try discriminate Hparse;
    destruct b4 as [ | | | | s4 | ]; try discriminate Hparse;
    destruct (jslength s4 =? 16) eqn:L4; try discriminate Hparse.
  injection Hparse as <-. unfold checked_fields.
  cbn [data_hash metadata_series metadata_issued metadata_expiry In].
  intros f [ <- | [ <- | [ <- | [ <- | [] ] ] ] ]; cbn [fst snd]; lia.
Qed.

(** X18.  Behind the controller the length check of [assertHexLength] can
    no longer fail, because the schema has already fixed the lengths: when
    a request passes the schema and the service still rejects it, the
    response is status 400 with the message [FIELD must be hex string]
    for one of the four fields, without details, and nothing was asked of
    the pattern service or the store. *)
Theorem controller_rejection_is_not_hex `{JsNumber}
  (cfg : Config.config) (out : Outside) (body_ : Http.GenerateBody)
  (input : GenerateQrInput) (e : exn) (w : World) :
  Http.generateQrSchema_safeParse body_ = inl input ->
  QrService.validate input = Throw e ->
  exists label,
    In label [lit "data_hash"; lit "metadata_series";
              lit "metadata_issued"; lit "metadata_expiry"]
    /\ Http.generate cfg out body_ w
       = ({| Http.status := 400;
             Http.body :=
               Http.ApiError (label ++ lit " must be hex string") None |},
          with_calls w [Log warn (label ++ lit " must be hex string")]).
Proof.
  intros Hparse Hthrow.
  destruct (validate_throws input e Hthrow) as (f & Hin & Hf & ->).
  pose proof (safeParse_lengths body_ input Hparse f Hin) as Hlen.
  destruct f as [[label value] n]. cbn [fst snd] in Hlen.
  assert (Hmessage : violation (label, value, n)
                     = label ++ lit " must be hex string").
  { cbn [field_valid violation] in *.
    destruct (Hex.hex_regex_test value); [ | reflexivity ].
    cbn [andb] in Hf. lia. }
  exists label. split.
  - unfold checked_fields in Hin. cbn [In] in Hin |- *.
    destruct Hin as [ E | [ E | [ E | [ E | [] ] ] ] ];
      injection E as <- _ _; auto.
  - unfold Http.generate, Http.handled. rewrite Hparse. unfold bind.
    rewrite (generate_rejects cfg out input _ w Hthrow).
    cbn [Http.errorHandler]. rewrite Hmessage. reflexivity.
Qed.

Lemma controller_rejection_is_not_hex_witness :
  exists label,
    In label [lit "data_hash"; lit "metadata_series";
              lit "metadata_issued"; lit "metadata_expiry"]
    /\ Http.generate example_cfg all_up (body_of doubly_invalid_input)
         empty_world
       = ({| Http.status := 400;
             Http.body :=
               Http.ApiError (label ++ lit " must be hex string") None |},
          with_calls empty_world
            [Log warn (label ++ lit " must be hex string")]).
Proof.
  apply (controller_rejection_is_not_hex (H := IntegerNumbers)
           example_cfg all_up (body_of doubly_invalid_input)
           doubly_invalid_input
           (HttpException 400 (lit "data_hash must be hex string") None)
           empty_world); reflexivity.
Defined.

(** X19.  When the pattern service fails during a generate request that
    passed both checks, the response is status 500 with the client
    error's message and no details; the error is logged once at level
    [error], the audit write is not attempted and both collections are as
    before. *)
Theorem upstream_failure_is_a_500 `{JsNumber}
  (cfg : Config.config) (out : Outside) (input : GenerateQrInput)
  (message : jsstring) (w : World) :
  QrService.validate input = Ok tt ->
  0 <= Date_now out < 2 ^ 48 ->
  let token_ :=
    QrService.make_token (Config.hmacSecret cfg)
      (QrService.payloadBinary (Buffer.big_endian 6 (Date_now out)) input) in
  post_generate out token_ = Throw (ExternalError message) ->
  let answered := Http.generate cfg out (body_of input) w in
  fst answered
  = {| Http.status := 500; Http.body := Http.ApiError message None |}
  /\ calls (snd answered)
     = calls w ++ [render_call cfg token_; Log error message]
  /\ qr_audit (snd answered) = qr_audit w
  /\ qr_verify_logs (snd answered) = qr_verify_logs w.
Proof.
  intros Hvalid Hts token_ Hrender. cbv zeta.
  unfold Http.generate, Http.handled.
  rewrite (safeParse_valid input Hvalid). unfold bind.
  rewrite generate_outcome, Hvalid, (writeUIntBE6_in_range _ Hts).
  cbv zeta. fold token_. rewrite Hrender.
  cbn [Http.errorHandler exn_message Http.logger with_calls fst snd
       qr_audit qr_verify_logs calls].
  rewrite <- app_assoc. repeat split.
Qed.

Lemma upstream_failure_is_a_500_witness :
  fst (Http.generate example_cfg detector_down (body_of example_input)
         empty_world)
  = {| Http.status := 500;
       Http.body :=
         Http.ApiError (lit "timeout of 10000ms exceeded") None |}
  /\ qr_audit
       (snd (Http.generate example_cfg detector_down
               (body_of example_input) empty_world)) = [].
Proof.
  assert (Hts : 0 <= Date_now detector_down < 2 ^ 48)
    by (split; [ discriminate | reflexivity ]).
  destruct (upstream_failure_is_a_500 (H := IntegerNumbers)
              example_cfg detector_down example_input
              (lit "timeout of 10000ms exceeded") empty_world
              eq_refl Hts eq_refl)
    as (Hresponse & _ & Haudit & _).
  split; [ exact Hresponse | exact Haudit ].
Defined.
